(** * prov2ld: PROV-JSON -> PROV-JSONLD -> Graphviz DOT

    A shallow embedding of [src/prov2ld.py] (class
    [ProvJsonToJsonldConverter]) and [src/ld2viz.py] (class
    [ProvJsonldToGraphviz]), followed by the properties of the two
    converters.

    Conventions of the embedding.
    - Parsed JSON is the inductive type [json].  A Python [dict] is an
      association list in insertion order; [dict_set] overwrites in place
      and appends new keys, as Python does.
    - A Python [str] is the Rocq string of its UTF-8 encoding, one [ascii]
      per byte.  Comparison, [startswith], and search, [split] and
      [replace] with ASCII arguments are the same on the bytes as on the
      characters.  [len], [s[:n]], iteration, [isalnum] and [repr] go
      through the characters ([PyStr.characters]) and their code points
      ([PyStr.ord]); the character classes are those of Unicode 14.0, the
      tables of CPython 3.11.
    - A Python [float] is carried by its [repr] text ([JFloat]); no
      arithmetic is ever done on it by the two converters.
    - A function that may raise returns [option]: [Some r] means the
      Python call returns [r].  [None] means that the call raises, or that
      it leaves the model: an argument is not of the declared parameter
      type (a non-dict where [Dict[str, Any]] is declared), or a dict with
      a key that is not a string would be built.  The places of the second
      kind are marked where they occur; no property below is drawn from a
      [None]. *)

From Stdlib Require Import String Ascii List ZArith NArith Bool Lia.
From Stdlib Require Import DecimalString DecimalNat.
Import ListNotations.
Open Scope string_scope.

(** ** Python string operations used by the source *)

Module PyStr.

(** The double quote character, and a real line feed (Python's ['\n']).
    The two-character text backslash-n (Python's ['\\n']) is the Rocq
    literal ["\n"]. *)
Definition dq : string := String (ascii_of_nat 34) "".
Definition lf : string := String (ascii_of_nat 10) "".

(** [s.startswith(p)] *)
Fixpoint startswith (s p : string) : bool :=
  match p, s with
  | "", _ => true
  | String _ _, "" => false
  | String b p', String a s' => Ascii.eqb a b && startswith s' p'
  end.

(** [c in s] for a one-character [c] *)
Fixpoint contains (c : ascii) (s : string) : bool :=
  match s with
  | "" => false
  | String a r => Ascii.eqb a c || contains c r
  end.

(** [s.replace(a, b)] for one-character [a] and [b] *)
Fixpoint replace (a b : ascii) (s : string) : string :=
  match s with
  | "" => ""
  | String c r => String (if Ascii.eqb c a then b else c) (replace a b r)
  end.

(** [s.replace(a, '')] for a one-character [a] *)
Fixpoint remove (a : ascii) (s : string) : string :=
  match s with
  | "" => ""
  | String c r => if Ascii.eqb c a then remove a r else String c (remove a r)
  end.

(** [s.split(c)]: never empty, one more piece than occurrences of [c] *)
Fixpoint split (c : ascii) (s : string) : list string :=
  match s with
  | "" => [""]
  | String a r =>
      if Ascii.eqb a c then "" :: split c r
      else match split c r with
           | [] => [String a ""]
           | p :: ps => String a p :: ps
           end
  end.

(** [s.split(c, 1)]: at most one cut, at the first [c] *)
Fixpoint split1 (c : ascii) (s : string) : list string :=
  match s with
  | "" => [""]
  | String a r =>
      if Ascii.eqb a c then [""; r]
      else match split1 c r with
           | [] => [String a ""]
           | p :: ps => String a p :: ps
           end
  end.

(** [s] without its first [n] bytes: [s[len(p):]] for a prefix [p] of [n]
    bytes *)
Fixpoint drop (n : nat) (s : string) : string :=
  match n, s with
  | O, _ => s
  | S _, "" => ""
  | S m, String _ r => drop m r
  end.

(** [sep.join(ls)] *)
Definition join (sep : string) (ls : list string) : string :=
  String.concat sep ls.

Fixpoint all_chars (p : ascii -> bool) (s : string) : bool :=
  match s with
  | "" => true
  | String a r => p a && all_chars p r
  end.

(** *** Characters

    A character is a byte that does not continue a character, together
    with the continuation bytes that follow it. *)

Definition byte (c : ascii) : N := N_of_ascii c.

(** A continuation byte, [10xxxxxx] *)
Definition is_cont (c : ascii) : bool :=
  (128 <=? byte c)%N && (byte c <? 192)%N.

Definition starts_cont (s : string) : bool :=
  match s with
  | "" => false
  | String d _ => is_cont d
  end.

(** [list(s)]: the characters of [s] *)
Fixpoint characters (s : string) : list string :=
  match s with
  | "" => []
  | String c r =>
      match characters r with
      | p :: ps =>
          if starts_cont r then String c p :: ps else String c "" :: p :: ps
      | [] => [String c ""]
      end
  end.

(** [''.join(cs)] *)
Definition cat (cs : list string) : string := fold_right String.append "" cs.

(** [len(s)] and [s[:n]] *)
Definition len (s : string) : nat := List.length (characters s).

Definition first_chars (n : nat) (s : string) : string :=
  cat (firstn n (characters s)).

Definition cont_bits (c : ascii) : option N :=
  if is_cont c then Some (byte c - 128)%N else None.

(** [ord(ch)] for one character; [None] when the bytes are not the
    encoding of a character *)
Definition ord (ch : string) : option N :=
  match ch with
  | String c0 "" => if (byte c0 <? 128)%N then Some (byte c0) else None
  | String c0 (String c1 "") =>
      if (194 <=? byte c0)%N && (byte c0 <? 224)%N then
        match cont_bits c1 with
        | Some b1 => Some ((byte c0 - 192) * 64 + b1)%N
        | None => None
        end
      else None
  | String c0 (String c1 (String c2 "")) =>
      if (224 <=? byte c0)%N && (byte c0 <? 240)%N then
        match cont_bits c1, cont_bits c2 with
        | Some b1, Some b2 =>
            let n := ((byte c0 - 224) * 4096 + b1 * 64 + b2)%N in
            if (2048 <=? n)%N then Some n else None
        | _, _ => None
        end
      else None
  | String c0 (String c1 (String c2 (String c3 ""))) =>
      if (240 <=? byte c0)%N && (byte c0 <? 245)%N then
        match cont_bits c1, cont_bits c2, cont_bits c3 with
        | Some b1, Some b2, Some b3 =>
            let n :=
              ((byte c0 - 240) * 262144 + b1 * 4096 + b2 * 64 + b3)%N in
            if (65536 <=? n)%N && (n <? 1114112)%N then Some n else None
        | _, _, _ => None
        end
      else None
  | _ => None
  end.

Definition is_char (ch : string) : bool :=
  match ord ch with
  | Some _ => true
  | None => false
  end.

(** The bytes are the encoding of a [str] *)
Definition well_formed (s : string) : bool := forallb is_char (characters s).

(** Membership in a table of inclusive ranges in ascending order *)
Fixpoint in_ranges (n : N) (ranges : list (N * N)) : bool :=
  match ranges with
  | [] => false
  | (lo, hi) :: r =>
      if (n <? lo)%N then false
      else if (n <=? hi)%N then true
      else in_ranges n r
  end.

(** The code points on which [str.isalnum] holds, as inclusive ranges in
    ascending order *)
Definition ALNUM : list (N * N) :=
  [ (48, 57); (65, 90); (97, 122); (170, 170); (178, 179); (181, 181);
    (185, 186); (188, 190); (192, 214); (216, 246); (248, 705); (710, 721);
    (736, 740); (748, 748); (750, 750); (880, 884); (886, 887); (890, 893);
    (895, 895); (902, 902); (904, 906); (908, 908); (910, 929);
    (931, 1013); (1015, 1153); (1162, 1327); (1329, 1366); (1369, 1369);
    (1376, 1416); (1488, 1514); (1519, 1522); (1568, 1610); (1632, 1641);
    (1646, 1647); (1649, 1747); (1749, 1749); (1765, 1766); (1774, 1788);
    (1791, 1791); (1808, 1808); (1810, 1839); (1869, 1957); (1969, 1969);
    (1984, 2026); (2036, 2037); (2042, 2042); (2048, 2069); (2074, 2074);
    (2084, 2084); (2088, 2088); (2112, 2136); (2144, 2154); (2160, 2183);
    (2185, 2190); (2208, 2249); (2308, 2361); (2365, 2365); (2384, 2384);
    (2392, 2401); (2406, 2415); (2417, 2432); (2437, 2444); (2447, 2448);
    (2451, 2472); (2474, 2480); (2482, 2482); (2486, 2489); (2493, 2493);
    (2510, 2510); (2524, 2525); (2527, 2529); (2534, 2545); (2548, 2553);
    (2556, 2556); (2565, 2570); (2575, 2576); (2579, 2600); (2602, 2608);
    (2610, 2611); (2613, 2614); (2616, 2617); (2649, 2652); (2654, 2654);
    (2662, 2671); (2674, 2676); (2693, 2701); (2703, 2705); (2707, 2728);
    (2730, 2736); (2738, 2739); (2741, 2745); (2749, 2749); (2768, 2768);
    (2784, 2785); (2790, 2799); (2809, 2809); (2821, 2828); (2831, 2832);
    (2835, 2856); (2858, 2864); (2866, 2867); (2869, 2873); (2877, 2877);
    (2908, 2909); (2911, 2913); (2918, 2927); (2929, 2935); (2947, 2947);
    (2949, 2954); (2958, 2960); (2962, 2965); (2969, 2970); (2972, 2972);
    (2974, 2975); (2979, 2980); (2984, 2986); (2990, 3001); (3024, 3024);
    (3046, 3058); (3077, 3084); (3086, 3088); (3090, 3112); (3114, 3129);
    (3133, 3133); (3160, 3162); (3165, 3165); (3168, 3169); (3174, 3183);
    (3192, 3198); (3200, 3200); (3205, 3212); (3214, 3216); (3218, 3240);
    (3242, 3251); (3253, 3257); (3261, 3261); (3293, 3294); (3296, 3297);
    (3302, 3311); (3313, 3314); (3332, 3340); (3342, 3344); (3346, 3386);
    (3389, 3389); (3406, 3406); (3412, 3414); (3416, 3425); (3430, 3448);
    (3450, 3455); (3461, 3478); (3482, 3505); (3507, 3515); (3517, 3517);
    (3520, 3526); (3558, 3567); (3585, 3632); (3634, 3635); (3648, 3654);
    (3664, 3673); (3713, 3714); (3716, 3716); (3718, 3722); (3724, 3747);
    (3749, 3749); (3751, 3760); (3762, 3763); (3773, 3773); (3776, 3780);
    (3782, 3782); (3792, 3801); (3804, 3807); (3840, 3840); (3872, 3891);
    (3904, 3911); (3913, 3948); (3976, 3980); (4096, 4138); (4159, 4169);
    (4176, 4181); (4186, 4189); (4193, 4193); (4197, 4198); (4206, 4208);
    (4213, 4225); (4238, 4238); (4240, 4249); (4256, 4293); (4295, 4295);
    (4301, 4301); (4304, 4346); (4348, 4680); (4682, 4685); (4688, 4694);
    (4696, 4696); (4698, 4701); (4704, 4744); (4746, 4749); (4752, 4784);
    (4786, 4789); (4792, 4798); (4800, 4800); (4802, 4805); (4808, 4822);
    (4824, 4880); (4882, 4885); (4888, 4954); (4969, 4988); (4992, 5007);
    (5024, 5109); (5112, 5117); (5121, 5740); (5743, 5759); (5761, 5786);
    (5792, 5866); (5870, 5880); (5888, 5905); (5919, 5937); (5952, 5969);
    (5984, 5996); (5998, 6000); (6016, 6067); (6103, 6103); (6108, 6108);
    (6112, 6121); (6128, 6137); (6160, 6169); (6176, 6264); (6272, 6276);
    (6279, 6312); (6314, 6314); (6320, 6389); (6400, 6430); (6470, 6509);
    (6512, 6516); (6528, 6571); (6576, 6601); (6608, 6618); (6656, 6678);
    (6688, 6740); (6784, 6793); (6800, 6809); (6823, 6823); (6917, 6963);
    (6981, 6988); (6992, 7001); (7043, 7072); (7086, 7141); (7168, 7203);
    (7232, 7241); (7245, 7293); (7296, 7304); (7312, 7354); (7357, 7359);
    (7401, 7404); (7406, 7411); (7413, 7414); (7418, 7418); (7424, 7615);
    (7680, 7957); (7960, 7965); (7968, 8005); (8008, 8013); (8016, 8023);
    (8025, 8025); (8027, 8027); (8029, 8029); (8031, 8061); (8064, 8116);
    (8118, 8124); (8126, 8126); (8130, 8132); (8134, 8140); (8144, 8147);
    (8150, 8155); (8160, 8172); (8178, 8180); (8182, 8188); (8304, 8305);
    (8308, 8313); (8319, 8329); (8336, 8348); (8450, 8450); (8455, 8455);
    (8458, 8467); (8469, 8469); (8473, 8477); (8484, 8484); (8486, 8486);
    (8488, 8488); (8490, 8493); (8495, 8505); (8508, 8511); (8517, 8521);
    (8526, 8526); (8528, 8585); (9312, 9371); (9450, 9471); (10102, 10131);
    (11264, 11492); (11499, 11502); (11506, 11507); (11517, 11517);
    (11520, 11557); (11559, 11559); (11565, 11565); (11568, 11623);
    (11631, 11631); (11648, 11670); (11680, 11686); (11688, 11694);
    (11696, 11702); (11704, 11710); (11712, 11718); (11720, 11726);
    (11728, 11734); (11736, 11742); (11823, 11823); (12293, 12295);
    (12321, 12329); (12337, 12341); (12344, 12348); (12353, 12438);
    (12445, 12447); (12449, 12538); (12540, 12543); (12549, 12591);
    (12593, 12686); (12690, 12693); (12704, 12735); (12784, 12799);
    (12832, 12841); (12872, 12879); (12881, 12895); (12928, 12937);
    (12977, 12991); (13312, 19903); (19968, 42124); (42192, 42237);
    (42240, 42508); (42512, 42539); (42560, 42606); (42623, 42653);
    (42656, 42735); (42775, 42783); (42786, 42888); (42891, 42954);
    (42960, 42961); (42963, 42963); (42965, 42969); (42994, 43009);
    (43011, 43013); (43015, 43018); (43020, 43042); (43056, 43061);
    (43072, 43123); (43138, 43187); (43216, 43225); (43250, 43255);
    (43259, 43259); (43261, 43262); (43264, 43301); (43312, 43334);
    (43360, 43388); (43396, 43442); (43471, 43481); (43488, 43492);
    (43494, 43518); (43520, 43560); (43584, 43586); (43588, 43595);
    (43600, 43609); (43616, 43638); (43642, 43642); (43646, 43695);
    (43697, 43697); (43701, 43702); (43705, 43709); (43712, 43712);
    (43714, 43714); (43739, 43741); (43744, 43754); (43762, 43764);
    (43777, 43782); (43785, 43790); (43793, 43798); (43808, 43814);
    (43816, 43822); (43824, 43866); (43868, 43881); (43888, 44002);
    (44016, 44025); (44032, 55203); (55216, 55238); (55243, 55291);
    (63744, 64109); (64112, 64217); (64256, 64262); (64275, 64279);
    (64285, 64285); (64287, 64296); (64298, 64310); (64312, 64316);
    (64318, 64318); (64320, 64321); (64323, 64324); (64326, 64433);
    (64467, 64829); (64848, 64911); (64914, 64967); (65008, 65019);
    (65136, 65140); (65142, 65276); (65296, 65305); (65313, 65338);
    (65345, 65370); (65382, 65470); (65474, 65479); (65482, 65487);
    (65490, 65495); (65498, 65500); (65536, 65547); (65549, 65574);
    (65576, 65594); (65596, 65597); (65599, 65613); (65616, 65629);
    (65664, 65786); (65799, 65843); (65856, 65912); (65930, 65931);
    (66176, 66204); (66208, 66256); (66273, 66299); (66304, 66339);
    (66349, 66378); (66384, 66421); (66432, 66461); (66464, 66499);
    (66504, 66511); (66513, 66517); (66560, 66717); (66720, 66729);
    (66736, 66771); (66776, 66811); (66816, 66855); (66864, 66915);
    (66928, 66938); (66940, 66954); (66956, 66962); (66964, 66965);
    (66967, 66977); (66979, 66993); (66995, 67001); (67003, 67004);
    (67072, 67382); (67392, 67413); (67424, 67431); (67456, 67461);
    (67463, 67504); (67506, 67514); (67584, 67589); (67592, 67592);
    (67594, 67637); (67639, 67640); (67644, 67644); (67647, 67669);
    (67672, 67702); (67705, 67742); (67751, 67759); (67808, 67826);
    (67828, 67829); (67835, 67867); (67872, 67897); (67968, 68023);
    (68028, 68047); (68050, 68096); (68112, 68115); (68117, 68119);
    (68121, 68149); (68160, 68168); (68192, 68222); (68224, 68255);
    (68288, 68295); (68297, 68324); (68331, 68335); (68352, 68405);
    (68416, 68437); (68440, 68466); (68472, 68497); (68521, 68527);
    (68608, 68680); (68736, 68786); (68800, 68850); (68858, 68899);
    (68912, 68921); (69216, 69246); (69248, 69289); (69296, 69297);
    (69376, 69415); (69424, 69445); (69457, 69460); (69488, 69505);
    (69552, 69579); (69600, 69622); (69635, 69687); (69714, 69743);
    (69745, 69746); (69749, 69749); (69763, 69807); (69840, 69864);
    (69872, 69881); (69891, 69926); (69942, 69951); (69956, 69956);
    (69959, 69959); (69968, 70002); (70006, 70006); (70019, 70066);
    (70081, 70084); (70096, 70106); (70108, 70108); (70113, 70132);
    (70144, 70161); (70163, 70187); (70272, 70278); (70280, 70280);
    (70282, 70285); (70287, 70301); (70303, 70312); (70320, 70366);
    (70384, 70393); (70405, 70412); (70415, 70416); (70419, 70440);
    (70442, 70448); (70450, 70451); (70453, 70457); (70461, 70461);
    (70480, 70480); (70493, 70497); (70656, 70708); (70727, 70730);
    (70736, 70745); (70751, 70753); (70784, 70831); (70852, 70853);
    (70855, 70855); (70864, 70873); (71040, 71086); (71128, 71131);
    (71168, 71215); (71236, 71236); (71248, 71257); (71296, 71338);
    (71352, 71352); (71360, 71369); (71424, 71450); (71472, 71483);
    (71488, 71494); (71680, 71723); (71840, 71922); (71935, 71942);
    (71945, 71945); (71948, 71955); (71957, 71958); (71960, 71983);
    (71999, 71999); (72001, 72001); (72016, 72025); (72096, 72103);
    (72106, 72144); (72161, 72161); (72163, 72163); (72192, 72192);
    (72203, 72242); (72250, 72250); (72272, 72272); (72284, 72329);
    (72349, 72349); (72368, 72440); (72704, 72712); (72714, 72750);
    (72768, 72768); (72784, 72812); (72818, 72847); (72960, 72966);
    (72968, 72969); (72971, 73008); (73030, 73030); (73040, 73049);
    (73056, 73061); (73063, 73064); (73066, 73097); (73112, 73112);
    (73120, 73129); (73440, 73458); (73648, 73648); (73664, 73684);
    (73728, 74649); (74752, 74862); (74880, 75075); (77712, 77808);
    (77824, 78894); (82944, 83526); (92160, 92728); (92736, 92766);
    (92768, 92777); (92784, 92862); (92864, 92873); (92880, 92909);
    (92928, 92975); (92992, 92995); (93008, 93017); (93019, 93025);
    (93027, 93047); (93053, 93071); (93760, 93846); (93952, 94026);
    (94032, 94032); (94099, 94111); (94176, 94177); (94179, 94179);
    (94208, 100343); (100352, 101589); (101632, 101640); (110576, 110579);
    (110581, 110587); (110589, 110590); (110592, 110882); (110928, 110930);
    (110948, 110951); (110960, 111355); (113664, 113770); (113776, 113788);
    (113792, 113800); (113808, 113817); (119520, 119539); (119648, 119672);
    (119808, 119892); (119894, 119964); (119966, 119967); (119970, 119970);
    (119973, 119974); (119977, 119980); (119982, 119993); (119995, 119995);
    (119997, 120003); (120005, 120069); (120071, 120074); (120077, 120084);
    (120086, 120092); (120094, 120121); (120123, 120126); (120128, 120132);
    (120134, 120134); (120138, 120144); (120146, 120485); (120488, 120512);
    (120514, 120538); (120540, 120570); (120572, 120596); (120598, 120628);
    (120630, 120654); (120656, 120686); (120688, 120712); (120714, 120744);
    (120746, 120770); (120772, 120779); (120782, 120831); (122624, 122654);
    (123136, 123180); (123191, 123197); (123200, 123209); (123214, 123214);
    (123536, 123565); (123584, 123627); (123632, 123641); (124896, 124902);
    (124904, 124907); (124909, 124910); (124912, 124926); (124928, 125124);
    (125127, 125135); (125184, 125251); (125259, 125259); (125264, 125273);
    (126065, 126123); (126125, 126127); (126129, 126132); (126209, 126253);
    (126255, 126269); (126464, 126467); (126469, 126495); (126497, 126498);
    (126500, 126500); (126503, 126503); (126505, 126514); (126516, 126519);
    (126521, 126521); (126523, 126523); (126530, 126530); (126535, 126535);
    (126537, 126537); (126539, 126539); (126541, 126543); (126545, 126546);
    (126548, 126548); (126551, 126551); (126553, 126553); (126555, 126555);
    (126557, 126557); (126559, 126559); (126561, 126562); (126564, 126564);
    (126567, 126570); (126572, 126578); (126580, 126583); (126585, 126588);
    (126590, 126590); (126592, 126601); (126603, 126619); (126625, 126627);
    (126629, 126633); (126635, 126651); (127232, 127244); (130032, 130041);
    (131072, 173791); (173824, 177976); (177984, 178205); (178208, 183969);
    (183984, 191456); (194560, 195101); (196608, 201546) ]%N.

(** The code points on which [str.isprintable] fails, which [repr] writes
    as escapes *)
Definition NOT_PRINTABLE : list (N * N) :=
  [ (0, 31); (127, 160); (173, 173); (888, 889); (896, 899); (907, 907);
    (909, 909); (930, 930); (1328, 1328); (1367, 1368); (1419, 1420);
    (1424, 1424); (1480, 1487); (1515, 1518); (1525, 1541); (1564, 1564);
    (1757, 1757); (1806, 1807); (1867, 1868); (1970, 1983); (2043, 2044);
    (2094, 2095); (2111, 2111); (2140, 2141); (2143, 2143); (2155, 2159);
    (2191, 2199); (2274, 2274); (2436, 2436); (2445, 2446); (2449, 2450);
    (2473, 2473); (2481, 2481); (2483, 2485); (2490, 2491); (2501, 2502);
    (2505, 2506); (2511, 2518); (2520, 2523); (2526, 2526); (2532, 2533);
    (2559, 2560); (2564, 2564); (2571, 2574); (2577, 2578); (2601, 2601);
    (2609, 2609); (2612, 2612); (2615, 2615); (2618, 2619); (2621, 2621);
    (2627, 2630); (2633, 2634); (2638, 2640); (2642, 2648); (2653, 2653);
    (2655, 2661); (2679, 2688); (2692, 2692); (2702, 2702); (2706, 2706);
    (2729, 2729); (2737, 2737); (2740, 2740); (2746, 2747); (2758, 2758);
    (2762, 2762); (2766, 2767); (2769, 2783); (2788, 2789); (2802, 2808);
    (2816, 2816); (2820, 2820); (2829, 2830); (2833, 2834); (2857, 2857);
    (2865, 2865); (2868, 2868); (2874, 2875); (2885, 2886); (2889, 2890);
    (2894, 2900); (2904, 2907); (2910, 2910); (2916, 2917); (2936, 2945);
    (2948, 2948); (2955, 2957); (2961, 2961); (2966, 2968); (2971, 2971);
    (2973, 2973); (2976, 2978); (2981, 2983); (2987, 2989); (3002, 3005);
    (3011, 3013); (3017, 3017); (3022, 3023); (3025, 3030); (3032, 3045);
    (3067, 3071); (3085, 3085); (3089, 3089); (3113, 3113); (3130, 3131);
    (3141, 3141); (3145, 3145); (3150, 3156); (3159, 3159); (3163, 3164);
    (3166, 3167); (3172, 3173); (3184, 3190); (3213, 3213); (3217, 3217);
    (3241, 3241); (3252, 3252); (3258, 3259); (3269, 3269); (3273, 3273);
    (3278, 3284); (3287, 3292); (3295, 3295); (3300, 3301); (3312, 3312);
    (3315, 3327); (3341, 3341); (3345, 3345); (3397, 3397); (3401, 3401);
    (3408, 3411); (3428, 3429); (3456, 3456); (3460, 3460); (3479, 3481);
    (3506, 3506); (3516, 3516); (3518, 3519); (3527, 3529); (3531, 3534);
    (3541, 3541); (3543, 3543); (3552, 3557); (3568, 3569); (3573, 3584);
    (3643, 3646); (3676, 3712); (3715, 3715); (3717, 3717); (3723, 3723);
    (3748, 3748); (3750, 3750); (3774, 3775); (3781, 3781); (3783, 3783);
    (3790, 3791); (3802, 3803); (3808, 3839); (3912, 3912); (3949, 3952);
    (3992, 3992); (4029, 4029); (4045, 4045); (4059, 4095); (4294, 4294);
    (4296, 4300); (4302, 4303); (4681, 4681); (4686, 4687); (4695, 4695);
    (4697, 4697); (4702, 4703); (4745, 4745); (4750, 4751); (4785, 4785);
    (4790, 4791); (4799, 4799); (4801, 4801); (4806, 4807); (4823, 4823);
    (4881, 4881); (4886, 4887); (4955, 4956); (4989, 4991); (5018, 5023);
    (5110, 5111); (5118, 5119); (5760, 5760); (5789, 5791); (5881, 5887);
    (5910, 5918); (5943, 5951); (5972, 5983); (5997, 5997); (6001, 6001);
    (6004, 6015); (6110, 6111); (6122, 6127); (6138, 6143); (6158, 6158);
    (6170, 6175); (6265, 6271); (6315, 6319); (6390, 6399); (6431, 6431);
    (6444, 6447); (6460, 6463); (6465, 6467); (6510, 6511); (6517, 6527);
    (6572, 6575); (6602, 6607); (6619, 6621); (6684, 6685); (6751, 6751);
    (6781, 6782); (6794, 6799); (6810, 6815); (6830, 6831); (6863, 6911);
    (6989, 6991); (7039, 7039); (7156, 7163); (7224, 7226); (7242, 7244);
    (7305, 7311); (7355, 7356); (7368, 7375); (7419, 7423); (7958, 7959);
    (7966, 7967); (8006, 8007); (8014, 8015); (8024, 8024); (8026, 8026);
    (8028, 8028); (8030, 8030); (8062, 8063); (8117, 8117); (8133, 8133);
    (8148, 8149); (8156, 8156); (8176, 8177); (8181, 8181); (8191, 8207);
    (8232, 8239); (8287, 8303); (8306, 8307); (8335, 8335); (8349, 8351);
    (8385, 8399); (8433, 8447); (8588, 8591); (9255, 9279); (9291, 9311);
    (11124, 11125); (11158, 11158); (11508, 11512); (11558, 11558);
    (11560, 11564); (11566, 11567); (11624, 11630); (11633, 11646);
    (11671, 11679); (11687, 11687); (11695, 11695); (11703, 11703);
    (11711, 11711); (11719, 11719); (11727, 11727); (11735, 11735);
    (11743, 11743); (11870, 11903); (11930, 11930); (12020, 12031);
    (12246, 12271); (12284, 12288); (12352, 12352); (12439, 12440);
    (12544, 12548); (12592, 12592); (12687, 12687); (12772, 12783);
    (12831, 12831); (42125, 42127); (42183, 42191); (42540, 42559);
    (42744, 42751); (42955, 42959); (42962, 42962); (42964, 42964);
    (42970, 42993); (43053, 43055); (43066, 43071); (43128, 43135);
    (43206, 43213); (43226, 43231); (43348, 43358); (43389, 43391);
    (43470, 43470); (43482, 43485); (43519, 43519); (43575, 43583);
    (43598, 43599); (43610, 43611); (43715, 43738); (43767, 43776);
    (43783, 43784); (43791, 43792); (43799, 43807); (43815, 43815);
    (43823, 43823); (43884, 43887); (44014, 44015); (44026, 44031);
    (55204, 55215); (55239, 55242); (55292, 63743); (64110, 64111);
    (64218, 64255); (64263, 64274); (64280, 64284); (64311, 64311);
    (64317, 64317); (64319, 64319); (64322, 64322); (64325, 64325);
    (64451, 64466); (64912, 64913); (64968, 64974); (64976, 65007);
    (65050, 65055); (65107, 65107); (65127, 65127); (65132, 65135);
    (65141, 65141); (65277, 65280); (65471, 65473); (65480, 65481);
    (65488, 65489); (65496, 65497); (65501, 65503); (65511, 65511);
    (65519, 65531); (65534, 65535); (65548, 65548); (65575, 65575);
    (65595, 65595); (65598, 65598); (65614, 65615); (65630, 65663);
    (65787, 65791); (65795, 65798); (65844, 65846); (65935, 65935);
    (65949, 65951); (65953, 65999); (66046, 66175); (66205, 66207);
    (66257, 66271); (66300, 66303); (66340, 66348); (66379, 66383);
    (66427, 66431); (66462, 66462); (66500, 66503); (66518, 66559);
    (66718, 66719); (66730, 66735); (66772, 66775); (66812, 66815);
    (66856, 66863); (66916, 66926); (66939, 66939); (66955, 66955);
    (66963, 66963); (66966, 66966); (66978, 66978); (66994, 66994);
    (67002, 67002); (67005, 67071); (67383, 67391); (67414, 67423);
    (67432, 67455); (67462, 67462); (67505, 67505); (67515, 67583);
    (67590, 67591); (67593, 67593); (67638, 67638); (67641, 67643);
    (67645, 67646); (67670, 67670); (67743, 67750); (67760, 67807);
    (67827, 67827); (67830, 67834); (67868, 67870); (67898, 67902);
    (67904, 67967); (68024, 68027); (68048, 68049); (68100, 68100);
    (68103, 68107); (68116, 68116); (68120, 68120); (68150, 68151);
    (68155, 68158); (68169, 68175); (68185, 68191); (68256, 68287);
    (68327, 68330); (68343, 68351); (68406, 68408); (68438, 68439);
    (68467, 68471); (68498, 68504); (68509, 68520); (68528, 68607);
    (68681, 68735); (68787, 68799); (68851, 68857); (68904, 68911);
    (68922, 69215); (69247, 69247); (69290, 69290); (69294, 69295);
    (69298, 69375); (69416, 69423); (69466, 69487); (69514, 69551);
    (69580, 69599); (69623, 69631); (69710, 69713); (69750, 69758);
    (69821, 69821); (69827, 69839); (69865, 69871); (69882, 69887);
    (69941, 69941); (69960, 69967); (70007, 70015); (70112, 70112);
    (70133, 70143); (70162, 70162); (70207, 70271); (70279, 70279);
    (70281, 70281); (70286, 70286); (70302, 70302); (70314, 70319);
    (70379, 70383); (70394, 70399); (70404, 70404); (70413, 70414);
    (70417, 70418); (70441, 70441); (70449, 70449); (70452, 70452);
    (70458, 70458); (70469, 70470); (70473, 70474); (70478, 70479);
    (70481, 70486); (70488, 70492); (70500, 70501); (70509, 70511);
    (70517, 70655); (70748, 70748); (70754, 70783); (70856, 70863);
    (70874, 71039); (71094, 71095); (71134, 71167); (71237, 71247);
    (71258, 71263); (71277, 71295); (71354, 71359); (71370, 71423);
    (71451, 71452); (71468, 71471); (71495, 71679); (71740, 71839);
    (71923, 71934); (71943, 71944); (71946, 71947); (71956, 71956);
    (71959, 71959); (71990, 71990); (71993, 71994); (72007, 72015);
    (72026, 72095); (72104, 72105); (72152, 72153); (72165, 72191);
    (72264, 72271); (72355, 72367); (72441, 72703); (72713, 72713);
    (72759, 72759); (72774, 72783); (72813, 72815); (72848, 72849);
    (72872, 72872); (72887, 72959); (72967, 72967); (72970, 72970);
    (73015, 73017); (73019, 73019); (73022, 73022); (73032, 73039);
    (73050, 73055); (73062, 73062); (73065, 73065); (73103, 73103);
    (73106, 73106); (73113, 73119); (73130, 73439); (73465, 73647);
    (73649, 73663); (73714, 73726); (74650, 74751); (74863, 74863);
    (74869, 74879); (75076, 77711); (77811, 77823); (78895, 82943);
    (83527, 92159); (92729, 92735); (92767, 92767); (92778, 92781);
    (92863, 92863); (92874, 92879); (92910, 92911); (92918, 92927);
    (92998, 93007); (93018, 93018); (93026, 93026); (93048, 93052);
    (93072, 93759); (93851, 93951); (94027, 94030); (94088, 94094);
    (94112, 94175); (94181, 94191); (94194, 94207); (100344, 100351);
    (101590, 101631); (101641, 110575); (110580, 110580); (110588, 110588);
    (110591, 110591); (110883, 110927); (110931, 110947); (110952, 110959);
    (111356, 113663); (113771, 113775); (113789, 113791); (113801, 113807);
    (113818, 113819); (113824, 118527); (118574, 118575); (118599, 118607);
    (118724, 118783); (119030, 119039); (119079, 119080); (119155, 119162);
    (119275, 119295); (119366, 119519); (119540, 119551); (119639, 119647);
    (119673, 119807); (119893, 119893); (119965, 119965); (119968, 119969);
    (119971, 119972); (119975, 119976); (119981, 119981); (119994, 119994);
    (119996, 119996); (120004, 120004); (120070, 120070); (120075, 120076);
    (120085, 120085); (120093, 120093); (120122, 120122); (120127, 120127);
    (120133, 120133); (120135, 120137); (120145, 120145); (120486, 120487);
    (120780, 120781); (121484, 121498); (121504, 121504); (121520, 122623);
    (122655, 122879); (122887, 122887); (122905, 122906); (122914, 122914);
    (122917, 122917); (122923, 123135); (123181, 123183); (123198, 123199);
    (123210, 123213); (123216, 123535); (123567, 123583); (123642, 123646);
    (123648, 124895); (124903, 124903); (124908, 124908); (124911, 124911);
    (124927, 124927); (125125, 125126); (125143, 125183); (125260, 125263);
    (125274, 125277); (125280, 126064); (126133, 126208); (126270, 126463);
    (126468, 126468); (126496, 126496); (126499, 126499); (126501, 126502);
    (126504, 126504); (126515, 126515); (126520, 126520); (126522, 126522);
    (126524, 126529); (126531, 126534); (126536, 126536); (126538, 126538);
    (126540, 126540); (126544, 126544); (126547, 126547); (126549, 126550);
    (126552, 126552); (126554, 126554); (126556, 126556); (126558, 126558);
    (126560, 126560); (126563, 126563); (126565, 126566); (126571, 126571);
    (126579, 126579); (126584, 126584); (126589, 126589); (126591, 126591);
    (126602, 126602); (126620, 126624); (126628, 126628); (126634, 126634);
    (126652, 126703); (126706, 126975); (127020, 127023); (127124, 127135);
    (127151, 127152); (127168, 127168); (127184, 127184); (127222, 127231);
    (127406, 127461); (127491, 127503); (127548, 127551); (127561, 127567);
    (127570, 127583); (127590, 127743); (128728, 128732); (128749, 128751);
    (128765, 128767); (128884, 128895); (128985, 128991); (129004, 129007);
    (129009, 129023); (129036, 129039); (129096, 129103); (129114, 129119);
    (129160, 129167); (129198, 129199); (129202, 129279); (129620, 129631);
    (129646, 129647); (129653, 129655); (129661, 129663); (129671, 129679);
    (129709, 129711); (129723, 129727); (129734, 129743); (129754, 129759);
    (129768, 129775); (129783, 129791); (129939, 129939); (129995, 130031);
    (130042, 131071); (173792, 173823); (177977, 177983); (178206, 178207);
    (183970, 183983); (191457, 194559); (195102, 196607); (201547, 917759);
    (918000, 1114111) ]%N.

(** [ch.isalnum()] for one character *)
Definition is_alnum (ch : string) : bool :=
  match ord ch with
  | Some n => in_ranges n ALNUM
  | None => false
  end.

(** [s.isalnum()]: every character alphanumeric and at least one
    character *)
Definition isalnum (s : string) : bool :=
  match characters s with
  | [] => false
  | cs => forallb is_alnum cs
  end.

(** [str(n)] for a length and for an [int] *)
Definition of_nat (n : nat) : string :=
  NilEmpty.string_of_uint (Nat.to_uint n).
Definition of_Z (z : Z) : string :=
  NilZero.string_of_int (Z.to_int z).

Definition hex_digit (n : N) : ascii :=
  if (n <? 10)%N then ascii_of_N (48 + n) else ascii_of_N (87 + n).

(** [n] in hexadecimal, on [width] digits *)
Fixpoint hex (width : nat) (n : N) : string :=
  match width with
  | O => ""
  | S w => hex w (n / 16) ++ String (hex_digit (n mod 16)) ""
  end.

(** One character of [repr(s)] with [q] the chosen quote character *)
Definition repr_char (q : ascii) (ch : string) : string :=
  match ord ch with
  | Some n =>
      if (n =? byte q)%N || (n =? 92)%N then String "\"%char ch
      else if (n =? 9)%N then "\t"
      else if (n =? 10)%N then "\n"
      else if (n =? 13)%N then "\r"
      else if (n <? 32)%N || (n =? 127)%N then "\x" ++ hex 2 n
      else if negb (in_ranges n NOT_PRINTABLE) then ch
      else if (n <? 256)%N then "\x" ++ hex 2 n
      else if (n <? 65536)%N then "\u" ++ hex 4 n
      else "\U" ++ hex 8 n
  | None => ch
  end.

(** [repr(s)]: single quotes, unless the text holds a single quote and
    no double quote *)
Definition repr (s : string) : string :=
  let sq := "'"%char in
  let d := ascii_of_nat 34 in
  let q := if contains sq s && negb (contains d s) then d else sq in
  String q (cat (map (repr_char q) (characters s)) ++ String q "").

End PyStr.

(** ** Python dictionaries with string keys, in insertion order *)

Module PyDict.

Section Ops.
Context {A : Type}.

(** [k in d] *)
Fixpoint dict_mem (k : string) (d : list (string * A)) : bool :=
  match d with
  | [] => false
  | (k', _) :: r => String.eqb k' k || dict_mem k r
  end.

(** [d[k]] when [k in d] *)
Fixpoint dict_get (k : string) (d : list (string * A)) : option A :=
  match d with
  | [] => None
  | (k', v) :: r => if String.eqb k' k then Some v else dict_get k r
  end.

(** [d[k] = v]: an existing key keeps its place *)
Fixpoint dict_set (k : string) (v : A) (d : list (string * A))
  : list (string * A) :=
  match d with
  | [] => [(k, v)]
  | (k', v') :: r =>
      if String.eqb k' k then (k', v) :: r else (k', v') :: dict_set k v r
  end.

(** [d.update(e)] *)
Definition dict_update (d e : list (string * A)) : list (string * A) :=
  fold_left (fun acc kv => dict_set (fst kv) (snd kv) acc) e d.

(** [d.keys()] *)
Definition dict_keys (d : list (string * A)) : list string := map fst d.
End Ops.

End PyDict.

Import PyDict.

(** ** Parsed JSON *)

Module Json.

Unset Elimination Schemes.
Inductive json : Type :=
| JNull
| JBool (b : bool)
| JInt (z : Z)
| JFloat (text : string)
| JStr (s : string)
| JArr (xs : list json)
| JObj (fields : list (string * json)).
Set Elimination Schemes.

Definition dict := list (string * json).

(** [d.get(k)]: Python's [None] and JSON's [null] are the same value *)
Definition get (k : string) (d : dict) : json :=
  match dict_get k d with
  | Some v => v
  | None => JNull
  end.

(** [d.get(k, default)] *)
Definition get_default (k : string) (default : json) (d : dict) : json :=
  match dict_get k d with
  | Some v => v
  | None => default
  end.

(** Truth value of a JSON value in a Python condition *)
Definition truthy (v : json) : bool :=
  match v with
  | JNull => false
  | JBool b => b
  | JInt z => negb (Z.eqb z 0)
  | JFloat t => negb (String.eqb t "0.0" || String.eqb t "-0.0")
  | JStr s => negb (String.eqb s "")
  | JArr xs => match xs with [] => false | _ => true end
  | JObj f => match f with [] => false | _ => true end
  end.

(** [repr(v)] *)
Fixpoint py_repr (v : json) : string :=
  match v with
  | JNull => "None"
  | JBool true => "True"
  | JBool false => "False"
  | JInt z => PyStr.of_Z z
  | JFloat t => t
  | JStr s => PyStr.repr s
  | JArr xs => "[" ++ PyStr.join ", " (map py_repr xs) ++ "]"
  | JObj f =>
      "{" ++ PyStr.join ", "
               (map (fun '(k, x) => PyStr.repr k ++ ": " ++ py_repr x) f)
          ++ "}"
  end.

(** [str(v)], also what an f-string substitutes for [{v}] *)
Definition py_str (v : json) : string :=
  match v with
  | JStr s => s
  | _ => py_repr v
  end.

Definition is_scalar (v : json) : bool :=
  match v with
  | JArr _ | JObj _ => false
  | _ => true
  end.

End Json.

Import Json.

(** A small error monad over [option] for the calls that may raise. *)
Definition bind {A B : Type} (m : option A) (k : A -> option B) : option B :=
  match m with
  | Some a => k a
  | None => None
  end.

Notation "x <- m ;; k" := (bind m (fun x => k))
  (at level 61, m at next level, right associativity).

(** [for x in xs: st = step st x], stopping at the first exception *)
Fixpoint foldM {A S : Type} (step : S -> A -> option S) (xs : list A) (st : S)
  : option S :=
  match xs with
  | [] => Some st
  | x :: r => st' <- step st x ;; foldM step r st'
  end.

Fixpoint mapM {A B : Type} (f : A -> option B) (xs : list A)
  : option (list B) :=
  match xs with
  | [] => Some []
  | x :: r => y <- f x ;; ys <- mapM f r ;; Some (y :: ys)
  end.

(** [if src in item: acc[dst] = item[src]] *)
Definition copy_key (src dst : string) (item acc : dict) : dict :=
  match dict_get src item with
  | Some v => dict_set dst v acc
  | None => acc
  end.

(** ** [prov2ld.py]: class [ProvJsonToJsonldConverter] *)

Module Prov2ld.

Definition PROV_JSONLD_CONTEXT : string :=
  "https://openprovenance.org/prov-jsonld/context.json".

Definition TYPE_MAPPINGS : list (string * string) :=
  [ ("entity", "prov:Entity");
    ("activity", "prov:Activity");
    ("agent", "prov:Agent");
    ("wasGeneratedBy", "prov:Generation");
    ("used", "prov:Usage");
    ("wasInformedBy", "prov:Communication");
    ("wasStartedBy", "prov:Start");
    ("wasEndedBy", "prov:End");
    ("wasInvalidatedBy", "prov:Invalidation");
    ("wasDerivedFrom", "prov:Derivation");
    ("wasAttributedTo", "prov:Attribution");
    ("wasAssociatedWith", "prov:Association");
    ("actedOnBehalfOf", "prov:Delegation");
    ("wasInfluencedBy", "prov:Influence");
    ("specializationOf", "provext:Specialization");
    ("alternateOf", "provext:Alternate");
    ("hadMember", "provext:Membership") ].

Definition RELATION_PROPERTIES : list (string * list (string * string)) :=
  [ ("wasGeneratedBy",
      [("prov:entity", "entity"); ("prov:activity", "activity");
       ("prov:time", "time")]);
    ("used",
      [("prov:entity", "entity"); ("prov:activity", "activity");
       ("prov:time", "time")]);
    ("wasInformedBy",
      [("prov:informed", "informed"); ("prov:informant", "informant")]);
    ("wasStartedBy",
      [("prov:activity", "activity"); ("prov:trigger", "trigger");
       ("prov:starter", "starter"); ("prov:time", "time")]);
    ("wasEndedBy",
      [("prov:activity", "activity"); ("prov:trigger", "trigger");
       ("prov:ender", "ender"); ("prov:time", "time")]);
    ("wasInvalidatedBy",
      [("prov:entity", "entity"); ("prov:activity", "activity");
       ("prov:time", "time")]);
    ("wasDerivedFrom",
      [("prov:generatedEntity", "generatedEntity");
       ("prov:usedEntity", "usedEntity"); ("prov:activity", "activity");
       ("prov:generation", "generation"); ("prov:usage", "usage")]);
    ("wasAttributedTo",
      [("prov:entity", "entity"); ("prov:agent", "agent")]);
    ("wasAssociatedWith",
      [("prov:activity", "activity"); ("prov:agent", "agent");
       ("prov:plan", "plan")]);
    ("actedOnBehalfOf",
      [("prov:delegate", "delegate"); ("prov:responsible", "responsible");
       ("prov:activity", "activity")]);
    ("wasInfluencedBy",
      [("prov:influencee", "influencee"); ("prov:influencer", "influencer")]);
    ("specializationOf",
      [("prov:specificEntity", "specificEntity");
       ("prov:generalEntity", "generalEntity")]);
    ("alternateOf",
      [("prov:alternate1", "alternate1"); ("prov:alternate2", "alternate2")]);
    ("hadMember",
      [("prov:collection", "collection"); ("prov:entity", "entity")]) ].

(** [if not isinstance(value, list): value = [value]] *)
Definition as_list (value : json) : list json :=
  match value with
  | JArr xs => xs
  | _ => [value]
  end.

(** Body of the loop of [_convert_value] *)
Definition convert_value_item (item : json) : json :=
  match item with
  | JObj f =>
      if dict_mem "$" f || dict_mem "type" f then
        let converted := [] in
        let converted := copy_key "$" "@value" f converted in
        let converted := copy_key "type" "@type" f converted in
        let converted := copy_key "lang" "@language" f converted in
        JObj converted
      else item
  | _ => JObj [("@value", JStr (py_str item))]
  end.

Definition _convert_value (value : json) : json :=
  JArr (map convert_value_item (as_list value)).

(** Body of the loop of [_convert_label] *)
Definition convert_label_item (item : json) : json :=
  match item with
  | JObj f =>
      let label_obj := [("@value", get_default "$" (JStr "") f)] in
      let label_obj := copy_key "lang" "@language" f label_obj in
      JObj label_obj
  | _ => JObj [("@value", JStr (py_str item))]
  end.

Definition _convert_label (value : json) : json :=
  JArr (map convert_label_item (as_list value)).

(** Body of the attribute loop of [_convert_element] *)
Definition element_attr (obj : dict) (kv : string * json) : dict :=
  let '(key, value) := kv in
  if String.eqb key "prov:type" then
    dict_set "prov:type" (_convert_value value) obj
  else if String.eqb key "prov:label" then
    dict_set "prov:label" (_convert_label value) obj
  else if String.eqb key "prov:location" then
    dict_set "prov:location" (_convert_value value) obj
  else if String.eqb key "prov:value" then
    dict_set "prov:value" (_convert_value value) obj
  else if PyStr.startswith key "prov:" then
    dict_set key (_convert_value value) obj
  else if PyStr.contains ":" key then
    dict_set key (_convert_value value) obj
  else obj.

Definition _convert_element (item_id : string) (item_data : json)
    (type_name : string) : option dict :=
  match item_data with
  | JObj d =>
      let obj := [("@type", JStr type_name); ("@id", JStr item_id)] in
      let obj := fold_left element_attr d obj in
      let obj :=
        if String.eqb type_name "prov:Activity" then
          let obj := copy_key "prov:startTime" "startTime" d obj in
          copy_key "prov:endTime" "endTime" d obj
        else obj in
      Some obj
  | _ => None
  end.

(** Body of the attribute loop of [_convert_relation] *)
Definition relation_attr (property_map : list (string * string))
    (obj : dict) (kv : string * json) : dict :=
  let '(key, value) := kv in
  if dict_mem key property_map then obj
  else if String.eqb key "prov:type" then
    dict_set "prov:type" (_convert_value value) obj
  else if String.eqb key "prov:label" then
    dict_set "prov:label" (_convert_label value) obj
  else if String.eqb key "prov:location" then
    dict_set "prov:location" (_convert_value value) obj
  else if String.eqb key "prov:role" then
    dict_set "prov:role" (_convert_value value) obj
  else if PyStr.startswith key "prov:" then
    dict_set key (_convert_value value) obj
  else if PyStr.contains ":" key then
    dict_set key (_convert_value value) obj
  else obj.

Definition _convert_relation (item_id : string) (item_data : json)
    (type_name category : string) : option dict :=
  match item_data with
  | JObj d =>
      let obj := [("@type", JStr type_name)] in
      let obj :=
        if negb (String.eqb item_id "")
           && negb (PyStr.startswith item_id "_:") then
          dict_set "@id" (JStr item_id) obj
        else if negb (String.eqb item_id "")
                && PyStr.startswith item_id "_:" then
          dict_set "@id" (JStr item_id) obj
        else obj in
      let property_map :=
        match dict_get category RELATION_PROPERTIES with
        | Some m => m
        | None => []
        end in
      let obj :=
        fold_left (fun obj '(prov_key, jsonld_key) =>
                     copy_key prov_key jsonld_key d obj)
                  property_map obj in
      Some (fold_left (relation_attr property_map) d obj)
  | _ => None
  end.

Definition _convert_item (item_id : string) (item_data : json)
    (type_name category : string) : option dict :=
  if dict_mem category RELATION_PROPERTIES then
    _convert_relation item_id item_data type_name category
  else
    _convert_element item_id item_data type_name.

Definition _convert_category (category : string) (items : json)
    (type_name : string) : option (list json) :=
  match items with
  | JObj d =>
      mapM (fun '(item_id, item_data) =>
              obj <- _convert_item item_id item_data type_name category ;;
              Some (JObj obj)) d
  | _ => None
  end.

(** [dict(prov_json['prefix'])] is modelled for a dict argument; the
    conversions Python also accepts (a sequence of pairs) leave the
    model. *)
Definition _extract_namespaces (prov_json : dict) : option dict :=
  match dict_get "prefix" prov_json with
  | Some (JObj d) => Some d
  | Some _ => None
  | None => Some []
  end.

Definition _build_context (namespaces : dict) : list json :=
  let context : list json := [] in
  let context :=
    match namespaces with
    | [] => context
    | _ => (context ++ [JObj namespaces])%list
    end in
  (context ++ [JStr PROV_JSONLD_CONTEXT])%list.

(** The loop over [TYPE_MAPPINGS] shared by [convert] and
    [_convert_bundle] *)
Definition convert_categories (data : dict) (graph : list json)
  : option (list json) :=
  foldM (fun graph '(category, type_name) =>
           match dict_get category data with
           | Some items =>
               statements <- _convert_category category items type_name ;;
               Some (graph ++ statements)%list
           | None => Some graph
           end) TYPE_MAPPINGS graph.

(** [_convert_bundle] repeats, for the bundle, the code of
    [_extract_namespaces], [_build_context] and the category loop.  A
    [bundle_data] that is not a dict leaves the model (on a string or a
    list Python's [in] is a containment test). *)
Definition _convert_bundle (bundle_id : string) (bundle_data : json)
  : option json :=
  match bundle_data with
  | JObj d =>
      bundle_namespaces <- _extract_namespaces d ;;
      let bundle_context := _build_context bundle_namespaces in
      graph <- convert_categories d [] ;;
      Some (JObj [("@type", JStr "prov:Bundle");
                  ("@id", JStr bundle_id);
                  ("@context", JArr bundle_context);
                  ("@graph", JArr graph)])
  | _ => None
  end.

(** [self.namespaces] is overwritten at the start of every call and read
    only by [_build_context] in the same call, so [convert] is a function
    of its argument.  A [prov_json] that is not a dict leaves the model. *)
Definition convert (prov_json : json) : option json :=
  match prov_json with
  | JObj d =>
      namespaces <- _extract_namespaces d ;;
      let context := _build_context namespaces in
      graph <-
        match dict_get "bundle" d with
        | Some (JObj bundles) =>
            mapM (fun '(bundle_id, bundle_content) =>
                    _convert_bundle bundle_id bundle_content) bundles
        | Some _ => None
        | None => Some []
        end ;;
      graph <- convert_categories d graph ;;
      Some (JObj [("@context", JArr context); ("@graph", JArr graph)])
  | _ => None
  end.

End Prov2ld.


(** ** [ld2viz.py]: class [ProvJsonldToGraphviz] *)

Module Ld2viz.

Definition NODE_SHAPES : list (string * string) :=
  [ ("prov:Entity", "ellipse");
    ("prov:Activity", "box");
    ("prov:Agent", "house") ].

Definition NODE_COLORS : list (string * string) :=
  [ ("prov:Entity", "#FFFC87");
    ("prov:Activity", "#9FB1FC");
    ("prov:Agent", "#FDB266") ].

(** One entry of [EDGE_STYLES]: [label], [style] and [dir] are in every
    entry, [color] and [arrowhead] in some *)
Record edge_style := {
  es_label : string;
  es_style : string;
  es_dir : string;
  es_color : option string;
  es_arrowhead : option string
}.

Definition mk_style (l s d : string) : edge_style :=
  {| es_label := l; es_style := s; es_dir := d;
     es_color := None; es_arrowhead := None |}.

Definition EDGE_STYLES : list (string * edge_style) :=
  [ ("prov:Generation",
      {| es_label := "wasGeneratedBy"; es_style := "solid"; es_dir := "back";
         es_color := Some "#006400"; es_arrowhead := None |});
    ("prov:Usage",
      {| es_label := "used"; es_style := "solid"; es_dir := "forward";
         es_color := Some "#8b0101"; es_arrowhead := None |});
    ("prov:Derivation", mk_style "wasDerivedFrom" "solid" "back");
    ("prov:Association",
      {| es_label := "wasAssociatedWith"; es_style := "solid";
         es_dir := "forward"; es_color := Some "#fed37f";
         es_arrowhead := None |});
    ("prov:Attribution", mk_style "wasAttributedTo" "dashed" "back");
    ("prov:Communication", mk_style "wasInformedBy" "solid" "back");
    ("prov:Delegation", mk_style "actedOnBehalfOf" "dashed" "back");
    ("prov:Start", mk_style "wasStartedBy" "solid" "back");
    ("prov:End", mk_style "wasEndedBy" "solid" "back");
    ("prov:Invalidation", mk_style "wasInvalidatedBy" "solid" "back");
    ("prov:Influence", mk_style "wasInfluencedBy" "dotted" "back");
    ("provext:Specialization",
      {| es_label := "specializationOf"; es_style := "solid";
         es_dir := "back"; es_color := None;
         es_arrowhead := Some "onormal" |});
    ("provext:Alternate", mk_style "alternateOf" "dashed" "none");
    ("provext:Membership", mk_style "hadMember" "dotted" "forward") ].

Definition REFERENCE_PROPERTIES : list string :=
  [ "entity"; "activity"; "agent"; "generatedEntity"; "usedEntity";
    "informed"; "informant"; "trigger"; "starter"; "ender";
    "delegate"; "responsible"; "plan"; "influencee"; "influencer";
    "specificEntity"; "generalEntity"; "alternate1"; "alternate2";
    "collection"; "generation"; "usage" ].

(** The dict stored in [self.nodes] for one node; [label] is whatever
    [_get_label] returned, a string once attributes were appended *)
Record node_props := {
  n_label : json;
  n_shape : string;
  n_fillcolor : string;
  n_style : string;
  n_type : string
}.

(** The dict appended to [self.edges]; [color] and [label] are the keys
    that may be missing *)
Record edge := {
  e_source : json;
  e_target : json;
  e_style : string;
  e_dir : string;
  e_arrowhead : string;
  e_color : option string;
  e_label : option string
}.

(** The fields of [self] *)
Record converter := {
  show_attributes : bool;
  show_relation_labels : bool;
  direction : string;
  nodes : list (string * node_props);
  edges : list edge;
  namespaces : dict
}.

(** The constructor; labels on relations are always enabled by it *)
Definition __init__ (show_attributes : bool) (direction : string)
  : converter :=
  {| show_attributes := show_attributes;
     show_relation_labels := true;
     direction := direction;
     nodes := [];
     edges := [];
     namespaces := [] |}.

Definition set_nodes (self : converter) (ns : list (string * node_props)) :=
  {| show_attributes := show_attributes self;
     show_relation_labels := show_relation_labels self;
     direction := direction self;
     nodes := ns;
     edges := edges self;
     namespaces := namespaces self |}.

Definition set_edges (self : converter) (es : list edge) :=
  {| show_attributes := show_attributes self;
     show_relation_labels := show_relation_labels self;
     direction := direction self;
     nodes := nodes self;
     edges := es;
     namespaces := namespaces self |}.

Definition set_namespaces (self : converter) (ns : dict) :=
  {| show_attributes := show_attributes self;
     show_relation_labels := show_relation_labels self;
     direction := direction self;
     nodes := nodes self;
     edges := edges self;
     namespaces := ns |}.

(** [for x in v]: a list gives its elements, a string its characters, a
    dict its keys; anything else is not iterable *)
Definition chars (s : string) : list json := map JStr (PyStr.characters s).

Definition py_iter (v : json) : option (list json) :=
  match v with
  | JArr xs => Some xs
  | JStr s => Some (chars s)
  | JObj d => Some (map JStr (dict_keys d))
  | _ => None
  end.

Definition _extract_namespaces (self : converter) (context : json)
  : option converter :=
  ctxs <- py_iter context ;;
  Some (set_namespaces self
          (fold_left (fun ns ctx =>
                        match ctx with
                        | JObj d => dict_update ns d
                        | _ => ns
                        end) ctxs (namespaces self))).

(** The loop of [_shorten_uri] over [self.namespaces.items()].  Where
    [uri] starts with [namespace], [uri[len(namespace):]] is [uri] without
    the bytes of [namespace]. *)
Fixpoint first_namespace (uri : string) (ns : dict) : option string :=
  match ns with
  | [] => None
  | (prefix, JStr namespace) :: r =>
      if PyStr.startswith uri namespace then
        Some (prefix ++ ":" ++ PyStr.drop (String.length namespace) uri)
      else first_namespace uri r
  | _ :: r => first_namespace uri r
  end.

Definition _shorten_uri (ns : dict) (uri : string) : string :=
  if String.eqb uri "" || negb (PyStr.contains ":" uri) then uri
  else if negb (PyStr.startswith uri "http://")
          && negb (PyStr.startswith uri "https://") then uri
  else match first_namespace uri ns with
       | Some short => short
       | None => uri
       end.

(** [v[0]] under the guard [v and isinstance(v, list) and len(v) > 0] *)
Definition first_of_list (v : json) : option json :=
  match v with
  | JArr (x :: _) => Some x
  | _ => None
  end.

(** What the [prov:label] branch of [_get_label] returns, if it returns *)
Definition prov_label_value (item : dict) : option json :=
  match dict_get "prov:label" item with
  | Some labels =>
      match first_of_list labels with
      | Some (JObj label_obj) => dict_get "@value" label_obj
      | _ => None
      end
  | None => None
  end.

(** What one round of the loop over the other label properties returns,
    if it returns *)
Definition label_prop_value (item : dict) (label_prop : string)
  : option json :=
  match dict_get label_prop item with
  | Some values =>
      match first_of_list values with
      | Some (JObj value_obj) => dict_get "@value" value_obj
      | Some (JStr s) => Some (JStr s)
      | _ => None
      end
  | None => None
  end.

Definition LABEL_PROPS : list string :=
  [ "rdfs:label"; "foaf:name"; "dcterms:title"; "name"; "title" ].

Fixpoint first_label (item : dict) (props : list string) : option json :=
  match props with
  | [] => None
  | label_prop :: r =>
      match label_prop_value item label_prop with
      | Some v => Some v
      | None => first_label item r
      end
  end.

(** The last part of [_get_label], from [if item_id:] on.  [':' in
    item_id] raises on a number or [True]; on a list or dict it is a
    membership test, and [split] then raises. *)
Definition id_label (item_id : json) : option json :=
  if truthy item_id then
    match item_id with
    | JStr s =>
        if PyStr.contains ":" s then
          rest <- nth_error (PyStr.split1 ":" s) 1 ;; Some (JStr rest)
        else Some item_id
    | JArr xs =>
        if existsb (fun x => match x with
                             | JStr s => String.eqb s ":"
                             | _ => false
                             end) xs
        then None else Some item_id
    | JObj d => if dict_mem ":" d then None else Some item_id
    | _ => None
    end
  else Some (JStr "anonymous").

Definition _get_label (item : dict) : option json :=
  let item_id := get_default "@id" (JStr "") item in
  match prov_label_value item with
  | Some v => Some v
  | None =>
      match first_label item LABEL_PROPS with
      | Some v => Some v
      | None => id_label item_id
      end
  end.

Definition skip_props : list string :=
  ([ "@type"; "@id"; "@context"; "@graph"; "prov:label"; "rdfs:label";
     "foaf:name"; "dcterms:title" ] ++ REFERENCE_PROPERTIES)%list.

(** [if len(val_str) > 30: val_str = val_str[:27] + '...'] *)
Definition truncate (val_str : string) : string :=
  if (30 <? PyStr.len val_str)%nat then PyStr.first_chars 27 val_str ++ "..."
  else val_str.

Definition attr_of_val_item (short_key : string) (val_item : json)
  : list string :=
  match val_item with
  | JObj d =>
      match dict_get "@value" d with
      | Some v => [short_key ++ "=" ++ truncate (py_str v)]
      | None => []
      end
  | JStr s => [short_key ++ "=" ++ truncate s]
  | _ => []
  end.

Definition attrs_of_entry (ns : dict) (kv : string * json) : list string :=
  let '(key, value) := kv in
  if existsb (String.eqb key) skip_props then []
  else
    let short_key :=
      if PyStr.contains ":" key then _shorten_uri ns key else key in
    match value with
    | JArr xs => flat_map (attr_of_val_item short_key) (firstn 3 xs)
    | JStr s => [short_key ++ "=" ++ truncate s]
    | _ => []
    end.

Definition _get_attributes_text (ns : dict) (item : dict) : list string :=
  flat_map (attrs_of_entry ns) item.

(** [item.get('@id', f"anon_{len(self.nodes)}")] *)
Definition node_id (self : converter) (item : dict) : json :=
  get_default "@id"
    (JStr ("anon_" ++ PyStr.of_nat (List.length (nodes self)))) item.

(** The dict [_process_node] builds for the item: label, shape, colour *)
Definition node_descriptor (self : converter) (item : dict)
    (item_type : string) : option node_props :=
  label <- _get_label item ;;
  let label :=
    if show_attributes self then
      match _get_attributes_text (namespaces self) item with
      | [] => label
      | attributes =>
          let attr_text := PyStr.join "\n" (firstn 5 attributes) in
          JStr (py_str label ++ "\n" ++ attr_text)
      end
    else label in
  let shape :=
    match dict_get item_type NODE_SHAPES with
    | Some s => s
    | None => "ellipse"
    end in
  let color :=
    match dict_get item_type NODE_COLORS with
    | Some c => c
    | None => "#FFFFFF"
    end in
  Some {| n_label := label; n_shape := shape;
          n_fillcolor := color; n_style := "filled";
          n_type := item_type |}.

(** [_process_node].  [convert] calls it with a string [@type].  An
    [@id] that is not a string leaves the model here: Python raises on an
    unhashable one, and stores any other as a key on which
    [_generate_dot] then raises. *)
Definition _process_node (self : converter) (item : dict)
  : option converter :=
  match get "@type" item, node_id self item with
  | JStr item_type, JStr item_id =>
      props <- node_descriptor self item item_type ;;
      Some (set_nodes self (dict_set item_id props (nodes self)))
  | _, _ => None
  end.

Definition _get_edge_endpoints (item : dict) (relation_type : string)
  : json * json :=
  if String.eqb relation_type "prov:Generation" then
    (get "activity" item, get "entity" item)
  else if String.eqb relation_type "prov:Usage" then
    (get "activity" item, get "entity" item)
  else if String.eqb relation_type "prov:Derivation" then
    (get "usedEntity" item, get "generatedEntity" item)
  else if String.eqb relation_type "prov:Association" then
    (get "activity" item, get "agent" item)
  else if String.eqb relation_type "prov:Attribution" then
    (get "entity" item, get "agent" item)
  else if String.eqb relation_type "prov:Communication" then
    (get "informant" item, get "informed" item)
  else if String.eqb relation_type "prov:Delegation" then
    (get "responsible" item, get "delegate" item)
  else if String.eqb relation_type "prov:Start" then
    (get "trigger" item, get "activity" item)
  else if String.eqb relation_type "prov:End" then
    (get "trigger" item, get "activity" item)
  else if String.eqb relation_type "prov:Invalidation" then
    (get "activity" item, get "entity" item)
  else if String.eqb relation_type "prov:Influence" then
    (get "influencer" item, get "influencee" item)
  else if String.eqb relation_type "provext:Specialization" then
    (get "generalEntity" item, get "specificEntity" item)
  else if String.eqb relation_type "provext:Alternate" then
    (get "alternate1" item, get "alternate2" item)
  else if String.eqb relation_type "provext:Membership" then
    (get "collection" item, get "entity" item)
  else (JNull, JNull).

(** The [prov:role] part of the label annotations *)
Definition role_info (item : dict) : list string :=
  match dict_get "prov:role" item with
  | Some roles =>
      match first_of_list roles with
      | Some (JObj role_val) =>
          match dict_get "@value" role_val with
          | Some v => ["role:" ++ py_str v]
          | None => []
          end
      | _ => []
      end
  | None => []
  end.

(** The [time] part: [item.get('time', item.get('prov:time'))], then
    [time_val.split('T')[1].split('.')[0]] *)
Definition time_info (item : dict) : option (list string) :=
  if dict_mem "time" item || dict_mem "prov:time" item then
    let time_val := get_default "time" (get "prov:time" item) item in
    match time_val with
    | JStr t =>
        if PyStr.contains "T" t then
          after <- nth_error (PyStr.split "T" t) 1 ;;
          time_part <- nth_error (PyStr.split "." after) 0 ;;
          Some ["@" ++ time_part]
        else Some []
    | _ => Some []
    end
  else Some [].

(** The value stored under [edge['label']] *)
Definition edge_label (item : dict) (relation_type : string)
    (edge_style : option edge_style) : option string :=
  default <- nth_error (PyStr.split ":" relation_type) 1 ;;
  let label :=
    match edge_style with
    | Some es => es_label es
    | None => default
    end in
  times <- time_info item ;;
  let extra_info := (role_info item ++ times)%list in
  match extra_info with
  | [] => Some label
  | _ => Some (label ++ "\n(" ++ PyStr.join ", " extra_info ++ ")")
  end.

(** [_process_simple_relation].  A list or dict [@type] is unhashable in
    [EDGE_STYLES.get]; any other non-string has no endpoints. *)
Definition _process_simple_relation (self : converter) (item : dict)
  : option converter :=
  match get "@type" item with
  | JArr _ | JObj _ => None
  | JStr relation_type =>
      let edge_style := dict_get relation_type EDGE_STYLES in
      let '(source, target) := _get_edge_endpoints item relation_type in
      if negb (truthy source) || negb (truthy target) then Some self
      else
        label <-
          (if show_relation_labels self then
             l <- edge_label item relation_type edge_style ;; Some (Some l)
           else Some None) ;;
        let e :=
          {| e_source := source;
             e_target := target;
             e_style := match edge_style with
                        | Some es => es_style es
                        | None => "solid"
                        end;
             e_dir := match edge_style with
                      | Some es => es_dir es
                      | None => "forward"
                      end;
             e_arrowhead := match edge_style with
                            | Some {| es_arrowhead := Some a |} => a
                            | _ => "normal"
                            end;
             e_color := match edge_style with
                        | Some es => es_color es
                        | None => None
                        end;
             e_label := label |} in
        Some (set_edges self (edges self ++ [e])%list)
  | _ => Some self
  end.

Definition _process_relation (self : converter) (item : dict)
  : option converter :=
  _process_simple_relation self item.

(** [_has_attributes]: some key besides [@type], [@id] and the reference
    properties *)
Definition _has_attributes (item : dict) : bool :=
  let essential := (["@type"; "@id"] ++ REFERENCE_PROPERTIES)%list in
  existsb (fun key => negb (existsb (String.eqb key) essential))
    (dict_keys item).

(** Body of the loop of [convert] over [@graph] *)
Definition process_item (self : converter) (item : json)
  : option converter :=
  match item with
  | JObj fields =>
      match get "@type" fields with
      | JArr _ | JObj _ => None
      | JStr item_type =>
          if dict_mem item_type NODE_SHAPES then _process_node self fields
          else if negb (String.eqb item_type "")
                  && (PyStr.startswith item_type "prov:"
                      || PyStr.startswith item_type "provext:") then
            _process_relation self fields
          else Some self
      | other => if truthy other then None else Some self
      end
  | _ => None
  end.

Definition _make_safe_id (node_id : string) : string :=
  let safe_id :=
    PyStr.replace "-" "_"
      (PyStr.replace "/" "_" (PyStr.replace ":" "_" node_id)) in
  let safe_id := PyStr.replace "#" "_" (PyStr.replace "." "_" safe_id) in
  if negb (PyStr.isalnum (PyStr.remove "_" safe_id)) then
    PyStr.dq ++ node_id ++ PyStr.dq
  else safe_id.

(** [f'{k}="{v}"'] *)
Definition quoted_prop (k v : string) : string :=
  k ++ "=" ++ PyStr.dq ++ v ++ PyStr.dq.

(** The statement [_generate_dot] emits for one entry of [self.nodes] *)
Definition node_line (entry : string * node_props) : string :=
  let '(node_id, node_props) := entry in
  let props :=
    [ quoted_prop "label" (py_str (n_label node_props));
      quoted_prop "shape" (n_shape node_props);
      quoted_prop "fillcolor" (n_fillcolor node_props);
      quoted_prop "style" (n_style node_props);
      quoted_prop "type" (n_type node_props) ] in
  let props_str := PyStr.join ", " props in
  let safe_id := _make_safe_id node_id in
  "  " ++ safe_id ++ " [" ++ props_str ++ "];".

Definition opt_list {A : Type} (o : option A) (f : A -> string)
  : list string :=
  match o with
  | Some a => [f a]
  | None => []
  end.

(** The statement emitted for one edge; [_make_safe_id] raises on an
    endpoint that is not a string *)
Definition edge_line (e : edge) : option string :=
  match e_source e, e_target e with
  | JStr s, JStr t =>
      let source := _make_safe_id s in
      let target := _make_safe_id t in
      let label_prop :=
        match e_label e with
        | Some l => if String.eqb l "" then [] else [quoted_prop "label" l]
        | None => []
        end in
      let style_prop := "style=" ++ e_style e in
      let dir_prop := "dir=" ++ e_dir e in
      let color_prop := opt_list (e_color e) (quoted_prop "color") in
      let arrowhead_prop := "arrowhead=" ++ e_arrowhead e in
      let props :=
        (label_prop ++ [style_prop] ++ [dir_prop] ++ color_prop
         ++ [arrowhead_prop])%list in
      let props_str := PyStr.join ", " props in
      if String.eqb props_str "" then
        Some ("  " ++ source ++ " -> " ++ target ++ ";")
      else
        Some ("  " ++ source ++ " -> " ++ target ++ " [" ++ props_str ++ "];")
  | _, _ => None
  end.

Definition node_lines (self : converter) : list string :=
  map node_line (nodes self).

Definition edge_lines (self : converter) : option (list string) :=
  mapM edge_line (edges self).

Definition dot_lines (self : converter) : option (list string) :=
  es <- edge_lines self ;;
  let header :=
    [ "digraph PROV {";
      "  rankdir=" ++ direction self ++ ";";
      "  node [fontname=" ++ PyStr.dq ++ "Helvetica" ++ PyStr.dq ++ "];";
      "  edge [fontname=" ++ PyStr.dq ++ "Helvetica" ++ PyStr.dq ++ "];";
      "" ] in
  Some (header ++ node_lines self ++ [ "" ] ++ es ++ [ "}" ])%list.

Definition _generate_dot (self : converter) : option string :=
  lines <- dot_lines self ;;
  Some (PyStr.join PyStr.lf lines).

(** The state of [self] after the loop of [convert] *)
Definition build (self : converter) (prov_jsonld : json)
  : option converter :=
  match prov_jsonld with
  | JObj doc =>
      self <- _extract_namespaces self
                (get_default "@context" (JArr []) doc) ;;
      graph <- py_iter (get_default "@graph" (JArr []) doc) ;;
      foldM process_item graph self
  | _ => None
  end.

(** [convert]: the DOT text and the state [self] is left in *)
Definition convert (self : converter) (prov_jsonld : json)
  : option (string * converter) :=
  self <- build self prov_jsonld ;;
  dot <- _generate_dot self ;;
  Some (dot, self).

End Ld2viz.

(** * Vocabulary of the specification

    Definitions that follow the words of the specification rather than the
    code; the properties below compare the two. *)

Module Spec.
Import PyStr Ld2viz.

(** The text after the first [c] *)
Fixpoint after_first (c : ascii) (s : string) : string :=
  match s with
  | "" => ""
  | String a r => if Ascii.eqb a c then r else after_first c r
  end.

(** The text before the first character that satisfies [stop] *)
Fixpoint before_any (stop : ascii -> bool) (s : string) : string :=
  match s with
  | "" => ""
  | String a r => if stop a then "" else String a (before_any stop r)
  end.

Fixpoint first_some {A : Type} (l : list (option A)) : option A :=
  match l with
  | [] => None
  | Some a :: _ => Some a
  | None :: r => first_some r
  end.

(** *** DOT identifiers *)

(** One of the characters [: / - . #] *)
Definition is_special (c : ascii) : bool :=
  existsb (Ascii.eqb c) [":"; "/"; "-"; "."; "#"]%char.

(** Every special character replaced by an underscore *)
Fixpoint sanitize (s : string) : string :=
  match s with
  | "" => ""
  | String c r => String (if is_special c then "_"%char else c) (sanitize r)
  end.

(** Alphanumeric or underscore *)
Definition is_word (ch : string) : bool := is_alnum ch || String.eqb ch "_".

Definition not_underscore (ch : string) : bool := negb (String.eqb ch "_").

(** Made of alphanumerics and underscores only *)
Definition word_text (s : string) : bool := forallb is_word (characters s).

(** With at least one alphanumeric *)
Definition has_alnum (s : string) : bool := existsb is_alnum (characters s).

(** The identifier as the specification words it: the sanitized text,
    unless that is not made of alphanumerics and underscores only *)
Definition spec_safe_id (node_id : string) : string :=
  if word_text (sanitize node_id) then sanitize node_id
  else dq ++ node_id ++ dq.

(** *** Namespace prefixes *)

(** A prefix that makes a compacted name look like an IRI again *)
Definition scheme_like (p : string) : bool :=
  String.eqb p "http" || String.eqb p "https"
  || startswith p "http://" || startswith p "https://".

(** *** Relations *)

(** The two role properties each branch of [_get_edge_endpoints] reads,
    source first *)
Definition ENDPOINT_ROLES : list (string * (string * string)) :=
  [ ("prov:Generation", ("activity", "entity"));
    ("prov:Usage", ("activity", "entity"));
    ("prov:Derivation", ("usedEntity", "generatedEntity"));
    ("prov:Association", ("activity", "agent"));
    ("prov:Attribution", ("entity", "agent"));
    ("prov:Communication", ("informant", "informed"));
    ("prov:Delegation", ("responsible", "delegate"));
    ("prov:Start", ("trigger", "activity"));
    ("prov:End", ("trigger", "activity"));
    ("prov:Invalidation", ("activity", "entity"));
    ("prov:Influence", ("influencer", "influencee"));
    ("provext:Specialization", ("generalEntity", "specificEntity"));
    ("provext:Alternate", ("alternate1", "alternate2"));
    ("provext:Membership", ("collection", "entity")) ].

(** The edge of a recognized relation type *)
Definition styled_edge (es : edge_style) (source target : json)
    (label : option string) : edge :=
  {| e_source := source;
     e_target := target;
     e_style := es_style es;
     e_dir := es_dir es;
     e_arrowhead := match es_arrowhead es with
                    | Some a => a
                    | None => "normal"
                    end;
     e_color := es_color es;
     e_label := label |}.

(** The label as the specification words it: the human label and the
    suffixes joined by the DOT line break *)
Definition spec_edge_label (label : string) (suffixes : list string)
  : string :=
  join "\n" (label :: suffixes).

(** The label as the code builds it: the annotations in one parenthesised,
    comma-separated block after a DOT line break *)
Definition annotate (label : string) (extra : list string) : string :=
  match extra with
  | [] => label
  | _ => label ++ "\n(" ++ join ", " extra ++ ")"
  end.

Definition role_suffix (item : dict) : list string :=
  match dict_get "prov:role" item with
  | Some (JArr (JObj role_val :: _)) =>
      match dict_get "@value" role_val with
      | Some v => ["role:" ++ py_str v]
      | None => []
      end
  | _ => []
  end.

(** The time value read for the label: [time] when that key is present,
    else [prov:time] *)
Definition selected_time (item : dict) : option json :=
  match dict_get "time" item with
  | Some v => Some v
  | None => dict_get "prov:time" item
  end.

Definition time_stop (a : ascii) : bool :=
  Ascii.eqb a "T" || Ascii.eqb a ".".

Definition time_suffix (item : dict) : list string :=
  match selected_time item with
  | Some (JStr t) =>
      if contains "T" t then
        ["@" ++ before_any time_stop (after_first "T" t)]
      else []
  | _ => []
  end.

(** A PROV-JSONLD document with the given [@context] and [@graph] *)
Definition doc_of (context : json) (graph : list json) : json :=
  JObj [("@context", context); ("@graph", JArr graph)].

(** *** Node labels and the node table *)

(** What a label property yields.  The property has to be a non-empty
    list.  When its first element is an object with [@value], that value
    is yielded; when it is a string, the string is yielded, except for
    [prov:label] ([plain] false); anything else yields nothing. *)
Definition yielded (plain : bool) (property : option json) : option json :=
  match property with
  | Some (JArr (JObj value_object :: _)) => dict_get "@value" value_object
  | Some (JArr (JStr text :: _)) => if plain then Some (JStr text) else None
  | _ => None
  end.

(** What each label property yields, in the order of the specification *)
Definition label_candidates (item : dict) : list (option json) :=
  [ yielded false (dict_get "prov:label" item);
    yielded true (dict_get "rdfs:label" item);
    yielded true (dict_get "foaf:name" item);
    yielded true (dict_get "dcterms:title" item);
    yielded true (dict_get "name" item);
    yielded true (dict_get "title" item) ].

(** The identifier with its namespace prefix stripped *)
Definition strip_prefix (id : string) : string :=
  if contains ":" id then after_first ":" id else id.

(** A node item that carries an identifier: [@type] a node type, [@id] a
    string *)
Definition node_item (item : dict) (ty id : string) : Prop :=
  dict_get "@type" item = Some (JStr ty)
  /\ dict_mem ty NODE_SHAPES = true
  /\ dict_get "@id" item = Some (JStr id).

(** Two states of one converter with the same settings *)
Definition same_config (s s' : converter) : Prop :=
  show_attributes s' = show_attributes s /\ namespaces s' = namespaces s.


(** *** The DOT text *)

(** The five lines [_generate_dot] starts with *)
Definition dot_header (direction : string) : list string :=
  [ "digraph PROV {";
    "  rankdir=" ++ direction ++ ";";
    "  node [fontname=" ++ dq ++ "Helvetica" ++ dq ++ "];";
    "  edge [fontname=" ++ dq ++ "Helvetica" ++ dq ++ "];";
    "" ].

(** The statement of a node: its identifier as [_make_safe_id] writes it,
    and the five entries of its descriptor *)
Definition node_statement (id : string) (d : node_props) : string :=
  "  " ++ _make_safe_id id
  ++ " [label=" ++ dq ++ py_str (n_label d) ++ dq
  ++ ", shape=" ++ dq ++ n_shape d ++ dq
  ++ ", fillcolor=" ++ dq ++ n_fillcolor d ++ dq
  ++ ", style=" ++ dq ++ n_style d ++ dq
  ++ ", type=" ++ dq ++ n_type d ++ dq ++ "];".

Definition node_statements (table : list (string * node_props))
  : list string :=
  map (fun entry => node_statement (fst entry) (snd entry)) table.

(** *** Value objects of the importer *)

Definition KEY_MAP : list (string * string) :=
  [ ("$", "@value"); ("type", "@type"); ("lang", "@language") ].

(** The claim as worded: every key of [KEY_MAP] the input carries is
    translated *)
Definition carries_translated (item out : dict) : Prop :=
  forall src dst v,
    In (src, dst) KEY_MAP -> dict_get src item = Some v ->
    dict_get dst out = Some v.

(** [out] has exactly the translations of the keys of [item] named in
    [KEY_MAP] *)
Definition translated (item out : dict) : Prop :=
  (forall src dst,
     In (src, dst) KEY_MAP -> dict_get dst out = dict_get src item)
  /\ incl (dict_keys out) (map snd KEY_MAP).

Definition is_list (v : json) : bool :=
  match v with
  | JArr _ => true
  | _ => false
  end.

(** The top-level keys [convert] reads besides [prefix], [entity],
    [activity] and [wasGeneratedBy] *)
Definition OTHER_CATEGORIES : list string :=
  [ "bundle"; "agent"; "used"; "wasInformedBy"; "wasStartedBy"; "wasEndedBy";
    "wasInvalidatedBy"; "wasDerivedFrom"; "wasAttributedTo";
    "wasAssociatedWith"; "actedOnBehalfOf"; "wasInfluencedBy";
    "specializationOf"; "alternateOf"; "hadMember" ].

End Spec.

(** * Sample inputs *)

Module Samples.
Import Ld2viz.

Definition fresh : converter := __init__ true "LR".

Definition derivation_item : dict :=
  [ ("@type", JStr "prov:Derivation");
    ("usedEntity", JStr "e1");
    ("generatedEntity", JStr "e2") ].

Definition usage_without_entity : dict :=
  [ ("@type", JStr "prov:Usage"); ("activity", JStr "a1") ].

Definition association_item : dict :=
  [ ("@type", JStr "prov:Association");
    ("activity", JStr "a1");
    ("agent", JStr "ag1");
    ("prov:role", JArr [JObj [("@value", JStr "operator")]]);
    ("prov:time", JStr "2020-01-01T10:00:00.250Z") ].

Definition generation_item : dict :=
  [ ("@type", JStr "prov:Generation");
    ("activity", JStr "a1");
    ("entity", JStr "e1");
    ("prov:role", JArr [JObj [("@value", JStr "r")]]);
    ("time", JStr "2020-01-01T10:00:00") ].

Definition example_namespaces : dict := [("ex", JStr "http://example.org/")].

(** A namespace map whose prefix is itself a scheme name *)
Definition scheme_namespaces : dict := [("http", JStr "http://x/")].

Definition titled_item : dict :=
  [ ("@type", JStr "prov:Entity");
    ("@id", JStr "ex:e1");
    ("title", JArr [JStr "by title"]);
    ("foaf:name", JArr [JObj [("@value", JStr "by name")]]);
    ("prov:label", JArr [JStr "not a value object"]) ].

(** A [prov:label] value object before other label properties *)
Definition labelled_item : dict :=
  [ ("@type", JStr "prov:Entity");
    ("@id", JStr "ex:e1");
    ("rdfs:label", JArr [JStr "by rdfs"]);
    ("prov:label", JArr [JObj [("@value", JStr "by label")]]) ].

(** A plain string under [name], and an [@id] *)
Definition named_item : dict :=
  [ ("@type", JStr "prov:Agent");
    ("@id", JStr "ex:ag1");
    ("name", JArr [JStr "plain name"]) ].

Definition identified_item : dict :=
  [ ("@type", JStr "prov:Entity"); ("@id", JStr "ex:e2") ].

Definition anonymous_item : dict := [("@type", JStr "prov:Activity")].

(** An explicit identifier of the synthetic form, then two items without
    an identifier *)
Definition collide_graph : list json :=
  [ JObj [("@type", JStr "prov:Entity"); ("@id", JStr "anon_1")];
    JObj [("@type", JStr "prov:Entity")];
    JObj [("@type", JStr "prov:Activity")] ].

(** Two node items that share an identifier, around a third *)
Definition twice_graph : list json :=
  [ JObj [("@type", JStr "prov:Entity"); ("@id", JStr "ex:e1");
          ("prov:label", JArr [JObj [("@value", JStr "first")]])];
    JObj [("@type", JStr "prov:Activity"); ("@id", JStr "ex:a1")];
    JObj [("@type", JStr "prov:Agent"); ("@id", JStr "ex:e1");
          ("prov:label", JArr [JObj [("@value", JStr "second")]])] ].

Definition twice_state : converter :=
  set_nodes fresh
    [ ("ex:e1", {| n_label := JStr "second"; n_shape := "house";
                   n_fillcolor := "#FDB266"; n_style := "filled";
                   n_type := "prov:Agent" |});
      ("ex:a1", {| n_label := JStr "a1"; n_shape := "box";
                   n_fillcolor := "#9FB1FC"; n_style := "filled";
                   n_type := "prov:Activity" |}) ].





Definition entity_data : dict :=
  [ ("prov:label", JStr "E one");
    ("ex:size", JObj [("$", JInt 5); ("type", JStr "xsd:int")]) ].

Definition activity_data : dict :=
  [ ("prov:startTime", JStr "2020-01-01T10:00:00") ].

Definition generation_data : dict :=
  [ ("prov:entity", JStr "ex:e1");
    ("prov:activity", JStr "ex:a1");
    ("prov:role", JStr "out") ].

Definition one_of_each : dict :=
  [ ("prefix", JObj example_namespaces);
    ("entity", JObj [("ex:e1", JObj entity_data)]);
    ("activity", JObj [("ex:a1", JObj activity_data)]);
    ("wasGeneratedBy", JObj [("_:g1", JObj generation_data)]) ].

End Samples.

(** * Vocabulary of the further properties *)

Module Behaviour.
Import PyStr Ld2viz.

(** *** Attribute lines *)

(** The key as [_get_attributes_text] shows it *)
Definition short_key (ns : dict) (key : string) : string :=
  if contains ":" key then _shorten_uri ns key else key.

(** The keys [_has_attributes] does not count *)
Definition ESSENTIAL : list string :=
  (["@type"; "@id"] ++ REFERENCE_PROPERTIES)%list.

(** *** Namespaces *)

(** The step of the loop of [_extract_namespaces] *)
Definition merge_context (ns : dict) (ctx : json) : dict :=
  match ctx with
  | JObj d => dict_update ns d
  | _ => ns
  end.

Definition not_an_object (v : json) : Prop :=
  match v with
  | JObj _ => False
  | _ => True
  end.

(** *** Edges and DOT text *)

(** An edge built from an entry of [EDGE_STYLES], between two truthy
    endpoints *)
Definition registry_edge (e : edge) : Prop :=
  exists t es label,
    dict_get t EDGE_STYLES = Some es
    /\ e = Spec.styled_edge es (e_source e) (e_target e) label
    /\ truthy (e_source e) = true /\ truthy (e_target e) = true.

Definition string_endpoints (e : edge) : Prop :=
  exists s t, e_source e = JStr s /\ e_target e = JStr t.

(** [key="value"] and [key=value] *)
Definition quoted (key value : string) : string :=
  key ++ "=" ++ dq ++ value ++ dq.

Definition unquoted (key value : string) : string := key ++ "=" ++ value.

(** The attributes of an edge statement: the label when there is one and
    it is not empty, the style, the direction, the colour when there is
    one, the arrowhead *)
Definition edge_attributes (e : edge) : list string :=
  let label :=
    match e_label e with
    | Some l => if String.eqb l "" then [] else [quoted "label" l]
    | None => []
    end in
  let color :=
    match e_color e with
    | Some c => [quoted "color" c]
    | None => []
    end in
  (label ++ [unquoted "style" (e_style e); unquoted "dir" (e_dir e)]
   ++ color ++ [unquoted "arrowhead" (e_arrowhead e)])%list.

(** The statement of an edge between two string endpoints, with its
    attributes in brackets *)
Definition edge_statement (e : edge) (line : string) : Prop :=
  exists s t,
    e_source e = JStr s /\ e_target e = JStr t
    /\ line = "  " ++ _make_safe_id s ++ " -> " ++ _make_safe_id t
              ++ " [" ++ join ", " (edge_attributes e) ++ "];".

(** *** The importer *)

(** The wrapping [_convert_element] applies to the value of [key] *)
Definition wrap_attribute (key : string) (value : json) : json :=
  if String.eqb key "prov:label" then Prov2ld._convert_label value
  else Prov2ld._convert_value value.

(** What [_convert_category] makes of one entry *)
Definition converted_entry (type_name : string) (kv : string * json)
    (obj : json) : Prop :=
  exists o,
    obj = JObj o
    /\ dict_get "@type" o = Some (JStr type_name)
    /\ (fst kv <> "" -> dict_get "@id" o = Some (JStr (fst kv))).

Definition entry_count (v : option json) : nat :=
  match v with
  | Some (JObj d) => List.length d
  | _ => 0
  end.

(** Bundles and entries of the categories of [TYPE_MAPPINGS] in a
    document *)
Definition statement_count (doc : dict) : nat :=
  entry_count (dict_get "bundle" doc)
  + list_sum (map (fun ct => entry_count (dict_get (fst ct) doc))
                Prov2ld.TYPE_MAPPINGS).

(** The keys [_convert_bundle] reads; [convert] reads [bundle] as well *)
Definition READ_KEYS : list string :=
  ("prefix" :: map fst Prov2ld.TYPE_MAPPINGS)%list.

End Behaviour.

(** * Further sample inputs *)

Module MoreSamples.
Import Ld2viz Samples.

Definition sized_item : dict :=
  [ ("@id", JStr "ex:e1");
    ("ex:note", JStr "a text of more than thirty characters") ].

Definition bare_item : dict :=
  [ ("@type", JStr "prov:Entity"); ("@id", JStr "ex:e1");
    ("generation", JStr "ex:g1") ].

Definition bundle_item : dict :=
  [ ("@type", JStr "prov:Bundle"); ("@id", JStr "b") ].

Definition usage_with_empty_entity : dict :=
  [ ("@type", JStr "prov:Usage"); ("activity", JStr "a1");
    ("entity", JStr "") ].

(** Two nodes and an edge *)
Definition drawn_state : converter :=
  set_edges twice_state
    [ Spec.styled_edge (mk_style "wasDerivedFrom" "solid" "back")
        (JStr "ex:e1") (JStr "ex:a1") (Some "wasDerivedFrom") ].

Definition override_namespaces : dict := [("ex", JStr "http://other.org/")].

(** Two namespaces of which the first, shorter one is a prefix of the
    second *)
Definition nested_namespaces : dict :=
  [ ("ex", JStr "http://example.org/");
    ("exv", JStr "http://example.org/vocab/") ].

Definition mixed_graph : list json :=
  [ JObj derivation_item; JObj usage_without_entity; JObj bundle_item ].

Definition activity_times : dict :=
  [ ("prov:startTime", JStr "2020-01-01T10:00:00");
    ("prov:label", JStr "run");
    ("note", JStr "dropped") ].

Definition bundle_with_nesting : dict :=
  [ ("entity", JObj [("ex:e1", JObj entity_data)]);
    ("bundle", JObj [("ex:inner", JObj [])]) ].

Definition bundle_without_nesting : dict :=
  [ ("entity", JObj [("ex:e1", JObj entity_data)]) ].

Definition one_of_each_reordered : dict :=
  [ ("wasQuotedFrom", JObj []);
    ("wasGeneratedBy", JObj [("_:g1", JObj generation_data)]);
    ("activity", JObj [("ex:a1", JObj activity_data)]);
    ("entity", JObj [("ex:e1", JObj entity_data)]);
    ("prefix", JObj example_namespaces) ].

End MoreSamples.

(** * Properties *)

(** ** Strings *)

Module PyStrFacts.
Import PyStr Spec.

Lemma startswith_nil (s : string) : startswith s "" = true.
Proof. now destruct s. Qed.

Lemma startswith_refl_app (p x : string) : startswith (p ++ x) p = true.
Proof.
  induction p as [|c p IH]; simpl.
  - apply startswith_nil.
  - now rewrite Ascii.eqb_refl, IH.
Qed.

Lemma append_nil_r (s : string) : s ++ "" = s.
Proof. induction s as [|c s IH]; cbn; congruence. Qed.

Lemma append_assoc (x y z : string) : (x ++ y) ++ z = x ++ y ++ z.
Proof. induction x as [|c x IH]; cbn; congruence. Qed.

Lemma append_inv_head (p x y : string) : p ++ x = p ++ y -> x = y.
Proof. induction p as [|c p IH]; cbn; [trivial|]. intros [= H]. auto. Qed.

(** [split] always gives a first piece: the text before the first [c]. *)
Lemma split_first (c : ascii) (s : string) :
  exists ps, split c s = before_any (fun a => Ascii.eqb a c) s :: ps.
Proof.
  induction s as [|a s [ps IH]]; cbn; [now eauto|].
  destruct (Ascii.eqb a c); [now eauto|].
  rewrite IH. eauto.
Qed.

(** With an occurrence of [c], the other pieces are those of the text
    after it. *)
Lemma split_rest (c : ascii) (s : string) :
  contains c s = true ->
  exists p, split c s = p :: split c (after_first c s).
Proof.
  induction s as [|a s IH]; cbn; [discriminate|].
  destruct (Ascii.eqb a c); cbn.
  - eauto.
  - intros H. destruct (IH H) as [p ->]. eauto.
Qed.

Lemma split1_second (c : ascii) (s : string) :
  contains c s = true -> exists p q, split1 c s = [p; q].
Proof.
  induction s as [|a s IH]; simpl; [discriminate|].
  destruct (Ascii.eqb a c); simpl.
  - eauto.
  - intros H. destruct (IH H) as (p & q & ->). eauto.
Qed.

Lemma split1_after (c : ascii) (s : string) :
  contains c s = true ->
  nth_error (split1 c s) 1 = Some (after_first c s).
Proof.
  induction s as [|a s IH]; cbn; [discriminate|].
  destruct (Ascii.eqb a c); cbn; [reflexivity|].
  intros H. specialize (IH H).
  destruct (split1_second c s H) as (p & q & E). rewrite E in *. exact IH.
Qed.

Lemma before_any_twice (p q : ascii -> bool) (s : string) :
  before_any p (before_any q s) = before_any (fun a => q a || p a) s.
Proof.
  induction s as [|a s IH]; cbn; [reflexivity|].
  destruct (q a); cbn; [reflexivity|].
  destruct (p a); [reflexivity|]. now rewrite IH.
Qed.

Lemma startswith_prov_colon (key : string) :
  startswith key "prov:" = true -> contains ":" key = true.
Proof.
  do 5 (destruct key as [|? key]; cbn; try discriminate;
        match goal with
        | |- context [Ascii.eqb ?x ?y] =>
            destruct (Ascii.eqb_spec x y); subst; cbn; try discriminate
        end).
  intros _. now rewrite ?orb_true_r.
Qed.

(** Decimal text determines the number. *)
Lemma of_nat_inj (n m : nat) : of_nat n = of_nat m -> n = m.
Proof.
  unfold of_nat. intros H.
  apply DecimalNat.Unsigned.to_uint_inj.
  assert (E : NilEmpty.uint_of_string (NilEmpty.string_of_uint (Nat.to_uint n))
              = NilEmpty.uint_of_string
                  (NilEmpty.string_of_uint (Nat.to_uint m)))
    by now rewrite H.
  rewrite !NilEmpty.usu in E. congruence.
Qed.

(** The five [replace] calls of [_make_safe_id] are one pass. *)
Lemma replace_chain (s : string) :
  replace "#" "_" (replace "." "_"
    (replace "-" "_" (replace "/" "_" (replace ":" "_" s)))) = sanitize s.
Proof.
  induction s as [|c s IH]; [reflexivity|].
  cbn [replace sanitize]. rewrite IH. f_equal.
  unfold is_special; cbn [existsb].
  repeat match goal with
         | |- context [Ascii.eqb ?x ?y] =>
             destruct (Ascii.eqb_spec x y); subst; cbn
         end; congruence.
Qed.

(** Peel up to [n] leading characters off [p], deciding each against the
    literal it is compared with *)
Ltac peel n p :=
  lazymatch n with
  | O => idtac
  | S ?m =>
      destruct p as [|? p]; cbn in *; try reflexivity; try discriminate;
      try (match goal with
           | |- context [Ascii.eqb ?x ?y] =>
               destruct (Ascii.eqb_spec x y); subst; cbn in *;
               try reflexivity; try discriminate
           end; peel m p)
  end.

(** A compacted name starts with a scheme only if its prefix does. *)
Lemma compact_no_scheme (p r : string) :
  scheme_like p = false ->
  startswith (p ++ ":" ++ r) "http://" = false
  /\ startswith (p ++ ":" ++ r) "https://" = false.
Proof.
  unfold scheme_like. intros H.
  repeat (apply orb_false_elim in H as [H ?]).
  split.
  - peel 8 p.
  - peel 9 p.
Qed.

End PyStrFacts.

(** ** Characters *)

Module CharFacts.
Import PyStr Spec.

Lemma characters_cons (c : ascii) (r : string) :
  characters (String c r)
  = match characters r with
    | p :: ps =>
        if starts_cont r then String c p :: ps else String c "" :: p :: ps
    | [] => [String c ""]
    end.
Proof. reflexivity. Qed.

(** The first character starts with the first byte and goes on with
    continuation bytes. *)
Lemma characters_head (d : ascii) (r : string) :
  exists r' ps,
    characters (String d r) = String d r' :: ps
    /\ all_chars is_cont r' = true.
Proof.
  revert d. induction r as [|e r IH]; intros d.
  - exists "", []. split; reflexivity.
  - destruct (IH e) as (r' & ps & E & H).
    rewrite characters_cons, E. cbn [starts_cont].
    destruct (is_cont e) eqn:He.
    + exists (String e r'), ps. split; [reflexivity|].
      cbn [all_chars]. now rewrite He, H.
    + exists "", (String e r' :: ps). split; reflexivity.
Qed.

Lemma characters_piece (c : ascii) (r : string) :
  all_chars is_cont r = true -> characters (String c r) = [String c r].
Proof.
  revert c. induction r as [|d r IH]; intros c; [reflexivity|].
  cbn [all_chars]. intros H. apply andb_prop in H as [Hd Hr].
  rewrite characters_cons, (IH d Hr). cbn [starts_cont]. now rewrite Hd.
Qed.

Lemma len_cons (c : ascii) (r : string) :
  len (String c r) = (len r + if starts_cont r then 0 else 1)%nat.
Proof.
  unfold len. rewrite characters_cons.
  destruct r as [|d r]; [reflexivity|].
  destruct (characters_head d r) as (r' & ps & -> & _).
  cbn [starts_cont]. destruct (is_cont d); cbn [List.length]; lia.
Qed.

Lemma len_app_le (a b : string) : (len (a ++ b) <= len a + len b)%nat.
Proof.
  induction a as [|c a IH]; [change (len "") with 0%nat; cbn [append]; lia|].
  cbn [append]. rewrite !len_cons.
  destruct a as [|d a]; cbn [append starts_cont] in *.
  - change (len "") with 0%nat. destruct (starts_cont b); lia.
  - destruct (is_cont d); lia.
Qed.

Lemma Forall_take {A : Type} (P : A -> Prop) (n : nat) (l : list A) :
  Forall P l -> Forall P (firstn n l).
Proof.
  intros H. revert n. induction H as [|a l Ha _ IH]; intros [|n]; cbn;
    constructor; auto.
Qed.

Lemma len_first_chars (n : nat) (s : string) : (len (first_chars n s) <= n)%nat.
Proof.
  unfold first_chars.
  assert (H : forall ps, Forall (fun p => len p = 1%nat) ps ->
                         (len (cat ps) <= List.length ps)%nat).
  { induction 1 as [|p ps Hp _ IH]; [cbn; lia|].
    cbn [cat fold_right List.length].
    pose proof (len_app_le p (fold_right append "" ps)) as L.
    unfold cat in IH. lia. }
  assert (P : Forall (fun p => len p = 1%nat) (characters s)).
  { induction s as [|c s IH]; [constructor|].
    rewrite characters_cons.
    destruct s as [|d s]; [repeat constructor|].
    destruct (characters_head d s) as (r' & ps & E & Hr').
    rewrite E in IH |- *. cbn [starts_cont].
    inversion IH as [|? ? Hp Hps]; subst.
    destruct (is_cont d) eqn:Hd.
    - constructor; [|exact Hps]. unfold len.
      rewrite characters_piece; [reflexivity|].
      cbn [all_chars]. now rewrite Hd, Hr'.
    - constructor; [reflexivity | exact IH]. }
  pose proof (H _ (Forall_take _ n _ P)) as L.
  pose proof (firstn_le_length n (characters s)) as L1.
  rewrite length_firstn in L. lia.
Qed.


(** *** Well-formed text *)

Lemma cont_high (c : ascii) : is_cont c = true -> (128 <=? byte c)%N = true.
Proof. unfold is_cont. intros H. now apply andb_prop in H. Qed.

(** A character is one byte below 128, or a byte from 194 on followed by
    continuation bytes. *)
Lemma is_char_cases (p : string) :
  is_char p = true ->
  (exists c, p = String c "" /\ (byte c <? 128)%N = true)
  \/ (exists c r, p = String c r /\ (194 <=? byte c)%N = true
                  /\ all_chars is_cont r = true).
Proof.
  unfold is_char, ord, cont_bits.
  destruct p as [|c0 [|c1 [|c2 [|c3 [|c4 r]]]]]; try discriminate.
  - destruct (byte c0 <? 128)%N eqn:E; [|discriminate]. left. eauto.
  - destruct (194 <=? byte c0)%N eqn:E; [|discriminate].
    destruct (is_cont c1) eqn:E1; [|now destruct (_ <? _)%N].
    right. exists c0, (String c1 ""). cbn [all_chars]. now rewrite E1.
  - destruct (224 <=? byte c0)%N eqn:E; [|discriminate].
    destruct (is_cont c1) eqn:E1; [|now destruct (_ <? _)%N].
    destruct (is_cont c2) eqn:E2; [|now destruct (_ <? _)%N].
    right. exists c0, (String c1 (String c2 "")). cbn [all_chars].
    rewrite E1, E2. repeat split.
    apply N.leb_le in E. apply N.leb_le. lia.
  - destruct (240 <=? byte c0)%N eqn:E; [|discriminate].
    destruct (is_cont c1) eqn:E1; [|now destruct (_ <? _)%N].
    destruct (is_cont c2) eqn:E2; [|now destruct (_ <? _)%N].
    destruct (is_cont c3) eqn:E3; [|now destruct (_ <? _)%N].
    right. exists c0, (String c1 (String c2 (String c3 ""))). cbn [all_chars].
    rewrite E1, E2, E3. repeat split.
    apply N.leb_le in E. apply N.leb_le. lia.
Qed.

Lemma lead_not_cont (c : ascii) :
  (byte c <? 128)%N = true \/ (194 <=? byte c)%N = true -> is_cont c = false.
Proof.
  unfold is_cont. intros [H|H].
  - apply N.ltb_lt in H. destruct (N.leb_spec 128 (byte c)); [lia|reflexivity].
  - apply N.leb_le in H. destruct (N.ltb_spec (byte c) 192); [lia|].
    apply andb_false_r.
Qed.

Lemma is_char_piece (p : string) :
  is_char p = true ->
  exists c r, p = String c r /\ is_cont c = false
              /\ all_chars is_cont r = true.
Proof.
  intros H.
  destruct (is_char_cases p H) as [(c & -> & Hc)|(c & r & -> & Hc & Hr)].
  - exists c, "". repeat split. apply lead_not_cont. now left.
  - exists c, r. repeat split; [|exact Hr]. apply lead_not_cont. now right.
Qed.

Lemma starts_cont_cat (ps : list string) :
  Forall (fun p => is_char p = true) ps -> starts_cont (cat ps) = false.
Proof.
  intros H. destruct H as [|p qs Hp _]; [reflexivity|].
  destruct (is_char_piece p Hp) as (c & r & -> & Hc & _). exact Hc.
Qed.

Lemma characters_app_piece (c : ascii) (r t : string) :
  all_chars is_cont r = true -> starts_cont t = false ->
  characters (String c r ++ t) = String c r :: characters t.
Proof.
  revert c. induction r as [|d r IH]; intros c; cbn [all_chars append].
  - intros _ Ht. rewrite characters_cons, Ht. now destruct (characters t).
  - intros H Ht. apply andb_prop in H as [Hd Hr].
    rewrite characters_cons.
    change (String d (r ++ t)) with (String d r ++ t).
    rewrite (IH d Hr Ht). cbn [starts_cont append]. now rewrite Hd.
Qed.

(** Text put together from characters has these characters. *)
Lemma characters_cat (ps : list string) :
  Forall (fun p => is_char p = true) ps -> characters (cat ps) = ps.
Proof.
  induction 1 as [|p ps Hp Hps IH]; [reflexivity|].
  cbn [cat fold_right].
  destruct (is_char_piece p Hp) as (c & r & -> & _ & Hr).
  rewrite characters_app_piece; [now fold (cat ps); rewrite IH | exact Hr |].
  now apply starts_cont_cat.
Qed.

Lemma cat_characters (s : string) : cat (characters s) = s.
Proof.
  induction s as [|c s IH]; [reflexivity|].
  rewrite characters_cons.
  destruct s as [|d s]; [reflexivity|].
  destruct (characters_head d s) as (r' & ps & E & _).
  rewrite E in IH |- *. cbn [starts_cont].
  destruct (is_cont d); cbn [cat fold_right append] in *; now rewrite IH.
Qed.

Lemma well_formed_Forall (s : string) :
  well_formed s = true -> Forall (fun p => is_char p = true) (characters s).
Proof.
  unfold well_formed. intros H. apply Forall_forall.
  now apply forallb_forall.
Qed.

Lemma remove_app (a : ascii) (s t : string) :
  remove a (s ++ t) = remove a s ++ remove a t.
Proof.
  induction s as [|c s IH]; [reflexivity|]. cbn [append remove].
  destruct (Ascii.eqb c a); cbn [append]; now rewrite IH.
Qed.

Lemma sanitize_app (s t : string) :
  sanitize (s ++ t) = sanitize s ++ sanitize t.
Proof. induction s as [|c s IH]; cbn; congruence. Qed.

Lemma high_neq (c a : ascii) :
  (128 <=? byte c)%N = true -> (byte a <? 128)%N = true ->
  Ascii.eqb c a = false.
Proof.
  intros Hc Ha. destruct (Ascii.eqb_spec c a) as [->|]; [|reflexivity].
  apply N.leb_le in Hc. apply N.ltb_lt in Ha. lia.
Qed.

Lemma remove_conts (a : ascii) (r : string) :
  (byte a <? 128)%N = true -> all_chars is_cont r = true -> remove a r = r.
Proof.
  intros Ha. induction r as [|d r IH]; [reflexivity|].
  cbn [all_chars remove]. intros H. apply andb_prop in H as [Hd Hr].
  now rewrite (high_neq d a (cont_high d Hd) Ha), IH.
Qed.

Lemma special_low (c : ascii) : is_special c = true -> (byte c <? 128)%N = true.
Proof.
  unfold is_special; cbn [existsb].
  repeat match goal with
         | |- context [Ascii.eqb c ?y] =>
             destruct (Ascii.eqb_spec c y); [subst; reflexivity|]
         end.
  discriminate.
Qed.

Lemma high_not_special (c : ascii) :
  (128 <=? byte c)%N = true -> is_special c = false.
Proof.
  intros H. destruct (is_special c) eqn:E; [|reflexivity].
  apply special_low in E. apply N.leb_le in H. apply N.ltb_lt in E. lia.
Qed.

Lemma sanitize_conts (r : string) :
  all_chars is_cont r = true -> sanitize r = r.
Proof.
  induction r as [|d r IH]; [reflexivity|].
  cbn [all_chars sanitize]. intros H. apply andb_prop in H as [Hd Hr].
  now rewrite (high_not_special d (cont_high d Hd)), IH.
Qed.

(** Removing the underscores of a character leaves it, or nothing. *)
Lemma remove_char (p : string) :
  is_char p = true ->
  remove "_" p = if String.eqb p "_" then "" else p.
Proof.
  intros H.
  destruct (is_char_cases p H) as [(c & -> & Hc)|(c & r & -> & Hc & Hr)].
  - cbn [remove String.eqb]. destruct (Ascii.eqb c "_"); reflexivity.
  - cbn [remove String.eqb].
    assert (E : Ascii.eqb c "_" = false).
    { apply high_neq; [|reflexivity].
      apply N.leb_le in Hc. apply N.leb_le. lia. }
    rewrite E. now rewrite remove_conts.
Qed.

(** Sanitizing a character gives a character: an underscore for a special
    one, the character itself otherwise. *)
Lemma sanitize_char (p : string) :
  is_char p = true -> is_char (sanitize p) = true.
Proof.
  intros H.
  destruct (is_char_cases p H) as [(c & -> & Hc)|(c & r & -> & Hc & Hr)].
  - cbn [sanitize]. destruct (is_special c); [reflexivity|].
    unfold is_char, ord. now rewrite Hc.
  - cbn [sanitize]. rewrite sanitize_conts by exact Hr.
    rewrite high_not_special; [exact H|].
    apply N.leb_le in Hc. apply N.leb_le. lia.
Qed.

Lemma remove_cat (ps : list string) :
  Forall (fun p => is_char p = true) ps ->
  remove "_" (cat ps) = cat (filter not_underscore ps).
Proof.
  induction 1 as [|p ps Hp _ IH]; [reflexivity|].
  cbn [cat fold_right filter]. fold (cat ps).
  rewrite remove_app, IH, (remove_char p Hp). unfold not_underscore at 2.
  destruct (String.eqb p "_"); reflexivity.
Qed.

Lemma sanitize_cat (ps : list string) :
  sanitize (cat ps) = cat (map sanitize ps).
Proof.
  induction ps as [|p ps IH]; [reflexivity|].
  cbn [cat fold_right map]. fold (cat ps). fold (cat (map sanitize ps)).
  now rewrite sanitize_app, IH.
Qed.

Lemma Forall_filter {A : Type} (P : A -> Prop) (f : A -> bool) (l : list A) :
  Forall P l -> Forall P (filter f l).
Proof.
  induction 1 as [|a l Ha _ IH]; cbn; [constructor|].
  destruct (f a); [constructor|]; auto.
Qed.

Lemma characters_remove (s : string) :
  well_formed s = true ->
  characters (remove "_" s) = filter not_underscore (characters s).
Proof.
  intros H. pose proof (well_formed_Forall s H) as F.
  rewrite <- (cat_characters s) at 1.
  rewrite (remove_cat _ F). apply characters_cat. now apply Forall_filter.
Qed.

Lemma characters_sanitize (s : string) :
  well_formed s = true ->
  characters (sanitize s) = map sanitize (characters s)
  /\ well_formed (sanitize s) = true.
Proof.
  intros H. pose proof (well_formed_Forall s H) as F.
  assert (F' : Forall (fun p => is_char p = true)
                 (map sanitize (characters s))).
  { apply Forall_map. eapply Forall_impl; [|exact F]. apply sanitize_char. }
  assert (E : characters (sanitize s) = map sanitize (characters s)).
  { rewrite <- (cat_characters s) at 1. rewrite sanitize_cat.
    now apply characters_cat. }
  split; [exact E|]. unfold well_formed. rewrite E.
  apply forallb_forall. now apply Forall_forall.
Qed.

Lemma underscore_not_alnum : is_alnum "_" = false.
Proof. reflexivity. Qed.

Lemma alnum_filter (ps : list string) :
  forallb is_alnum (filter not_underscore ps) = forallb is_word ps.
Proof.
  induction ps as [|p ps IH]; [reflexivity|].
  cbn [filter forallb]. unfold not_underscore at 1, is_word at 1.
  destruct (String.eqb_spec p "_") as [->|_]; cbn [negb].
  - now rewrite orb_true_r.
  - cbn [forallb]. now rewrite IH, orb_false_r.
Qed.

(** A text without its underscores is alphanumeric when the text is made
    of alphanumerics and underscores and holds an alphanumeric. *)
Lemma isalnum_filter (ps : list string) :
  match filter not_underscore ps with
  | [] => false
  | cs => forallb is_alnum cs
  end = forallb is_word ps && existsb is_alnum ps.
Proof.
  induction ps as [|p ps IH]; [reflexivity|].
  cbn [filter forallb existsb]. unfold not_underscore at 1, is_word at 1.
  destruct (String.eqb_spec p "_") as [->|_]; cbn [negb].
  - now rewrite underscore_not_alnum.
  - rewrite orb_false_r. cbn [forallb]. rewrite alnum_filter.
    destruct (is_alnum p); cbn [andb orb]; [|reflexivity].
    now rewrite andb_true_r.
Qed.

Lemma isalnum_remove (s : string) :
  well_formed s = true ->
  isalnum (remove "_" s) = word_text s && has_alnum s.
Proof.
  intros H. unfold isalnum, word_text, has_alnum.
  rewrite (characters_remove s H). apply isalnum_filter.
Qed.

Lemma special_not_alnum (c : ascii) :
  is_special c = true -> is_alnum (String c "") = false.
Proof.
  unfold is_special; cbn [existsb].
  repeat match goal with
         | |- context [Ascii.eqb c ?y] =>
             destruct (Ascii.eqb_spec c y); [subst; reflexivity|]
         end.
  discriminate.
Qed.

Lemma word_is_char (p : string) : is_word p = true -> is_char p = true.
Proof.
  unfold is_word, is_alnum, is_char.
  destruct (String.eqb_spec p "_") as [->|_]; [reflexivity|].
  rewrite orb_false_r. now destruct (ord p).
Qed.

Lemma sanitize_word_char (p : string) : is_word p = true -> sanitize p = p.
Proof.
  intros H. pose proof (word_is_char p H) as Hc.
  destruct (is_char_cases p Hc) as [(c & -> & _)|(c & r & -> & Hhi & Hr)].
  - cbn [sanitize]. destruct (is_special c) eqn:E; [|reflexivity].
    unfold is_word in H. rewrite (special_not_alnum c E) in H.
    cbn [orb] in H. apply String.eqb_eq in H. now rewrite H.
  - cbn [sanitize]. rewrite sanitize_conts by exact Hr.
    rewrite high_not_special; [reflexivity|].
    apply N.leb_le in Hhi. apply N.leb_le. lia.
Qed.

Lemma word_text_well_formed (s : string) :
  word_text s = true -> well_formed s = true.
Proof.
  unfold word_text, well_formed. intros H.
  apply forallb_forall. intros p Hp. apply word_is_char.
  revert p Hp. now apply forallb_forall.
Qed.

(** A text of alphanumerics and underscores holds nothing to sanitize. *)
Lemma sanitize_word_text (s : string) : word_text s = true -> sanitize s = s.
Proof.
  unfold word_text. intros H.
  rewrite <- (cat_characters s). rewrite sanitize_cat. f_equal.
  induction (characters s) as [|p ps IH]; [reflexivity|].
  cbn [forallb map] in *. apply andb_prop in H as [Hp Hps].
  now rewrite (sanitize_word_char p Hp), IH.
Qed.

End CharFacts.

(** ** Dictionaries *)

Module PyDictFacts.

Section Facts.
Context {A : Type}.
Implicit Types (d : list (string * A)) (k : string) (v : A).

Lemma dict_get_mem k d :
  dict_mem k d = match dict_get k d with Some _ => true | None => false end.
Proof.
  induction d as [|[k' v] d IH]; cbn; [reflexivity|].
  destruct (String.eqb k' k); cbn; [reflexivity | exact IH].
Qed.

Lemma dict_mem_get k d : dict_mem k d = false -> dict_get k d = None.
Proof. rewrite dict_get_mem. now destruct (dict_get k d). Qed.

Lemma dict_mem_In k d : dict_mem k d = true <-> In k (dict_keys d).
Proof.
  induction d as [|[k' v] d IH]; cbn; [split; [discriminate | tauto]|].
  destruct (String.eqb_spec k' k); cbn.
  - tauto.
  - rewrite IH. tauto.
Qed.

Lemma dict_get_set_same k v d : dict_get k (dict_set k v d) = Some v.
Proof.
  induction d as [|[k' v'] d IH]; cbn.
  - now rewrite String.eqb_refl.
  - destruct (String.eqb k' k) eqn:E; cbn; rewrite E; [reflexivity | exact IH].
Qed.

Lemma dict_get_set_other k k' v d :
  k' <> k -> dict_get k' (dict_set k v d) = dict_get k' d.
Proof.
  intros Hne. induction d as [|[k0 v0] d IH]; cbn.
  - destruct (String.eqb_spec k k'); [congruence | reflexivity].
  - destruct (String.eqb_spec k0 k); cbn.
    + subst. destruct (String.eqb_spec k k'); [congruence | reflexivity].
    + destruct (String.eqb k0 k'); [reflexivity | exact IH].
Qed.

(** Assigning a key that is present keeps the keys and their order. *)
Lemma dict_set_present k v d :
  dict_mem k d = true -> dict_keys (dict_set k v d) = dict_keys d.
Proof.
  unfold dict_keys.
  induction d as [|[k' v'] d IH]; cbn; [discriminate|].
  destruct (String.eqb k' k); cbn; [reflexivity|].
  intros H. now rewrite (IH H).
Qed.

(** Assigning a new key appends it. *)
Lemma dict_set_absent k v d :
  dict_mem k d = false -> dict_set k v d = (d ++ [(k, v)])%list.
Proof.
  induction d as [|[k' v'] d IH]; cbn; [reflexivity|].
  destruct (String.eqb k' k); cbn; [discriminate|].
  intros H. now rewrite (IH H).
Qed.

Lemma dict_set_keys_incl k v d :
  incl (dict_keys d) (dict_keys (dict_set k v d)).
Proof.
  destruct (dict_mem k d) eqn:E.
  - rewrite (dict_set_present _ _ _ E). apply incl_refl.
  - rewrite (dict_set_absent _ _ _ E). unfold dict_keys. rewrite map_app.
    apply incl_appl, incl_refl.
Qed.


(** The keys of a dictionary stay distinct. *)
Lemma dict_set_NoDup k v d :
  NoDup (dict_keys d) -> NoDup (dict_keys (dict_set k v d)).
Proof.
  intros H. destruct (dict_mem k d) eqn:E.
  - now rewrite (dict_set_present _ _ _ E).
  - rewrite (dict_set_absent _ _ _ E). unfold dict_keys. rewrite map_app.
    cbn [map fst].
    apply (NoDup_Add (Add_app k (map fst d) [])).
    rewrite app_nil_r. split; [exact H|].
    intros Hin. apply dict_mem_In in Hin. congruence.
Qed.

End Facts.

Lemma get_absent (k : string) (d : dict) :
  dict_mem k d = false -> get k d = JNull.
Proof. intros H. unfold get. now rewrite (dict_mem_get _ _ H). Qed.

Lemma get_present (k : string) (d : dict) (v : json) :
  dict_get k d = Some v -> get k d = v.
Proof. intros H. unfold get. now rewrite H. Qed.

Lemma copy_key_get_same (src dst : string) (item acc : dict) :
  dict_get dst (copy_key src dst item acc)
  = match dict_get src item with
    | Some v => Some v
    | None => dict_get dst acc
    end.
Proof.
  unfold copy_key. destruct (dict_get src item); [|reflexivity].
  apply dict_get_set_same.
Qed.

Lemma copy_key_get_other (src dst k : string) (item acc : dict) :
  k <> dst -> dict_get k (copy_key src dst item acc) = dict_get k acc.
Proof.
  intros H. unfold copy_key. destruct (dict_get src item); [|reflexivity].
  now apply dict_get_set_other.
Qed.

Lemma foldM_app {A S : Type} (step : S -> A -> option S)
    (xs ys : list A) (st : S) :
  foldM step (xs ++ ys) st = (st' <- foldM step xs st ;; foldM step ys st').
Proof.
  revert st. induction xs as [|x xs IH]; intros st; cbn; [reflexivity|].
  destruct (step st x); cbn; [apply IH | reflexivity].
Qed.

End PyDictFacts.

(** ** The PROV-JSON importer *)

Module Prov2ldProps.
Import PyStr PyStrFacts PyDictFacts Spec Samples Prov2ld.

(** *** A run of the model *)

Example generation_record_converted :
  _convert_relation "_:g1" (JObj generation_data)
    "prov:Generation" "wasGeneratedBy"
  = Some [ ("@type", JStr "prov:Generation");
           ("@id", JStr "_:g1");
           ("entity", JStr "ex:e1");
           ("activity", JStr "ex:a1");
           ("prov:role", JArr [JObj [("@value", JStr "out")]]) ].
Proof. reflexivity. Qed.

(** *** Value objects *)

Lemma convert_value_single (v : json) :
  is_list v = false -> _convert_value v = JArr [convert_value_item v].
Proof. now destruct v. Qed.

Lemma convert_label_single (v : json) :
  is_list v = false -> _convert_label v = JArr [convert_label_item v].
Proof. now destruct v. Qed.

Lemma scalar_not_list (v : json) : is_scalar v = true -> is_list v = false.
Proof. now destruct v. Qed.

Lemma scalar_item (v : json) :
  is_scalar v = true ->
  convert_value_item v = JObj [("@value", JStr (py_str v))]
  /\ convert_label_item v = JObj [("@value", JStr (py_str v))].
Proof. destruct v; try discriminate; now split. Qed.

Lemma translated_item (f : dict) :
  dict_mem "$" f || dict_mem "type" f = true ->
  exists out, convert_value_item (JObj f) = JObj out /\ translated f out.
Proof.
  intros H. unfold convert_value_item. rewrite H.
  eexists. split; [reflexivity|].
  unfold copy_key, translated, KEY_MAP.
  destruct (dict_get "$" f) eqn:E1, (dict_get "type" f) eqn:E2,
    (dict_get "lang" f) eqn:E3;
    (split; [ intros src dst [[= <- <-]|[[= <- <-]|[[= <- <-]|[]]]]; cbn;
              congruence
            | intros x Hx; cbn in Hx |- *; tauto ]).
Qed.

Lemma label_item (f : dict) :
  exists out,
    convert_label_item (JObj f) = JObj out
    /\ dict_get "@value" out = Some (get_default "$" (JStr "") f)
    /\ dict_get "@language" out = dict_get "lang" f
    /\ incl (dict_keys out) ["@value"; "@language"].
Proof.
  unfold convert_label_item, copy_key. eexists. split; [reflexivity|].
  destruct (dict_get "lang" f) eqn:E; cbn; repeat split; auto;
    intros x Hx; cbn in Hx |- *; tauto.
Qed.

(** C6, as amended.  A scalar (not a list, not an object) is wrapped as
    the one-key object [{"@value": str(scalar)}] by both conversions.  The
    value conversion translates an object that carries [$] or [type] into
    an object holding exactly [@value], [@type] and [@language] for the
    [$], [type] and [lang] keys present, and passes an object with neither
    [$] nor [type] through unchanged, also when it carries [lang].  The
    label conversion turns every object into one with [@value] (the [$]
    value, or the empty string), with [@language] when [lang] is present,
    and with nothing else: [type] is not carried over.  A list is converted
    element by element. *)
Theorem value_object_wrapping :
  (forall v, is_scalar v = true ->
     _convert_value v = JArr [JObj [("@value", JStr (py_str v))]]
     /\ _convert_label v = JArr [JObj [("@value", JStr (py_str v))]])
  /\ (forall f, dict_mem "$" f || dict_mem "type" f = true ->
        exists out, _convert_value (JObj f) = JArr [JObj out]
                    /\ translated f out)
  /\ (forall f, dict_mem "$" f || dict_mem "type" f = false ->
        _convert_value (JObj f) = JArr [JObj f])
  /\ (forall f, exists out,
        _convert_label (JObj f) = JArr [JObj out]
        /\ dict_get "@value" out = Some (get_default "$" (JStr "") f)
        /\ dict_get "@language" out = dict_get "lang" f
        /\ incl (dict_keys out) ["@value"; "@language"])
  /\ (forall xs,
        exists ys zs,
          _convert_value (JArr xs) = JArr ys
          /\ _convert_label (JArr xs) = JArr zs
          /\ Forall2 (fun x y =>
                        is_list x = false -> _convert_value x = JArr [y])
               xs ys
          /\ Forall2 (fun x z =>
                        is_list x = false -> _convert_label x = JArr [z])
               xs zs).
Proof.
  split; [|split; [|split; [|split]]].
  - intros v Hv. destruct (scalar_item v Hv) as [H1 H2].
    pose proof (scalar_not_list v Hv) as Hl.
    now rewrite convert_value_single, convert_label_single, H1, H2.
  - intros f Hf. destruct (translated_item f Hf) as (out & H1 & H2).
    exists out. split; [|exact H2].
    now rewrite convert_value_single, H1.
  - intros f Hf. rewrite convert_value_single by reflexivity.
    unfold convert_value_item. now rewrite Hf.
  - intros f. destruct (label_item f) as (out & H1 & H2).
    exists out. split; [|exact H2].
    now rewrite convert_label_single, H1.
  - intros xs. exists (map convert_value_item xs), (map convert_label_item xs).
    repeat split.
    + induction xs as [|x xs IH]; cbn; constructor; auto.
      intros Hx. now apply convert_value_single.
    + induction xs as [|x xs IH]; cbn; constructor; auto.
      intros Hx. now apply convert_label_single.
Qed.

Lemma value_object_wrapping_witness :
  _convert_value (JInt 5) = JArr [JObj [("@value", JStr "5")]]
  /\ _convert_label (JInt 5) = JArr [JObj [("@value", JStr "5")]].
Proof. apply (proj1 value_object_wrapping (JInt 5)). reflexivity. Defined.

(** C6, as worded, fails: an object that carries only [lang] is passed
    through as it is, so its [lang] key is not translated to
    [@language]. *)
Lemma lang_only_not_translated :
  _convert_value (JObj [("lang", JStr "en")])
  = JArr [JObj [("lang", JStr "en")]]
  /\ ~ carries_translated [("lang", JStr "en")] [("lang", JStr "en")].
Proof.
  split; [reflexivity|].
  intros H. specialize (H "lang" "@language" (JStr "en")).
  cbn in H. discriminate H; auto.
Qed.

(** *** One entity, one activity, one generation *)

Lemma colon_key_ne (key k : string) :
  contains ":" key = true -> contains ":" k = false -> k <> key.
Proof. intros H1 H2 ->. congruence. Qed.

(** Settle [dict_get k] across one round of an attribute loop, every
    branch of which assigns a key that holds a colon *)
Ltac attr_branches Hk :=
  repeat match goal with
         | |- context [if ?c then _ else _] => destruct c eqn:?
         end;
  try reflexivity;
  apply dict_get_set_other;
  first [ apply colon_key_ne; [reflexivity | exact Hk]
        | apply colon_key_ne; [|exact Hk];
          first [assumption | now apply startswith_prov_colon] ].

Lemma element_attr_get (k : string) (obj : dict) (kv : string * json) :
  contains ":" k = false ->
  dict_get k (element_attr obj kv) = dict_get k obj.
Proof.
  intros Hk. destruct kv as [key value]. unfold element_attr.
  attr_branches Hk.
Qed.

Lemma relation_attr_get (pm : list (string * string)) (k : string)
    (obj : dict) (kv : string * json) :
  contains ":" k = false ->
  dict_get k (relation_attr pm obj kv) = dict_get k obj.
Proof.
  intros Hk. destruct kv as [key value]. unfold relation_attr.
  attr_branches Hk.
Qed.

Lemma fold_attr_get (step : dict -> string * json -> dict) (k : string)
    (d : dict) (obj : dict) :
  (forall obj kv, dict_get k (step obj kv) = dict_get k obj) ->
  dict_get k (fold_left step d obj) = dict_get k obj.
Proof.
  intros H. revert obj. induction d as [|kv d IH]; intros obj; cbn;
    [reflexivity|]. now rewrite IH, H.
Qed.

Lemma element_type (item_id : string) (d : dict) (type_name : string) :
  exists obj,
    _convert_element item_id (JObj d) type_name = Some obj
    /\ dict_get "@type" obj = Some (JStr type_name)
    /\ dict_get "@id" obj = Some (JStr item_id).
Proof.
  unfold _convert_element. eexists. split; [reflexivity|].
  destruct (String.eqb type_name "prov:Activity");
    rewrite ?copy_key_get_other by discriminate;
    rewrite !fold_attr_get by (intros; now apply element_attr_get);
    split; reflexivity.
Qed.

Lemma generation_roles (item_id : string) (d : dict) :
  exists obj,
    _convert_relation item_id (JObj d) "prov:Generation" "wasGeneratedBy"
    = Some obj
    /\ dict_get "@type" obj = Some (JStr "prov:Generation")
    /\ dict_get "activity" obj = dict_get "prov:activity" d
    /\ dict_get "entity" obj = dict_get "prov:entity" d.
Proof.
  unfold _convert_relation. eexists. split; [reflexivity|].
  cbn [dict_get RELATION_PROPERTIES String.eqb Ascii.eqb Bool.eqb fold_left].
  rewrite !fold_attr_get by (intros; now apply relation_attr_get).
  repeat first [ rewrite copy_key_get_same
               | rewrite copy_key_get_other by discriminate ].
  destruct (_ && _); [|destruct (_ && _)]; cbn;
    destruct (dict_get "prov:activity" d), (dict_get "prov:entity" d);
    repeat split.
Qed.

(** C3.  A PROV-JSON document whose [entity], [activity] and
    [wasGeneratedBy] categories hold one entry each, with no other category
    and no bundle, converts to a document whose [@graph] holds exactly three
    objects, of types [prov:Entity], [prov:Activity] and [prov:Generation]
    in that order; the [activity] and [entity] fields of the third are the
    [prov:activity] and [prov:entity] values of the input record. *)
Theorem one_of_each_converts (doc : dict)
    (eid aid gid : string) (edata adata gdata ns : dict) :
  dict_get "entity" doc = Some (JObj [(eid, JObj edata)]) ->
  dict_get "activity" doc = Some (JObj [(aid, JObj adata)]) ->
  dict_get "wasGeneratedBy" doc = Some (JObj [(gid, JObj gdata)]) ->
  (forall c, In c OTHER_CATEGORIES -> dict_mem c doc = false) ->
  _extract_namespaces doc = Some ns ->
  exists e a g,
    convert (JObj doc)
    = Some (JObj [("@context", JArr (_build_context ns));
                  ("@graph", JArr [JObj e; JObj a; JObj g])])
    /\ dict_get "@type" e = Some (JStr "prov:Entity")
    /\ dict_get "@type" a = Some (JStr "prov:Activity")
    /\ dict_get "@type" g = Some (JStr "prov:Generation")
    /\ dict_get "activity" g = dict_get "prov:activity" gdata
    /\ dict_get "entity" g = dict_get "prov:entity" gdata.
Proof.
  intros He Ha Hg Hother Hns.
  destruct (element_type eid edata "prov:Entity") as (e & Ee & Te & _).
  destruct (element_type aid adata "prov:Activity") as (a & Ea & Ta & _).
  destruct (generation_roles gid gdata) as (g & Eg & Tg & Ag & Ng).
  exists e, a, g. split; [|now repeat split].
  unfold convert, convert_categories, TYPE_MAPPINGS. rewrite Hns.
  cbn [bind foldM].
  repeat match goal with
         | |- context [dict_get ?c doc] =>
             first [ rewrite He | rewrite Ha | rewrite Hg
                   | rewrite (dict_mem_get c doc
                                (Hother c ltac:(cbn; tauto))) ]
         end.
  cbn [bind mapM].
  unfold _convert_category, _convert_item. cbn [mapM].
  change (dict_mem "entity" RELATION_PROPERTIES) with false.
  change (dict_mem "activity" RELATION_PROPERTIES) with false.
  change (dict_mem "wasGeneratedBy" RELATION_PROPERTIES) with true.
  cbn iota. rewrite Ee, Ea, Eg. reflexivity.
Qed.

Lemma one_of_each_converts_witness :
  exists e a g,
    convert (JObj one_of_each)
    = Some (JObj [("@context", JArr (_build_context example_namespaces));
                  ("@graph", JArr [JObj e; JObj a; JObj g])])
    /\ dict_get "@type" e = Some (JStr "prov:Entity")
    /\ dict_get "@type" a = Some (JStr "prov:Activity")
    /\ dict_get "@type" g = Some (JStr "prov:Generation")
    /\ dict_get "activity" g = Some (JStr "ex:a1")
    /\ dict_get "entity" g = Some (JStr "ex:e1").
Proof.
  apply (one_of_each_converts one_of_each "ex:e1" "ex:a1" "_:g1"
           entity_data activity_data generation_data example_namespaces);
    try reflexivity.
  intros c Hc. cbn in Hc.
  repeat (destruct Hc as [<-|Hc]; [reflexivity|]). contradiction.
Defined.

End Prov2ldProps.

(** ** The visual graph builder and the DOT emitter *)

Module Ld2vizProps.
Import PyStr PyStrFacts CharFacts PyDictFacts Spec Samples Ld2viz.

(** *** Runs of the model on small inputs *)

Example safe_id_of_qualified_name :
  _make_safe_id "ex:e-1.x#y/z" = "ex_e_1_x_y_z".
Proof. reflexivity. Qed.

Example safe_id_without_alphanumeric :
  _make_safe_id "::" = dq ++ "::" ++ dq.
Proof. reflexivity. Qed.

Example safe_id_of_accented_name :
  len "café" = 4%nat /\ _make_safe_id "café" = "café".
Proof. split; reflexivity. Qed.

Example derivation_statement :
  option_map snd (convert fresh (doc_of (JArr []) [JObj derivation_item]))
  = Some (set_edges fresh
            [styled_edge (mk_style "wasDerivedFrom" "solid" "back")
               (JStr "e1") (JStr "e2") (Some "wasDerivedFrom")])
  /\ edge_line (styled_edge (mk_style "wasDerivedFrom" "solid" "back")
                  (JStr "e1") (JStr "e2") (Some "wasDerivedFrom"))
     = Some ("  e1 -> e2 [label=" ++ dq ++ "wasDerivedFrom" ++ dq
             ++ ", style=solid, dir=back, arrowhead=normal];").
Proof. split; reflexivity. Qed.

Example anonymous_statement :
  option_map node_lines (process_item fresh (JObj anonymous_item))
  = Some ["  anon_0 [label=" ++ dq ++ "anonymous" ++ dq
          ++ ", shape=" ++ dq ++ "box" ++ dq
          ++ ", fillcolor=" ++ dq ++ "#9FB1FC" ++ dq
          ++ ", style=" ++ dq ++ "filled" ++ dq
          ++ ", type=" ++ dq ++ "prov:Activity" ++ dq ++ "];"].
Proof. reflexivity. Qed.

(** *** Identifiers in DOT *)

(** The test [safe_id.replace('_', '').isalnum()] on the characters of the
    sanitized text *)
Lemma make_safe_id_cases (node_id : string) :
  well_formed node_id = true ->
  _make_safe_id node_id
  = if word_text (sanitize node_id) && has_alnum (sanitize node_id)
    then sanitize node_id
    else dq ++ node_id ++ dq.
Proof.
  intros Hwf. unfold _make_safe_id. rewrite replace_chain.
  destruct (characters_sanitize node_id Hwf) as [_ Hwf'].
  rewrite (isalnum_remove _ Hwf'). now destruct (_ && _).
Qed.

Lemma make_safe_id_word (node_id : string) :
  word_text node_id = true -> has_alnum node_id = true ->
  _make_safe_id node_id = node_id.
Proof.
  intros Hw Ha.
  rewrite (make_safe_id_cases _ (word_text_well_formed _ Hw)).
  now rewrite (sanitize_word_text _ Hw), Hw, Ha.
Qed.

(** C8, as amended.  The identifier is sanitized by replacing each of
    [: / - . #] with an underscore.  When the result is made of
    alphanumerics and underscores only and holds an alphanumeric, the
    sanitized text is emitted; otherwise the original identifier is emitted
    between double quotes: when the result holds another character, and
    when it holds no alphanumeric.  Alphanumerics are the characters
    [str.isalnum] accepts; the identifier is the encoding of a string. *)
Theorem make_safe_id_spec (node_id : string) :
  well_formed node_id = true ->
  (word_text (sanitize node_id) = false ->
   _make_safe_id node_id = dq ++ node_id ++ dq)
  /\ (word_text (sanitize node_id) = true ->
      has_alnum (sanitize node_id) = true ->
      _make_safe_id node_id = sanitize node_id)
  /\ (has_alnum (sanitize node_id) = false ->
      _make_safe_id node_id = dq ++ node_id ++ dq).
Proof.
  intros Hwf. rewrite (make_safe_id_cases _ Hwf).
  split; [|split].
  - now intros ->.
  - now intros -> ->.
  - intros ->. now rewrite andb_false_r.
Qed.

Lemma make_safe_id_witness :
  _make_safe_id "a b" = dq ++ "a b" ++ dq
  /\ _make_safe_id "ex:e1" = "ex_e1".
Proof.
  split.
  - apply (proj1 (make_safe_id_spec "a b" eq_refl)). reflexivity.
  - apply (proj1 (proj2 (make_safe_id_spec "ex:e1" eq_refl))); reflexivity.
Defined.

(** C8, as worded, fails: [::] is sanitized to [__], which is made of
    underscores only, and yet it is the original identifier that is
    emitted, between double quotes. *)
Lemma safe_id_underscores_quoted :
  sanitize "::" = "__"
  /\ word_text (sanitize "::") = true
  /\ spec_safe_id "::" = "__"
  /\ _make_safe_id "::" = dq ++ "::" ++ dq
  /\ _make_safe_id "::" <> spec_safe_id "::".
Proof. repeat split. discriminate. Qed.

(** *** Namespace compaction *)

Lemma first_namespace_shape (uri : string) (ns : dict) (short : string) :
  first_namespace uri ns = Some short ->
  exists p v r, In (p, v) ns /\ short = p ++ ":" ++ r.
Proof.
  induction ns as [|[p v] ns IH]; cbn [first_namespace]; [discriminate|].
  assert (Hrec : first_namespace uri ns = Some short ->
                 exists p0 v0 r, In (p0, v0) ((p, v) :: ns)
                                 /\ short = p0 ++ ":" ++ r).
  { intros H. destruct (IH H) as (p' & v' & r & Hin & ->).
    exists p', v', r. split; [now right | reflexivity]. }
  destruct v as [| | | |nsuri| |]; try exact Hrec.
  destruct (startswith uri nsuri); [|exact Hrec].
  intros [= <-]. exists p, (JStr nsuri), (drop (String.length nsuri) uri).
  split; [now left | reflexivity].
Qed.

Lemma shorten_passthrough (ns : dict) (s : string) :
  startswith s "http://" = false -> startswith s "https://" = false ->
  _shorten_uri ns s = s.
Proof.
  intros H1 H2. unfold _shorten_uri. rewrite H1, H2. cbn.
  now destruct (_ || _).
Qed.

(** C4, as amended.  Compaction is idempotent for every namespace map none
    of whose prefixes is [http] or [https] or starts with [http://] or
    [https://]; and, for every namespace map, a string that starts with
    neither [http://] nor [https://] passes through unchanged. *)
Theorem shorten_uri_idempotent (ns : dict) (s : string) :
  (forall p v, In (p, v) ns -> scheme_like p = false) ->
  _shorten_uri ns (_shorten_uri ns s) = _shorten_uri ns s
  /\ (forall ns' s',
        startswith s' "http://" = false -> startswith s' "https://" = false ->
        _shorten_uri ns' s' = s').
Proof.
  intros Hns. split; [|intros; now apply shorten_passthrough].
  unfold _shorten_uri at 2 3.
  destruct (_ || _) eqn:E1.
  { unfold _shorten_uri. now rewrite E1. }
  destruct (_ && _) eqn:E2.
  { unfold _shorten_uri. now rewrite E1, E2. }
  destruct (first_namespace s ns) as [short|] eqn:E3.
  - destruct (first_namespace_shape _ _ _ E3) as (p & v & r & Hin & ->).
    destruct (compact_no_scheme p r (Hns _ _ Hin)) as [H1 H2].
    now apply shorten_passthrough.
  - unfold _shorten_uri. now rewrite E1, E2, E3.
Qed.

Lemma shorten_uri_idempotent_witness :
  _shorten_uri example_namespaces "http://example.org/e1" = "ex:e1"
  /\ _shorten_uri example_namespaces
       (_shorten_uri example_namespaces "http://example.org/e1")
     = _shorten_uri example_namespaces "http://example.org/e1".
Proof.
  split; [reflexivity|].
  refine (proj1 (shorten_uri_idempotent example_namespaces
                   "http://example.org/e1" _)).
  intros p v [E|[]]. injection E as <- _. reflexivity.
Defined.

(** C4, as worded, fails: with the prefix [http] bound to [http://x/], the
    IRI [http://x///x/q] compacts to [http://x/q], which compacts again to
    [http:q]. *)
Lemma shorten_uri_not_idempotent :
  _shorten_uri scheme_namespaces "http://x///x/q" = "http://x/q"
  /\ _shorten_uri scheme_namespaces
       (_shorten_uri scheme_namespaces "http://x///x/q") = "http:q"
  /\ _shorten_uri scheme_namespaces
       (_shorten_uri scheme_namespaces "http://x///x/q")
     <> _shorten_uri scheme_namespaces "http://x///x/q".
Proof. repeat split. discriminate. Qed.

(** *** Node labels *)

Lemma prov_label_yielded (item : dict) :
  prov_label_value item = yielded false (dict_get "prov:label" item).
Proof.
  unfold prov_label_value, yielded, first_of_list.
  destruct (dict_get "prov:label" item) as [v|]; [|reflexivity].
  destruct v as [| | | | |[|x xs]|]; reflexivity.
Qed.

Lemma label_prop_yielded (item : dict) (label_prop : string) :
  label_prop_value item label_prop = yielded true (dict_get label_prop item).
Proof.
  unfold label_prop_value, yielded, first_of_list.
  destruct (dict_get label_prop item) as [v|]; [|reflexivity].
  destruct v as [| | | | |[|x xs]|]; reflexivity.
Qed.

Lemma first_label_yielded (item : dict) (props : list string) :
  first_label item props
  = first_some (map (fun p => yielded true (dict_get p item)) props).
Proof.
  induction props as [|p ps IH]; cbn [first_label map first_some];
    [reflexivity|].
  rewrite label_prop_yielded.
  destruct (yielded true (dict_get p item)); [reflexivity | exact IH].
Qed.

(** C7.  For a node item whose [@id] is absent or a string, the label is
    what the first of [prov:label], [rdfs:label], [foaf:name],
    [dcterms:title], [name], [title] that yields a value yields; when none
    does, it is the [@id] with its namespace prefix stripped, and
    ["anonymous"] when the [@id] is absent or empty.  A property yields a
    value when it is a non-empty list whose first element is an object
    with [@value] (the value yielded) or, for the properties after
    [prov:label], a string. *)
Theorem get_label_priority (item : dict) (id : string) :
  get_default "@id" (JStr "") item = JStr id ->
  _get_label item
  = Some match first_some (label_candidates item) with
         | Some v => v
         | None =>
             if String.eqb id "" then JStr "anonymous"
             else JStr (strip_prefix id)
         end.
Proof.
  intros Hid.
  assert (E : first_some (label_candidates item)
              = match yielded false (dict_get "prov:label" item) with
                | Some v => Some v
                | None =>
                    first_some
                      (map (fun p => yielded true (dict_get p item))
                         LABEL_PROPS)
                end) by reflexivity.
  rewrite E. clear E. unfold _get_label.
  rewrite Hid, first_label_yielded, prov_label_yielded.
  destruct (yielded false (dict_get "prov:label" item)) as [v|];
    [reflexivity|].
  destruct (first_some _) as [v|]; [reflexivity|].
  unfold id_label, strip_prefix. cbn [truthy].
  destruct (String.eqb id ""); cbn [negb]; [reflexivity|].
  destruct (contains ":" id) eqn:C; [|reflexivity].
  now rewrite (split1_after _ _ C).
Qed.

Lemma get_label_priority_witness :
  _get_label labelled_item = Some (JStr "by label")
  /\ _get_label titled_item = Some (JStr "by name")
  /\ _get_label named_item = Some (JStr "plain name")
  /\ _get_label identified_item = Some (JStr "e2")
  /\ _get_label anonymous_item = Some (JStr "anonymous").
Proof.
  split; [|split; [|split; [|split]]].
  - apply (get_label_priority labelled_item "ex:e1"). reflexivity.
  - apply (get_label_priority titled_item "ex:e1"). reflexivity.
  - apply (get_label_priority named_item "ex:ag1"). reflexivity.
  - apply (get_label_priority identified_item "ex:e2"). reflexivity.
  - apply (get_label_priority anonymous_item ""). reflexivity.
Defined.

(** *** Relations and their edges *)

(** Case analysis on a lookup in one of the constant tables *)
Ltac table_cases H :=
  unfold ENDPOINT_ROLES, EDGE_STYLES, NODE_SHAPES in H; cbn [dict_get] in H;
  repeat match type of H with
         | (if String.eqb ?k ?t then _ else _) = _ =>
             destruct (String.eqb_spec k t) as [<-|_];
             [ injection H as <-; try subst | ]
         end;
  try discriminate.

Lemma endpoints_by_role (item : dict) (t a b : string) :
  dict_get t ENDPOINT_ROLES = Some (a, b) ->
  _get_edge_endpoints item t = (get a item, get b item).
Proof. intros H. table_cases H; reflexivity. Qed.

(** The types with endpoint roles are the types with an edge style. *)
Lemma roles_iff_style (t : string) :
  dict_mem t ENDPOINT_ROLES = dict_mem t EDGE_STYLES.
Proof.
  unfold ENDPOINT_ROLES, EDGE_STYLES; cbn [dict_mem].
  repeat match goal with
         | |- context [String.eqb ?k t] =>
             destruct (String.eqb_spec k t) as [<-|_];
             cbn [orb]; try reflexivity
         end.
Qed.

(** [convert] hands an item of a recognized relation type to
    [_process_simple_relation], and the default label is computed without
    an exception. *)
Lemma relation_dispatch (self : converter) (item : dict) (t : string)
    (es : edge_style) :
  dict_get "@type" item = Some (JStr t) ->
  dict_get t EDGE_STYLES = Some es ->
  process_item self (JObj item) = _process_simple_relation self item
  /\ exists d, nth_error (split ":" t) 1 = Some d.
Proof.
  intros Ht Hs. unfold process_item. rewrite (get_present _ _ _ Ht).
  table_cases Hs; (split; [reflexivity | cbn; eauto]).
Qed.

(** The time annotation never raises, and is the text between the first
    [T] and the next [T] or dot. *)
Lemma time_info_spec (item : dict) : time_info item = Some (time_suffix item).
Proof.
  unfold time_info, time_suffix, selected_time, get_default, get.
  rewrite !dict_get_mem.
  destruct (dict_get "time" item) as [v|]; cbn [orb].
  2: destruct (dict_get "prov:time" item) as [v|]; [|reflexivity].
  all: destruct v as [| | | |t| |]; try reflexivity.
  all: destruct (contains "T" t) eqn:E; [|reflexivity].
  all: destruct (split_rest _ _ E) as [p ->].
  all: destruct (split_first "T" (after_first "T" t)) as [ps ->].
  all: cbn [nth_error bind].
  all: destruct (split_first "." (before_any (fun a => Ascii.eqb a "T")
                                    (after_first "T" t))) as [qs ->].
  all: cbn [nth_error bind]; now rewrite before_any_twice.
Qed.

Lemma role_info_spec (item : dict) : role_info item = role_suffix item.
Proof.
  unfold role_info, role_suffix, first_of_list.
  destruct (dict_get "prov:role" item) as [v|]; [|reflexivity].
  destruct v as [| | | | |[|x xs]|]; reflexivity.
Qed.

(** The edge appended for an item of a recognized relation type with both
    endpoints *)
Lemma relation_edge (self : converter) (item : dict) (t : string)
    (es : edge_style) (source target : json) :
  dict_get "@type" item = Some (JStr t) ->
  dict_get t EDGE_STYLES = Some es ->
  _get_edge_endpoints item t = (source, target) ->
  truthy source = true -> truthy target = true ->
  show_relation_labels self = true ->
  process_item self (JObj item)
  = Some (set_edges self
            (edges self
             ++ [styled_edge es source target
                   (Some (annotate (es_label es)
                            (role_suffix item ++ time_suffix item)))])%list).
Proof.
  intros Ht Hs He Hsrc Htgt Hl.
  destruct (relation_dispatch self item t es Ht Hs) as [-> [d Hd]].
  unfold _process_simple_relation.
  rewrite (get_present _ _ _ Ht), Hs, He, Hsrc, Htgt, Hl. cbn [negb orb].
  unfold edge_label. rewrite Hd, time_info_spec, role_info_spec. cbn [bind].
  unfold styled_edge, annotate.
  destruct es as [l s d' c [a|]];
    destruct (role_suffix item ++ time_suffix item)%list; reflexivity.
Qed.

Lemma startswith_annotate (label : string) (extra : list string) :
  startswith (annotate label extra) label = true.
Proof.
  unfold annotate. destruct extra.
  - rewrite <- (append_nil_r label) at 1. apply startswith_refl_app.
  - apply startswith_refl_app.
Qed.

Lemma truthy_str (s : string) : s <> "" -> truthy (JStr s) = true.
Proof. intros H. cbn. now destruct (String.eqb_spec s ""). Qed.

(** C1.  A graph item of type [prov:Derivation] that carries [usedEntity]
    [e1] and [generatedEntity] [e2] (non-empty strings) makes the builder
    append exactly one edge, with source [e1], target [e2] and a label that
    begins with [wasDerivedFrom]; labels are enabled, as the constructor
    leaves them. *)
Theorem derivation_edge (self : converter) (item : dict) (e1 e2 : string) :
  dict_get "@type" item = Some (JStr "prov:Derivation") ->
  dict_get "usedEntity" item = Some (JStr e1) ->
  dict_get "generatedEntity" item = Some (JStr e2) ->
  e1 <> "" -> e2 <> "" ->
  show_relation_labels self = true ->
  exists e label,
    process_item self (JObj item)
    = Some (set_edges self (edges self ++ [e])%list)
    /\ e_source e = JStr e1 /\ e_target e = JStr e2
    /\ e_label e = Some label
    /\ startswith label "wasDerivedFrom" = true.
Proof.
  intros Ht Hu Hg H1 H2 Hl.
  eexists. eexists. split.
  - apply (relation_edge self item "prov:Derivation"
             (mk_style "wasDerivedFrom" "solid" "back") (JStr e1) (JStr e2));
      auto using truthy_str.
    cbn. now rewrite (get_present _ _ _ Hu), (get_present _ _ _ Hg).
  - cbn [styled_edge e_source e_target e_label].
    repeat split. apply (startswith_annotate "wasDerivedFrom").
Qed.

Lemma derivation_edge_witness :
  exists e label,
    process_item fresh (JObj derivation_item)
    = Some (set_edges fresh [e])
    /\ e_source e = JStr "e1" /\ e_target e = JStr "e2"
    /\ e_label e = Some label
    /\ startswith label "wasDerivedFrom" = true.
Proof.
  apply (derivation_edge fresh derivation_item "e1" "e2");
    try reflexivity; discriminate.
Defined.

Lemma missing_endpoint_step (self : converter) (item : dict)
    (t a b : string) :
  dict_get "@type" item = Some (JStr t) ->
  dict_get t ENDPOINT_ROLES = Some (a, b) ->
  dict_mem a item = false \/ dict_mem b item = false ->
  process_item self (JObj item) = Some self.
Proof.
  intros Ht Hr Habs.
  assert (Hs : exists es, dict_get t EDGE_STYLES = Some es).
  { pose proof (roles_iff_style t) as E. rewrite !dict_get_mem, Hr in E.
    destruct (dict_get t EDGE_STYLES); [eauto | discriminate]. }
  destruct Hs as [es Hs].
  destruct (relation_dispatch self item t es Ht Hs) as [-> _].
  unfold _process_simple_relation.
  rewrite (get_present _ _ _ Ht), (endpoints_by_role item t a b Hr).
  destruct Habs as [H|H]; rewrite (get_absent _ _ H); cbn [truthy negb orb].
  - reflexivity.
  - now rewrite orb_true_r.
Qed.

(** C2.  For an item of a recognized relation type with one of its two
    endpoint role properties absent, the step of the builder returns the
    state unchanged, without an exception: no edge is appended, and the
    result of [convert] on a document is what it is on the document
    without the item. *)
Theorem missing_endpoint_no_edge (item : dict) (t a b : string) :
  dict_get "@type" item = Some (JStr t) ->
  dict_get t ENDPOINT_ROLES = Some (a, b) ->
  dict_mem a item = false \/ dict_mem b item = false ->
  (forall self, process_item self (JObj item) = Some self)
  /\ (forall self context before after,
        convert self (doc_of context (before ++ JObj item :: after))
        = convert self (doc_of context (before ++ after))).
Proof.
  intros Ht Hr Habs.
  assert (Hstep : forall self, process_item self (JObj item) = Some self)
    by (intros; eapply missing_endpoint_step; eauto).
  split; [exact Hstep|].
  intros self context before after.
  unfold convert, build, doc_of, get_default. cbn [dict_get String.eqb].
  cbn.
  destruct (_extract_namespaces self context) as [self1|]; [|reflexivity].
  cbn [bind]. rewrite !foldM_app.
  destruct (foldM process_item before self1) as [self2|]; [|reflexivity].
  cbn [bind foldM]. now rewrite Hstep.
Qed.

Lemma missing_endpoint_no_edge_witness :
  (forall self, process_item self (JObj usage_without_entity) = Some self)
  /\ (forall self context before after,
        convert self (doc_of context
                        (before ++ JObj usage_without_entity :: after))
        = convert self (doc_of context (before ++ after))).
Proof.
  apply (missing_endpoint_no_edge usage_without_entity
           "prov:Usage" "activity" "entity");
    [reflexivity | reflexivity | right; reflexivity].
Defined.

(** C5, as amended.  For an item of a recognized relation type with both
    endpoints present (truthy) and labels enabled, the edge label is the
    human label of the type, followed, when there is an annotation, by the
    DOT line break and one parenthesised block of the annotations joined
    by a comma and a space, the role before the time.  The role annotation
    is [role:<value>] when [prov:role] is a non-empty list whose first
    element is an object with [@value].  The time annotation is [@<text>]
    when the time value, [time] if that key is present and [prov:time]
    otherwise, is a string that holds a [T]; [<text>] runs from after the
    first [T] to the next [T] or dot. *)
Theorem edge_label_annotations (self : converter) (item : dict)
    (t a b : string) (es : edge_style) :
  dict_get "@type" item = Some (JStr t) ->
  dict_get t EDGE_STYLES = Some es ->
  dict_get t ENDPOINT_ROLES = Some (a, b) ->
  truthy (get a item) = true -> truthy (get b item) = true ->
  show_relation_labels self = true ->
  exists e,
    process_item self (JObj item)
    = Some (set_edges self (edges self ++ [e])%list)
    /\ e_label e
       = Some (annotate (es_label es) (role_suffix item ++ time_suffix item)).
Proof.
  intros Ht Hs Hr Ha Hb Hl.
  eexists. split.
  - apply (relation_edge self item t es (get a item) (get b item));
      auto using endpoints_by_role.
  - reflexivity.
Qed.

Lemma edge_label_annotations_witness :
  exists e,
    process_item fresh (JObj association_item) = Some (set_edges fresh [e])
    /\ e_label e = Some "wasAssociatedWith\n(role:operator, @10:00:00)".
Proof.
  destruct (edge_label_annotations fresh association_item
              "prov:Association" "activity" "agent"
              {| es_label := "wasAssociatedWith"; es_style := "solid";
                 es_dir := "forward"; es_color := Some "#fed37f";
                 es_arrowhead := None |})
    as [e [H1 H2]]; try reflexivity.
  exists e. split; [exact H1 | exact H2].
Defined.

(** C5, as worded, fails: with a role and a time the label is the human
    label, a line break and [(role:r, @10:00:00)], not the human label and
    the two suffixes joined by line breaks. *)
Lemma edge_label_not_newline_joined :
  option_map (fun self => map e_label (edges self))
    (process_item fresh (JObj generation_item))
  = Some [Some "wasGeneratedBy\n(role:r, @10:00:00)"]
  /\ spec_edge_label "wasGeneratedBy" ["role:r"; "@10:00:00"]
     = "wasGeneratedBy\nrole:r\n@10:00:00"
  /\ "wasGeneratedBy\n(role:r, @10:00:00)"
     <> spec_edge_label "wasGeneratedBy" ["role:r"; "@10:00:00"].
Proof. repeat split. discriminate. Qed.

(** *** The node table *)


(** Close a branch of [process_item] that returns the state as it is *)
Ltac unchanged :=
  intros [= <-]; split; [split; reflexivity | now left].

(** A step of the loop keeps the settings, and leaves the node table alone
    or assigns one key. *)
Lemma process_item_nodes (self self' : converter) (item : json) :
  process_item self item = Some self' ->
  same_config self self'
  /\ (nodes self' = nodes self
      \/ exists id d, nodes self' = dict_set id d (nodes self)).
Proof.
  unfold process_item, _process_relation, _process_simple_relation,
    _process_node.
  destruct item as [| | | | | |fields]; try discriminate.
  destruct (get "@type" fields) as [|[|]|z|t|ty| |] eqn:Ety;
    cbn [truthy]; try discriminate; try unchanged.
  - destruct (negb (Z.eqb z 0)); [discriminate | unchanged].
  - destruct (negb _); [discriminate | unchanged].
  - destruct (dict_mem ty NODE_SHAPES).
    + destruct (node_id self fields); try discriminate.
      destruct (node_descriptor self fields ty) as [d|]; [|discriminate].
      cbn [bind]. intros [= <-]. split; [split; reflexivity|].
      right. cbn [nodes set_nodes]. eauto.
    + destruct (_ && _); [|unchanged].
      destruct (_get_edge_endpoints fields ty) as [source target].
      destruct (_ || _); [unchanged|].
      destruct (show_relation_labels self).
      * destruct (edge_label fields ty (dict_get ty EDGE_STYLES));
          [|discriminate].
        cbn [bind]. unchanged.
      * cbn [bind]. unchanged.
Qed.

Lemma process_item_keys (self self' : converter) (item : json) :
  process_item self item = Some self' ->
  incl (dict_keys (nodes self)) (dict_keys (nodes self'))
  /\ (NoDup (dict_keys (nodes self)) -> NoDup (dict_keys (nodes self'))).
Proof.
  intros H. destruct (process_item_nodes _ _ _ H) as [_ [->|(id & d & ->)]].
  - split; [apply incl_refl | trivial].
  - split; [apply dict_set_keys_incl | apply dict_set_NoDup].
Qed.

(** Over the whole loop: the settings stay, identifiers are never removed,
    and the identifiers stay distinct. *)
Lemma foldM_keys (graph : list json) (self self' : converter) :
  foldM process_item graph self = Some self' ->
  same_config self self'
  /\ incl (dict_keys (nodes self)) (dict_keys (nodes self'))
  /\ (NoDup (dict_keys (nodes self)) -> NoDup (dict_keys (nodes self'))).
Proof.
  revert self. induction graph as [|item graph IH]; intros self; cbn.
  - intros [= <-]. repeat split; auto using incl_refl.
  - destruct (process_item self item) as [s1|] eqn:E; [|discriminate].
    cbn [bind]. intros H. destruct (IH _ H) as ([C1 C2] & I & N).
    destruct (process_item_keys _ _ _ E) as [I1 N1].
    destruct (process_item_nodes _ _ _ E) as [[D1 D2] _].
    repeat split; try congruence.
    + eapply incl_tran; eauto.
    + auto.
Qed.



Lemma node_line_statement (id : string) (d : node_props) :
  node_line (id, d) = node_statement id d.
Proof.
  unfold node_line, node_statement, quoted_prop, join. cbn [String.concat].
  rewrite !append_assoc. reflexivity.
Qed.

Lemma node_lines_statements (self : converter) :
  node_lines self = node_statements (nodes self).
Proof.
  unfold node_lines, node_statements. apply map_ext.
  intros [id d]. apply node_line_statement.
Qed.







(** Without an [@id] the label lookup never raises. *)
Lemma get_label_no_id (item : dict) :
  dict_mem "@id" item = false -> exists l, _get_label item = Some l.
Proof.
  intros H. unfold _get_label, get_default.
  rewrite dict_get_mem in H.
  destruct (dict_get "@id" item); [discriminate|].
  destruct (prov_label_value item); [eauto|].
  destruct (first_label item LABEL_PROPS); [eauto|].
  cbn. eauto.
Qed.

(** C9, as amended.  A node item without an [@id] key is registered under
    ["anon_"] followed by the number of entries of the node table.  When
    that identifier is not in the table yet, the table gains one entry, the
    DOT text gains one node statement, and the next item without an [@id]
    gets a different identifier. *)
Theorem anonymous_node_id (self : converter) (item : dict) (ty : string) :
  dict_get "@type" item = Some (JStr ty) ->
  dict_mem ty NODE_SHAPES = true ->
  dict_mem "@id" item = false ->
  let id := "anon_" ++ of_nat (List.length (nodes self)) in
  exists d,
    process_item self (JObj item)
    = Some (set_nodes self (dict_set id d (nodes self)))
    /\ (dict_mem id (nodes self) = false ->
        dict_set id d (nodes self) = (nodes self ++ [(id, d)])%list
        /\ node_lines (set_nodes self (dict_set id d (nodes self)))
           = (node_lines self ++ [node_line (id, d)])%list
        /\ "anon_" ++ of_nat (List.length (dict_set id d (nodes self))) <> id).
Proof.
  intros Ht Hn Hid id.
  destruct (get_label_no_id item Hid) as [l Hl].
  assert (Hd : exists d, node_descriptor self item ty = Some d).
  { unfold node_descriptor. rewrite Hl. cbn [bind]. eauto. }
  destruct Hd as [d Hd]. exists d. split.
  - unfold process_item, _process_node, node_id, get, get_default.
    rewrite dict_get_mem in Hid.
    rewrite Ht, Hn. destruct (dict_get "@id" item); [discriminate|].
    now rewrite Hd.
  - intros Hfresh. rewrite (dict_set_absent _ _ _ Hfresh).
    split; [reflexivity|]. split.
    + unfold node_lines. cbn [nodes set_nodes]. now rewrite map_app.
    + rewrite length_app. cbn [List.length]. intros E.
      apply append_inv_head, of_nat_inj in E. lia.
Qed.

Lemma anonymous_node_id_witness :
  exists d,
    process_item fresh (JObj anonymous_item)
    = Some (set_nodes fresh [("anon_0", d)]).
Proof.
  destruct (anonymous_node_id fresh anonymous_item "prov:Activity")
    as (d & H & _); try reflexivity.
  exists d. exact H.
Defined.

(** C9, as worded, fails: after an item with the explicit identifier
    [anon_1], two consecutive items without an [@id] are both registered
    under [anon_1]; the three node items leave one entry in the table and
    one node statement in the DOT text. *)
Lemma anonymous_ids_collide :
  option_map (fun self => node_id self [("@type", JStr "prov:Entity")])
    (foldM process_item (firstn 1 collide_graph) fresh)
  = Some (JStr "anon_1")
  /\ option_map (fun self => node_id self [("@type", JStr "prov:Activity")])
       (foldM process_item (firstn 2 collide_graph) fresh)
     = Some (JStr "anon_1")
  /\ option_map (fun self =>
                   (dict_keys (nodes self), List.length (node_lines self)))
       (foldM process_item collide_graph fresh)
     = Some (["anon_1"], 1%nat).
Proof. repeat split. Qed.

End Ld2vizProps.

(** * Further properties of the two converters *)

(** ** Strings, dictionaries and loops *)

Module MoreFacts.
Import PyStr PyStrFacts PyDictFacts.

(** A string that starts with [p] is [p] followed by the rest. *)
Lemma startswith_drop (s p : string) :
  startswith s p = true -> s = p ++ drop (String.length p) s.
Proof.
  revert s. induction p as [|b p IH]; intros [|a s]; cbn;
    try reflexivity; try discriminate.
  destruct (Ascii.eqb_spec a b) as [->|]; cbn; [|discriminate].
  intros H. f_equal. now apply IH.
Qed.

Lemma scheme_has_colon (uri : string) :
  startswith uri "http://" = true \/ startswith uri "https://" = true ->
  (String.eqb uri "" || negb (contains ":" uri)) = false.
Proof.
  intros [H|H]; apply startswith_drop in H; rewrite H; reflexivity.
Qed.

Section UpdateFacts.
Context {A : Type}.
Implicit Types (d e : list (string * A)) (k : string).

Lemma dict_absent_get k d : ~ In k (dict_keys d) -> dict_get k d = None.
Proof.
  intros H. apply dict_mem_get. destruct (dict_mem k d) eqn:M; [|reflexivity].
  apply dict_mem_In in M. contradiction.
Qed.

(** [d.update(e)]: the bindings of [e] win, the others stay. *)
Lemma dict_update_get k d e :
  NoDup (dict_keys e) ->
  dict_get k (dict_update d e)
  = match dict_get k e with
    | Some v => Some v
    | None => dict_get k d
    end.
Proof.
  unfold dict_update. revert d.
  induction e as [|[k0 v0] e IH]; intros d Hnd; cbn; [reflexivity|].
  inversion Hnd as [|? ? Hnotin Hnd']; subst.
  rewrite (IH _ Hnd').
  destruct (String.eqb_spec k0 k) as [->|Hne].
  - rewrite (dict_absent_get _ _ Hnotin). apply dict_get_set_same.
  - destruct (dict_get k e); [reflexivity|].
    apply dict_get_set_other. congruence.
Qed.

Lemma dict_update_NoDup d e :
  NoDup (dict_keys d) -> NoDup (dict_keys (dict_update d e)).
Proof.
  unfold dict_update. revert d.
  induction e as [|[k0 v0] e IH]; intros d Hnd; cbn; [exact Hnd|].
  apply IH. now apply dict_set_NoDup.
Qed.

End UpdateFacts.

Lemma mapM_length {A B : Type} (f : A -> option B) (xs : list A)
    (ys : list B) :
  mapM f xs = Some ys -> List.length ys = List.length xs.
Proof.
  revert ys. induction xs as [|x xs IH]; intros ys; cbn.
  - now intros [= <-].
  - destruct (f x); [|discriminate]. cbn [bind].
    destruct (mapM f xs) as [zs|]; [|discriminate]. cbn [bind].
    intros [= <-]. cbn. now rewrite (IH zs).
Qed.

Lemma mapM_Forall2 {A B : Type} (f : A -> option B) (xs : list A) :
  Forall (fun x => exists y, f x = Some y) xs ->
  exists ys, mapM f xs = Some ys /\ Forall2 (fun x y => f x = Some y) xs ys.
Proof.
  induction 1 as [|x xs [y Hy] _ (ys & E & F)]; cbn.
  - exists []. split; [reflexivity | constructor].
  - rewrite Hy, E. cbn. exists (y :: ys). split; [reflexivity|].
    now constructor.
Qed.

Lemma flat_map_length_le {A B : Type} (f : A -> list B) (l : list A)
    (n : nat) :
  (forall a, List.length (f a) <= n)%nat ->
  (List.length (flat_map f l) <= List.length l * n)%nat.
Proof.
  intros H. induction l as [|a l IH]; cbn; [lia|].
  rewrite length_app. specialize (H a). lia.
Qed.

End MoreFacts.

(** ** More on the visual graph builder *)

Module Ld2vizMore.
Import PyStr PyStrFacts CharFacts PyDictFacts MoreFacts.
Import Spec Behaviour Samples MoreSamples Ld2viz Ld2vizProps.

(** *** Attribute lines *)

Example truncate_counts_characters :
  truncate "éééééééééééééééééééé" = "éééééééééééééééééééé"
  /\ String.length "éééééééééééééééééééé" = 40%nat
  /\ truncate "a text of more than thirty characters"
     = "a text of more than thirty ...".
Proof. repeat split. Qed.

Lemma truncate_length (s : string) : (len (truncate s) <= 30)%nat.
Proof.
  unfold truncate. destruct (Nat.ltb_spec 30 (len s)); [|lia].
  pose proof (len_app_le (first_chars 27 s) "...") as L.
  pose proof (len_first_chars 27 s) as L1.
  change (len "...") with 3%nat in L. lia.
Qed.

Lemma attr_of_val_item_shape (k : string) (x : json) (line : string) :
  In line (attr_of_val_item k x) ->
  exists text, line = k ++ "=" ++ text /\ (len text <= 30)%nat.
Proof.
  unfold attr_of_val_item.
  destruct x as [| | | |s| |d]; cbn; try tauto.
  - intros [<-|[]]. eexists. split; [reflexivity | apply truncate_length].
  - destruct (dict_get "@value" d); cbn; [|tauto].
    intros [<-|[]]. eexists. split; [reflexivity | apply truncate_length].
Qed.

Lemma attr_of_val_item_one (k : string) (x : json) :
  (List.length (attr_of_val_item k x) <= 1)%nat.
Proof.
  unfold attr_of_val_item. destruct x as [| | | |s| |d]; cbn; try lia.
  destruct (dict_get "@value" d); cbn; lia.
Qed.

(** One property of the item: nothing for a skipped key, else at most
    three lines [key=text] with texts of at most 30 characters *)
Lemma attrs_of_entry_spec (ns : dict) (key : string) (value : json) :
  (existsb (String.eqb key) skip_props = true ->
   attrs_of_entry ns (key, value) = [])
  /\ (List.length (attrs_of_entry ns (key, value)) <= 3)%nat
  /\ (forall line, In line (attrs_of_entry ns (key, value)) ->
        existsb (String.eqb key) skip_props = false
        /\ exists text, line = short_key ns key ++ "=" ++ text
                        /\ (len text <= 30)%nat).
Proof.
  unfold attrs_of_entry, short_key.
  destruct (existsb (String.eqb key) skip_props).
  { split; [reflexivity|]. split; [cbn; lia | intros line []]. }
  split; [discriminate|]. split.
  - destruct value as [| | | |s|xs|]; try (cbn; lia). cbv beta iota.
    pose proof (flat_map_length_le
                  (attr_of_val_item
                     (if contains ":" key then _shorten_uri ns key else key))
                  (firstn 3 xs) 1 (attr_of_val_item_one _)) as H.
    rewrite length_firstn in H. lia.
  - intros line Hin. split; [reflexivity|].
    destruct value as [| | | |s|xs|]; cbn in Hin; try tauto.
    + destruct Hin as [<-|[]]. eexists. split; [reflexivity|].
      apply truncate_length.
    + apply in_flat_map in Hin as (x & _ & Hx).
      eapply attr_of_val_item_shape; eauto.
Qed.

(** X1.  Every attribute line comes from a property of the item whose key
    is not one of the skipped keys; that property gives at most three
    lines; the line is the key (compacted when it holds a colon), an equals
    sign and a text of at most 30 characters, counted as [len] counts
    them. *)
Theorem attribute_lines_bounded (ns item : dict) (line : string) :
  In line (_get_attributes_text ns item) ->
  exists key value text,
    In (key, value) item
    /\ existsb (String.eqb key) skip_props = false
    /\ (List.length (attrs_of_entry ns (key, value)) <= 3)%nat
    /\ line = short_key ns key ++ "=" ++ text
    /\ (len text <= 30)%nat.
Proof.
  unfold _get_attributes_text. intros Hin.
  apply in_flat_map in Hin as ([key value] & Hkv & Hl).
  destruct (attrs_of_entry_spec ns key value) as (_ & H3 & Hshape).
  destruct (Hshape line Hl) as (Hskip & text & -> & Hlen).
  exists key, value, text. auto.
Qed.

Lemma attribute_lines_bounded_witness :
  exists key value text,
    In (key, value) sized_item
    /\ existsb (String.eqb key) skip_props = false
    /\ (List.length (attrs_of_entry [] (key, value)) <= 3)%nat
    /\ "ex:note=a text of more than thirty ..."
       = short_key [] key ++ "=" ++ text
    /\ (len text <= 30)%nat.
Proof.
  apply (attribute_lines_bounded [] sized_item
           "ex:note=a text of more than thirty ...").
  cbn. now left.
Defined.

Lemma essential_skipped (key : string) :
  existsb (String.eqb key) ESSENTIAL = true ->
  existsb (String.eqb key) skip_props = true.
Proof.
  intros H. apply existsb_exists in H as (x & Hin & Hx).
  apply existsb_exists. exists x. split; [|exact Hx].
  unfold ESSENTIAL in Hin. unfold skip_props.
  apply in_app_or in Hin. apply in_or_app.
  destruct Hin as [Hin|Hin]; [left | now right].
  cbn in Hin |- *. tauto.
Qed.

(** X2.  An item on which [_has_attributes] answers no gives no attribute
    line: the keys it does not count are all among the skipped keys. *)
Theorem no_attributes_no_lines (ns item : dict) :
  _has_attributes item = false -> _get_attributes_text ns item = [].
Proof.
  unfold _has_attributes, _get_attributes_text, dict_keys.
  fold ESSENTIAL.
  induction item as [|[key value] item IH]; cbn [map existsb flat_map fst];
    [reflexivity|].
  intros H. apply orb_false_elim in H as [Hk Hrest].
  apply negb_false_iff in Hk.
  rewrite (proj1 (attrs_of_entry_spec ns key value) (essential_skipped _ Hk)).
  now apply IH.
Qed.

Lemma no_attributes_no_lines_witness :
  _get_attributes_text example_namespaces bare_item = [].
Proof. apply no_attributes_no_lines. reflexivity. Defined.

(** *** Namespaces *)

Lemma extract_namespaces_list (self : converter) (ctxs : list json) :
  _extract_namespaces self (JArr ctxs)
  = Some (set_namespaces self
            (fold_left merge_context ctxs (namespaces self))).
Proof. reflexivity. Qed.

Lemma set_namespaces_same (self : converter) :
  set_namespaces self (namespaces self) = self.
Proof. now destruct self. Qed.

Lemma fold_non_objects (ns : dict) (ctxs : list json) :
  Forall not_an_object ctxs -> fold_left merge_context ctxs ns = ns.
Proof.
  induction 1 as [|c ctxs Hc _ IH]; cbn; [reflexivity|].
  destruct c; try exact IH. contradiction.
Qed.

Lemma chars_not_objects (s : string) : Forall not_an_object (chars s).
Proof.
  unfold chars. induction (characters s); cbn; constructor; cbn; auto.
Qed.

Lemma keys_not_objects (d : dict) :
  Forall not_an_object (map JStr (dict_keys d)).
Proof. unfold dict_keys. induction d; cbn; constructor; cbn; auto. Qed.

(** X3.  Namespace declarations are merged in order and the later one
    wins: after one more context object [d], a prefix bound by [d] has the
    value [d] gives it and every other prefix keeps its value; the prefixes
    stay distinct; an entry of [@context] that is not an object, such as a
    context IRI, changes nothing. *)
Theorem context_merge (self : converter) (ctxs : list json) (d : dict) :
  NoDup (dict_keys d) ->
  exists s1 s2,
    _extract_namespaces self (JArr ctxs) = Some s1
    /\ _extract_namespaces self (JArr (ctxs ++ [JObj d])) = Some s2
    /\ (forall p,
          dict_get p (namespaces s2)
          = match dict_get p d with
            | Some v => Some v
            | None => dict_get p (namespaces s1)
            end)
    /\ (NoDup (dict_keys (namespaces s1)) ->
        NoDup (dict_keys (namespaces s2)))
    /\ (forall c, not_an_object c ->
          _extract_namespaces self (JArr (ctxs ++ [c])) = Some s1).
Proof.
  intros Hnd. rewrite !extract_namespaces_list.
  eexists. eexists. split; [reflexivity|]. split; [reflexivity|].
  cbn [namespaces set_namespaces]. rewrite fold_left_app. cbn [fold_left].
  split; [|split].
  - intros p. now apply dict_update_get.
  - apply dict_update_NoDup.
  - intros c Hc. rewrite extract_namespaces_list, fold_left_app.
    cbn [fold_left]. destruct c; try reflexivity. contradiction.
Qed.

Lemma context_merge_witness :
  exists s1 s2,
    _extract_namespaces fresh (JArr [JObj example_namespaces]) = Some s1
    /\ _extract_namespaces fresh
         (JArr [JObj example_namespaces; JObj override_namespaces])
       = Some s2
    /\ dict_get "ex" (namespaces s1) = Some (JStr "http://example.org/")
    /\ dict_get "ex" (namespaces s2) = Some (JStr "http://other.org/").
Proof.
  destruct (context_merge fresh [JObj example_namespaces]
              override_namespaces)
    as (s1 & s2 & E1 & E2 & H & _).
  - repeat constructor. intros [].
  - exists s1, s2. split; [exact E1|]. split; [exact E2|].
    split.
    + injection E1 as <-. reflexivity.
    + rewrite (H "ex"). reflexivity.
Defined.

(** X4.  A [@context] that is one object, or one string, rather than a
    list registers no namespace: iterating it yields keys or characters,
    none of which is an object. *)
Theorem context_not_a_list (self : converter) :
  (forall d, _extract_namespaces self (JObj d) = Some self)
  /\ (forall s, _extract_namespaces self (JStr s) = Some self).
Proof.
  split.
  - intros d. unfold _extract_namespaces, py_iter. cbn [bind].
    change (fold_left _ ?l ?n) with (fold_left merge_context l n).
    now rewrite fold_non_objects, set_namespaces_same
      by apply keys_not_objects.
  - intros s. unfold _extract_namespaces, py_iter. cbn [bind].
    change (fold_left _ ?l ?n) with (fold_left merge_context l n).
    now rewrite fold_non_objects, set_namespaces_same
      by apply chars_not_objects.
Qed.

(** The entry [first_namespace] stops at: no string namespace before it is
    a prefix of the IRI. *)
Lemma first_namespace_match (uri : string) (ns : dict) (short : string) :
  first_namespace uri ns = Some short ->
  exists pre p n post,
    ns = (pre ++ (p, JStr n) :: post)%list
    /\ (forall q m, In (q, JStr m) pre -> startswith uri m = false)
    /\ startswith uri n = true
    /\ short = p ++ ":" ++ drop (String.length n) uri.
Proof.
  induction ns as [|[q v] ns IH]; cbn [first_namespace]; [discriminate|].
  assert (Hrec : (forall m, v = JStr m -> startswith uri m = false) ->
                 first_namespace uri ns = Some short ->
                 exists pre p n post,
                   (q, v) :: ns = (pre ++ (p, JStr n) :: post)%list
                   /\ (forall q m, In (q, JStr m) pre ->
                                   startswith uri m = false)
                   /\ startswith uri n = true
                   /\ short = p ++ ":" ++ drop (String.length n) uri).
  { intros Hv H. destruct (IH H) as (pre & p & n & post & -> & Hpre & Hn & ->).
    exists ((q, v) :: pre), p, n, post.
    split; [reflexivity|]. split; [|split; [exact Hn | reflexivity]].
    intros q' m [E|Hin]; [|eauto].
    injection E as _ E. eauto. }
  destruct v as [| | | |m| |]; try (apply Hrec; discriminate).
  destruct (startswith uri m) eqn:E.
  - intros [= <-]. exists [], q, m, ns.
    split; [reflexivity|]. split; [intros ? ? []|]. split; [exact E|].
    reflexivity.
  - apply Hrec. now intros ? [= <-].
Qed.

Lemma first_namespace_none (uri : string) (ns : dict) :
  (forall q m, In (q, JStr m) ns -> startswith uri m = false) ->
  first_namespace uri ns = None.
Proof.
  induction ns as [|[q v] ns IH]; intros H; cbn [first_namespace];
    [reflexivity|].
  assert (Hr : first_namespace uri ns = None)
    by (apply IH; intros; eapply H; right; eauto).
  destruct v as [| | | |m| |]; try exact Hr.
  rewrite (H q m) by now left. exact Hr.
Qed.

(** X5.  Compaction either returns the IRI unchanged or returns
    [prefix:rest] for a declared namespace with which the IRI starts:
    putting the namespace back in place of the prefix and the colon gives
    the IRI again. *)
Theorem shorten_uri_expands (ns : dict) (uri : string) :
  _shorten_uri ns uri = uri
  \/ exists p n rest,
       In (p, JStr n) ns
       /\ uri = n ++ rest
       /\ _shorten_uri ns uri = p ++ ":" ++ rest.
Proof.
  unfold _shorten_uri.
  destruct (_ || _); [now left|].
  destruct (_ && _); [now left|].
  destruct (first_namespace uri ns) as [short|] eqn:E; [|now left].
  destruct (first_namespace_match _ _ _ E)
    as (pre & p & n & post & -> & _ & Hn & ->).
  right. exists p, n, (drop (String.length n) uri).
  split; [apply in_or_app; right; now left|].
  split; [now apply startswith_drop | reflexivity].
Qed.

(** X6.  For an IRI with the [http://] or [https://] scheme, the first
    declared namespace, in insertion order, with which the IRI starts is
    the one used, whatever follows it in the map (a longer match
    included); with no matching namespace the IRI is returned as it
    is. *)
Theorem shorten_uri_first_match (pre post : dict) (p n uri : string) :
  startswith uri "http://" = true \/ startswith uri "https://" = true ->
  (forall q m, In (q, JStr m) pre -> startswith uri m = false) ->
  startswith uri n = true ->
  _shorten_uri (pre ++ (p, JStr n) :: post)%list uri
  = p ++ ":" ++ drop (String.length n) uri
  /\ _shorten_uri pre uri = uri.
Proof.
  intros Hs Hpre Hn. unfold _shorten_uri.
  rewrite (scheme_has_colon _ Hs).
  assert (E : negb (startswith uri "http://")
              && negb (startswith uri "https://") = false).
  { destruct Hs as [-> | ->]; [reflexivity | apply andb_false_r]. }
  rewrite E. rewrite (first_namespace_none uri pre Hpre).
  split; [|reflexivity].
  induction pre as [|[q v] pre IH]; cbn [app first_namespace].
  - now rewrite Hn.
  - assert (Hr : forall q m, In (q, JStr m) pre -> startswith uri m = false)
      by (intros; eapply Hpre; right; eauto).
    destruct v as [| | | |m| |]; try (apply IH; exact Hr).
    rewrite (Hpre q m) by now left. apply IH; exact Hr.
Qed.

Lemma shorten_uri_first_match_witness :
  _shorten_uri nested_namespaces "http://example.org/vocab/Thing"
  = "ex:vocab/Thing".
Proof.
  apply (shorten_uri_first_match []
           [("exv", JStr "http://example.org/vocab/")]
           "ex" "http://example.org/" "http://example.org/vocab/Thing").
  - now left.
  - intros q m [].
  - reflexivity.
Defined.

(** *** Identifiers in DOT *)

(** X7.  The identifier emitted for the encoding of a string is either the
    original between double quotes, or the sanitized text, which then
    consists of alphanumerics and underscores with at least one
    alphanumeric and is emitted as it is when it is an identifier itself;
    an identifier that already has that form is emitted as it is. *)
Theorem safe_id_bare_or_quoted (node_id : string) :
  well_formed node_id = true ->
  (_make_safe_id node_id = dq ++ node_id ++ dq
   \/ (_make_safe_id node_id = sanitize node_id
       /\ word_text (_make_safe_id node_id) = true
       /\ has_alnum (_make_safe_id node_id) = true
       /\ _make_safe_id (_make_safe_id node_id) = _make_safe_id node_id))
  /\ (word_text node_id = true -> has_alnum node_id = true ->
      _make_safe_id node_id = node_id).
Proof.
  intros Hwf. split; [|apply make_safe_id_word].
  rewrite (make_safe_id_cases _ Hwf).
  destruct (word_text (sanitize node_id)) eqn:Hw; [|now left].
  destruct (has_alnum (sanitize node_id)) eqn:Ha; [|now left].
  right. cbn [andb]. repeat split; auto using make_safe_id_word.
Qed.

Lemma safe_id_bare_or_quoted_witness :
  _make_safe_id "anon_0" = "anon_0" /\ _make_safe_id "café" = "café".
Proof.
  split.
  - apply (proj2 (safe_id_bare_or_quoted "anon_0" eq_refl)); reflexivity.
  - apply (proj2 (safe_id_bare_or_quoted "café" eq_refl)); reflexivity.
Defined.

(** *** Items that leave no trace *)

Lemma endpoints_unknown (item : dict) (t : string) :
  dict_mem t EDGE_STYLES = false ->
  _get_edge_endpoints item t = (JNull, JNull).
Proof.
  unfold EDGE_STYLES; cbn [dict_mem]. unfold _get_edge_endpoints.
  intros H.
  repeat match goal with
         | |- context [String.eqb t ?k] =>
             destruct (String.eqb_spec t k) as [->|_];
             [cbn in H; discriminate H|]
         end.
  reflexivity.
Qed.

(** X8.  A graph item without [@type], with a null [@type], or with a
    string [@type] that is neither a node type nor one of the fourteen
    relation types (also one that starts with [prov:], such as
    [prov:Bundle]) is skipped: the state is unchanged and nothing is
    raised. *)
Theorem unrecognized_item_ignored (self : converter) (item : dict) :
  dict_get "@type" item = None
  \/ dict_get "@type" item = Some JNull
  \/ (exists t, dict_get "@type" item = Some (JStr t)
                /\ dict_mem t NODE_SHAPES = false
                /\ dict_mem t EDGE_STYLES = false) ->
  process_item self (JObj item) = Some self.
Proof.
  intros H. unfold process_item, _process_relation, _process_simple_relation,
    get.
  destruct H as [->|[->|(t & -> & Hn & He)]]; try reflexivity.
  rewrite Hn, (endpoints_unknown item t He).
  now destruct (_ && _).
Qed.

Lemma unrecognized_item_ignored_witness :
  process_item fresh (JObj bundle_item) = Some fresh.
Proof.
  apply unrecognized_item_ignored. right. right.
  exists "prov:Bundle". repeat split.
Defined.

(** X9.  For an item of a recognized relation type, an endpoint that is
    present but falsy (an empty string, null, false, zero, an empty list
    or object) drops the relation just as an absent one does. *)
Theorem falsy_endpoint_dropped (self : converter) (item : dict)
    (t a b : string) :
  dict_get "@type" item = Some (JStr t) ->
  dict_get t ENDPOINT_ROLES = Some (a, b) ->
  truthy (get a item) = false \/ truthy (get b item) = false ->
  process_item self (JObj item) = Some self.
Proof.
  intros Ht Hr Hf.
  assert (Hs : exists es, dict_get t EDGE_STYLES = Some es).
  { pose proof (roles_iff_style t) as E. rewrite !dict_get_mem, Hr in E.
    destruct (dict_get t EDGE_STYLES); [eauto | discriminate]. }
  destruct Hs as [es Hs].
  destruct (relation_dispatch self item t es Ht Hs) as [-> _].
  unfold _process_simple_relation.
  rewrite (get_present _ _ _ Ht), (endpoints_by_role item t a b Hr).
  destruct Hf as [-> | ->]; cbn [negb orb]; [reflexivity|].
  now rewrite orb_true_r.
Qed.

Lemma falsy_endpoint_dropped_witness :
  process_item fresh (JObj usage_with_empty_entity) = Some fresh.
Proof.
  apply (falsy_endpoint_dropped fresh usage_with_empty_entity
           "prov:Usage" "activity" "entity");
    [reflexivity | reflexivity | right; reflexivity].
Defined.

(** *** The edge list *)

(** A step of the loop leaves the edges alone or appends one edge of the
    registry. *)
Lemma process_item_edges (self self' : converter) (item : json) :
  process_item self item = Some self' ->
  edges self' = edges self
  \/ exists e, edges self' = (edges self ++ [e])%list /\ registry_edge e.
Proof.
  unfold process_item, _process_relation, _process_simple_relation,
    _process_node.
  destruct item as [| | | | | |fields]; try discriminate.
  destruct (get "@type" fields) as [|[|]|z|t|ty| |] eqn:Ety;
    cbn [truthy]; try discriminate;
    try (intros [= <-]; now left).
  - destruct (negb (Z.eqb z 0)); [discriminate | intros [= <-]; now left].
  - destruct (negb _); [discriminate | intros [= <-]; now left].
  - destruct (dict_mem ty NODE_SHAPES).
    + destruct (node_id self fields); try discriminate.
      destruct (node_descriptor self fields ty) as [d|]; [|discriminate].
      cbn [bind]. intros [= <-]. now left.
    + destruct (_ && _); [|intros [= <-]; now left].
      destruct (dict_mem ty EDGE_STYLES) eqn:Hm.
      2:{ rewrite (endpoints_unknown fields ty Hm). cbn.
          intros [= <-]; now left. }
      rewrite dict_get_mem in Hm.
      destruct (dict_get ty EDGE_STYLES) as [es|] eqn:Hes; [|discriminate].
      destruct (_get_edge_endpoints fields ty) as [source target].
      destruct (truthy source) eqn:Hs; cbn [negb orb];
        [|intros [= <-]; now left].
      destruct (truthy target) eqn:Htg; cbn [negb];
        [|intros [= <-]; now left].
      destruct (match show_relation_labels self with
                | true => _
                | false => _
                end) as [label|]; [|discriminate].
      cbn [bind]. intros [= <-]. right. eexists. split; [reflexivity|].
      exists ty, es, label. cbn [e_source e_target].
      split; [exact Hes|]. split; [|split; assumption].
      unfold styled_edge. destruct es as [l s d c [a|]]; reflexivity.
Qed.

Lemma foldM_edges_prefix (graph : list json) (self self' : converter) :
  foldM process_item graph self = Some self' ->
  exists new, edges self' = (edges self ++ new)%list.
Proof.
  revert self. induction graph as [|item graph IH]; intros self; cbn.
  - intros [= <-]. exists []. now rewrite app_nil_r.
  - destruct (process_item self item) as [s1|] eqn:E; [|discriminate].
    cbn [bind]. intros H. destruct (IH _ H) as (new & ->).
    destruct (process_item_edges _ _ _ E) as [->|(e & -> & _)]; [eauto|].
    exists (e :: new). now rewrite <- app_assoc.
Qed.

(** X10.  The loop over [@graph] only appends to the edge list: the edges
    there before keep their place, at most one edge is added per item, and
    every added edge has the style, direction, colour and arrowhead of an
    entry of [EDGE_STYLES] and two truthy endpoints, so the fall-back
    styling of [_process_simple_relation] is never used. *)
Theorem edges_only_appended (graph : list json) (self self' : converter) :
  foldM process_item graph self = Some self' ->
  exists new,
    edges self' = (edges self ++ new)%list
    /\ (List.length new <= List.length graph)%nat
    /\ Forall registry_edge new.
Proof.
  revert self. induction graph as [|item graph IH]; intros self; cbn.
  - intros [= <-]. exists []. rewrite app_nil_r. repeat split; auto.
  - destruct (process_item self item) as [s1|] eqn:E; [|discriminate].
    cbn [bind]. intros H. destruct (IH _ H) as (new & Hn & Hl & Hf).
    destruct (process_item_edges _ _ _ E) as [E1|(e & E1 & He)];
      rewrite E1 in Hn.
    + exists new. repeat split; auto.
    + exists (e :: new). rewrite <- app_assoc in Hn.
      split; [exact Hn|]. split; [cbn; lia | now constructor].
Qed.

Lemma edges_only_appended_witness :
  exists self' new,
    foldM process_item mixed_graph fresh = Some self'
    /\ edges self' = new
    /\ (List.length new <= 3)%nat
    /\ Forall registry_edge new.
Proof.
  destruct (edges_only_appended mixed_graph fresh
              (set_edges fresh
                 [styled_edge (mk_style "wasDerivedFrom" "solid" "back")
                    (JStr "e1") (JStr "e2") (Some "wasDerivedFrom")]))
    as (new & E & L & F); [reflexivity|].
  eexists. exists new. split; [reflexivity|]. auto.
Defined.

(** *** The DOT text *)

Lemma edge_line_total (e : edge) :
  string_endpoints e -> exists line, edge_line e = Some line.
Proof.
  intros (s & t & Hs & Ht). unfold edge_line. rewrite Hs, Ht. cbv zeta.
  destruct (String.eqb _ ""); eauto.
Qed.

(** The attribute list of an edge statement is never empty, [style],
    [dir] and [arrowhead] being always there, so the statement has its
    brackets. *)
Lemma edge_line_shape (e : edge) (line : string) :
  edge_line e = Some line -> edge_statement e line.
Proof.
  unfold edge_line, edge_statement.
  destruct (e_source e) as [| | | |s| |]; try discriminate.
  destruct (e_target e) as [| | | |t| |]; try discriminate.
  cbv zeta.
  match goal with
  | |- context [String.eqb ?p ""] =>
      assert (Hp : p <> "");
      [|destruct (String.eqb_spec p ""); [contradiction|]]
  end.
  - unfold opt_list, quoted_prop.
    destruct (e_label e) as [l|]; [destruct (String.eqb l "")|];
      destruct (e_color e); cbn; discriminate.
  - intros [= <-]. exists s, t. split; [reflexivity|]. split; [reflexivity|].
    unfold edge_attributes, opt_list, quoted_prop, quoted, unquoted.
    destruct (e_label e) as [l|]; [destruct (String.eqb l "")|];
      destruct (e_color e); reflexivity.
Qed.

(** X11.  When the endpoints of all edges are strings, [_generate_dot]
    returns a text: the five header lines, one statement per node of the
    table with its identifier and the five entries of its descriptor, an
    empty line, one statement per edge in list order with its attributes
    in brackets (the form without brackets is never emitted), and the
    closing brace; that is 7 lines plus one per node and one per edge. *)
Theorem generate_dot_layout (self : converter) :
  Forall string_endpoints (edges self) ->
  exists es,
    Forall2 edge_statement (edges self) es
    /\ _generate_dot self
       = Some (join lf (dot_header (direction self)
                        ++ node_statements (nodes self)
                        ++ [""] ++ es ++ ["}"])%list)
    /\ List.length (dot_header (direction self)
                    ++ node_statements (nodes self)
                    ++ [""] ++ es ++ ["}"])%list
       = (7 + List.length (nodes self) + List.length (edges self))%nat.
Proof.
  intros H.
  assert (Ht : Forall (fun e => exists l, edge_line e = Some l) (edges self)).
  { eapply Forall_impl; [|exact H]. apply edge_line_total. }
  destruct (mapM_Forall2 _ _ Ht) as (es & E & F).
  exists es. split; [|split].
  - eapply Forall2_impl; [|exact F]. apply edge_line_shape.
  - unfold _generate_dot, dot_lines, edge_lines. rewrite E.
    now rewrite node_lines_statements.
  - rewrite !length_app. unfold node_statements. rewrite length_map.
    rewrite <- (Forall2_length F). cbn. lia.
Qed.

Lemma generate_dot_layout_witness :
  exists es,
    Forall2 edge_statement (edges drawn_state) es
    /\ _generate_dot drawn_state
       = Some (join lf (dot_header "LR"
                        ++ node_statements (nodes drawn_state)
                        ++ [""] ++ es ++ ["}"])%list)
    /\ List.length (dot_header "LR"
                    ++ node_statements (nodes drawn_state)
                    ++ [""] ++ es ++ ["}"])%list
       = 10%nat.
Proof.
  apply (generate_dot_layout drawn_state).
  constructor; [|constructor].
  exists "ex:e1", "ex:a1". split; reflexivity.
Defined.

Example drawn_state_text :
  _generate_dot drawn_state
  = Some (join lf
            [ "digraph PROV {";
              "  rankdir=LR;";
              "  node [fontname=" ++ dq ++ "Helvetica" ++ dq ++ "];";
              "  edge [fontname=" ++ dq ++ "Helvetica" ++ dq ++ "];";
              "";
              "  ex_e1 [label=" ++ dq ++ "second" ++ dq
              ++ ", shape=" ++ dq ++ "house" ++ dq
              ++ ", fillcolor=" ++ dq ++ "#FDB266" ++ dq
              ++ ", style=" ++ dq ++ "filled" ++ dq
              ++ ", type=" ++ dq ++ "prov:Agent" ++ dq ++ "];";
              "  ex_a1 [label=" ++ dq ++ "a1" ++ dq
              ++ ", shape=" ++ dq ++ "box" ++ dq
              ++ ", fillcolor=" ++ dq ++ "#9FB1FC" ++ dq
              ++ ", style=" ++ dq ++ "filled" ++ dq
              ++ ", type=" ++ dq ++ "prov:Activity" ++ dq ++ "];";
              "";
              "  ex_e1 -> ex_a1 [label=" ++ dq ++ "wasDerivedFrom" ++ dq
              ++ ", style=solid, dir=back, arrowhead=normal];";
              "}" ]).
Proof. reflexivity. Qed.

(** *** Calls of [convert] *)

(** X12.  The node table and the edge list are not reset between calls:
    after a first conversion, converting a second graph (with no new
    context) leaves the converter as one conversion of the two graphs in
    sequence does, so the second text repeats the nodes and edges of the
    first. *)
Theorem converter_reuse_accumulates (self s1 : converter) (context : json)
    (g1 g2 : list json) :
  build self (doc_of context g1) = Some s1 ->
  build s1 (doc_of (JArr []) g2) = build self (doc_of context (g1 ++ g2))
  /\ (forall s2, build s1 (doc_of (JArr []) g2) = Some s2 ->
        incl (dict_keys (nodes s1)) (dict_keys (nodes s2))
        /\ exists new, edges s2 = (edges s1 ++ new)%list).
Proof.
  unfold build, doc_of, get_default. cbn [dict_get String.eqb].
  cbn.
  destruct (_extract_namespaces self context) as [s0|]; [|discriminate].
  cbn [bind]. intros H1. rewrite set_namespaces_same. split.
  - now rewrite foldM_app, H1.
  - intros s2 H2. split.
    + apply (foldM_keys _ _ _ H2).
    + apply (foldM_edges_prefix _ _ _ H2).
Qed.

Lemma converter_reuse_accumulates_witness :
  build twice_state (doc_of (JArr []) [JObj derivation_item])
  = build fresh (doc_of (JArr []) (twice_graph ++ [JObj derivation_item])).
Proof.
  apply (converter_reuse_accumulates fresh twice_state (JArr [])
           twice_graph [JObj derivation_item]).
  reflexivity.
Defined.

(** X13.  A document with neither [@context] nor [@graph], given to a new
    converter, yields the bare skeleton of seven lines with the chosen
    layout direction, and leaves the converter as it was. *)
Theorem empty_document_skeleton (show : bool) (direction : string)
    (doc : dict) :
  dict_mem "@context" doc = false ->
  dict_mem "@graph" doc = false ->
  convert (__init__ show direction) (JObj doc)
  = Some (join lf (dot_header direction ++ ["" ; "}"])%list,
          __init__ show direction).
Proof.
  intros Hc Hg. unfold convert, build, get_default.
  rewrite (dict_mem_get _ _ Hc), (dict_mem_get _ _ Hg). reflexivity.
Qed.

Lemma empty_document_skeleton_witness :
  convert fresh (JObj [])
  = Some (join lf (dot_header "LR" ++ ["" ; "}"])%list, fresh).
Proof. apply (empty_document_skeleton true "LR" []); reflexivity. Defined.

End Ld2vizMore.

(** ** More on the PROV-JSON importer *)

Module Prov2ldMore.
Import PyStr PyStrFacts PyDictFacts MoreFacts.
Import Spec Behaviour Samples MoreSamples Prov2ld Prov2ldProps.

(** *** Elements *)

Lemma element_attr_colon (obj : dict) (key : string) (value : json) :
  contains ":" key = true ->
  element_attr obj (key, value) = dict_set key (wrap_attribute key value) obj.
Proof.
  intros Hk. unfold element_attr, wrap_attribute.
  destruct (String.eqb_spec key "prov:type") as [->|_]; [reflexivity|].
  destruct (String.eqb_spec key "prov:label") as [->|_]; [reflexivity|].
  destruct (String.eqb_spec key "prov:location") as [->|_]; [reflexivity|].
  destruct (String.eqb_spec key "prov:value") as [->|_]; [reflexivity|].
  destruct (startswith key "prov:"); [reflexivity|].
  now rewrite Hk.
Qed.

Lemma element_attr_plain (obj : dict) (key : string) (value : json) :
  contains ":" key = false -> element_attr obj (key, value) = obj.
Proof.
  intros Hk. unfold element_attr.
  destruct (String.eqb_spec key "prov:type") as [->|_]; [discriminate|].
  destruct (String.eqb_spec key "prov:label") as [->|_]; [discriminate|].
  destruct (String.eqb_spec key "prov:location") as [->|_]; [discriminate|].
  destruct (String.eqb_spec key "prov:value") as [->|_]; [discriminate|].
  destruct (startswith key "prov:") eqn:E.
  - apply startswith_prov_colon in E. congruence.
  - now rewrite Hk.
Qed.

Lemma fold_element_attr_get (k : string) (d obj : dict) :
  contains ":" k = true ->
  NoDup (dict_keys d) ->
  dict_get k (fold_left element_attr d obj)
  = match dict_get k d with
    | Some v => Some (wrap_attribute k v)
    | None => dict_get k obj
    end.
Proof.
  intros Hk. revert obj.
  induction d as [|[key value] d IH]; intros obj Hnd;
    cbn [fold_left dict_get]; [reflexivity|].
  inversion Hnd as [|? ? Hnotin Hnd']; subst.
  rewrite (IH _ Hnd').
  destruct (String.eqb_spec key k) as [->|Hne].
  - rewrite (dict_absent_get _ _ Hnotin), (element_attr_colon _ _ _ Hk).
    apply dict_get_set_same.
  - destruct (dict_get k d); [reflexivity|].
    destruct (contains ":" key) eqn:Ck.
    + rewrite (element_attr_colon _ _ _ Ck). apply dict_get_set_other.
      congruence.
    + now rewrite (element_attr_plain _ _ _ Ck).
Qed.

Lemma element_head_get (k : string) (a b : json) :
  k <> "@type" -> k <> "@id" ->
  dict_get k [("@type", a); ("@id", b)] = None.
Proof.
  intros H1 H2. cbn [dict_get].
  destruct (String.eqb_spec "@type" k); [congruence|].
  destruct (String.eqb_spec "@id" k); [congruence | reflexivity].
Qed.

(** X14.  Converting an element (its data a JSON object, so with distinct
    keys) keeps exactly the attributes whose key holds a colon, each
    wrapped as a list of value objects ([prov:label] as a label).  A key
    without a colon is dropped.  For an activity [startTime] and [endTime]
    are added with the raw values of [prov:startTime] and [prov:endTime],
    which stay in the object in wrapped form as well; for any other type
    they are not added. *)
Theorem element_attributes_wrapped (item_id type_name : string) (d : dict) :
  NoDup (dict_keys d) ->
  exists obj,
    _convert_element item_id (JObj d) type_name = Some obj
    /\ (forall k, contains ":" k = true ->
          dict_get k obj = option_map (wrap_attribute k) (dict_get k d))
    /\ (forall k, contains ":" k = false ->
          k <> "@type" -> k <> "@id" -> k <> "startTime" -> k <> "endTime" ->
          dict_get k obj = None)
    /\ (type_name = "prov:Activity" ->
        dict_get "startTime" obj = dict_get "prov:startTime" d
        /\ dict_get "endTime" obj = dict_get "prov:endTime" d)
    /\ (type_name <> "prov:Activity" ->
        dict_get "startTime" obj = None /\ dict_get "endTime" obj = None).
Proof.
  intros Hnd. unfold _convert_element. eexists. split; [reflexivity|].
  split; [|split; [|split]].
  - intros k Hk.
    assert (Hs : k <> "startTime") by (intros ->; discriminate).
    assert (He : k <> "endTime") by (intros ->; discriminate).
    assert (Ht : k <> "@type") by (intros ->; discriminate).
    assert (Hi : k <> "@id") by (intros ->; discriminate).
    destruct (String.eqb type_name "prov:Activity");
      rewrite ?copy_key_get_other by assumption;
      rewrite (fold_element_attr_get k d _ Hk Hnd);
      destruct (dict_get k d); cbn [option_map]; try reflexivity;
      now apply element_head_get.
  - intros k Hk H1 H2 H3 H4.
    destruct (String.eqb type_name "prov:Activity");
      rewrite ?copy_key_get_other by assumption;
      rewrite fold_attr_get by (intros; now apply element_attr_get);
      now apply element_head_get.
  - intros ->. cbn [String.eqb Ascii.eqb Bool.eqb].
    rewrite copy_key_get_other by discriminate.
    rewrite !copy_key_get_same.
    rewrite copy_key_get_other by discriminate.
    rewrite !fold_attr_get by (intros; now apply element_attr_get).
    rewrite !element_head_get by discriminate.
    split; [now destruct (dict_get "prov:startTime" d)
           | now destruct (dict_get "prov:endTime" d)].
  - intros Hne. destruct (String.eqb_spec type_name "prov:Activity");
      [contradiction|].
    rewrite !fold_attr_get by (intros; now apply element_attr_get).
    split; reflexivity.
Qed.

Lemma element_attributes_wrapped_witness :
  exists obj,
    _convert_element "ex:a1" (JObj activity_times) "prov:Activity" = Some obj
    /\ dict_get "prov:label" obj
       = Some (JArr [JObj [("@value", JStr "run")]])
    /\ dict_get "note" obj = None
    /\ dict_get "startTime" obj = Some (JStr "2020-01-01T10:00:00").
Proof.
  destruct (element_attributes_wrapped "ex:a1" "prov:Activity" activity_times)
    as (obj & E & Hc & Hp & Ha & _).
  - repeat constructor; cbn; intuition discriminate.
  - exists obj. split; [exact E|]. split; [|split].
    + rewrite (Hc "prov:label") by reflexivity. reflexivity.
    + apply Hp; [reflexivity | discriminate..].
    + destruct (Ha eq_refl) as [Hs _]. rewrite Hs. reflexivity.
Defined.

(** *** Relations *)

Lemma relation_attr_skip (pm : list (string * string)) (pk : string)
    (obj : dict) (kv : string * json) :
  dict_mem pk pm = true ->
  dict_get pk (relation_attr pm obj kv) = dict_get pk obj.
Proof.
  intros Hpk. destruct kv as [key value]. unfold relation_attr.
  destruct (dict_mem key pm) eqn:M; [reflexivity|].
  assert (Hne : pk <> key) by (intros ->; congruence).
  repeat match goal with
         | |- context [if String.eqb key ?c then _ else _] =>
             destruct (String.eqb_spec key c) as [->|_];
             [now apply dict_get_set_other|]
         end.
  destruct (startswith key "prov:"); [now apply dict_get_set_other|].
  destruct (contains ":" key); [now apply dict_get_set_other | reflexivity].
Qed.

(** Case analysis on the category of a relation *)
Ltac relation_cases H :=
  unfold RELATION_PROPERTIES in H; cbn [dict_get] in H;
  repeat match type of H with
         | (if String.eqb ?k ?t then _ else _) = _ =>
             destruct (String.eqb_spec k t) as [<-|_];
             [ injection H as <- | ]
         end;
  try discriminate.

(** Case analysis on a pair of a property map *)
Ltac role_cases Hin :=
  cbn [In] in Hin;
  repeat match type of Hin with
         | _ \/ _ => destruct Hin as [Hin|Hin]; [injection Hin as <- <-|]
         end;
  try contradiction.

Lemma relation_head_get (k item_id type_name : string) :
  k <> "@type" -> k <> "@id" ->
  dict_get k
    (if negb (String.eqb item_id "") && negb (startswith item_id "_:")
     then dict_set "@id" (JStr item_id) [("@type", JStr type_name)]
     else if negb (String.eqb item_id "") && startswith item_id "_:"
          then dict_set "@id" (JStr item_id) [("@type", JStr type_name)]
          else [("@type", JStr type_name)])
  = None.
Proof.
  intros H1 H2.
  change (dict_set "@id" (JStr item_id) [("@type", JStr type_name)])
    with [("@type", JStr type_name); ("@id", JStr item_id)].
  destruct (_ && _); [|destruct (_ && _)];
    try (now apply element_head_get).
  cbn [dict_get]. destruct (String.eqb_spec "@type" k); [congruence|].
  reflexivity.
Qed.

(** The identifier is attached when it is not empty, blank-node
    identifiers included. *)
Lemma relation_head_type (item_id type_name : string) :
  let head :=
    if negb (String.eqb item_id "") && negb (startswith item_id "_:")
    then dict_set "@id" (JStr item_id) [("@type", JStr type_name)]
    else if negb (String.eqb item_id "") && startswith item_id "_:"
         then dict_set "@id" (JStr item_id) [("@type", JStr type_name)]
         else [("@type", JStr type_name)] in
  dict_get "@type" head = Some (JStr type_name)
  /\ (item_id <> "" -> dict_get "@id" head = Some (JStr item_id)).
Proof.
  cbv zeta. destruct (String.eqb_spec item_id "") as [->|Hne]; cbn [negb andb].
  - split; [reflexivity | congruence].
  - destruct (startswith item_id "_:"); cbn; split; reflexivity.
Qed.

Lemma relation_role_get (c : string) (pm : list (string * string))
    (pk jk item_id type_name : string) (d : dict) :
  dict_get c RELATION_PROPERTIES = Some pm ->
  In (pk, jk) pm ->
  exists obj,
    _convert_relation item_id (JObj d) type_name c = Some obj
    /\ dict_get "@type" obj = Some (JStr type_name)
    /\ (item_id <> "" -> dict_get "@id" obj = Some (JStr item_id))
    /\ dict_get jk obj = dict_get pk d
    /\ dict_get pk obj = None.
Proof.
  intros Hc Hin. unfold _convert_relation. eexists. split; [reflexivity|].
  rewrite Hc.
  assert (Hmem : dict_mem pk pm = true).
  { clear Hc. induction pm as [|[a b] pm IH]; [contradiction|].
    cbn. destruct Hin as [[= -> ->]|Hin]; [now rewrite String.eqb_refl|].
    rewrite (IH Hin). apply orb_true_r. }
  rewrite (fold_attr_get (relation_attr pm) pk)
    by (intros; now apply relation_attr_skip).
  relation_cases Hc; role_cases Hin;
    cbn [fold_left];
    rewrite !fold_attr_get by (intros; now apply relation_attr_get);
    repeat first [ rewrite copy_key_get_same
                 | rewrite copy_key_get_other by discriminate ];
    repeat match goal with
           | |- context [dict_get ?k (if _ then _ else _)] =>
               rewrite (relation_head_get k) by discriminate
           end;
    pose proof (relation_head_type item_id type_name) as [Ht Hi];
    (split; [exact Ht|]); (split; [exact Hi|]);
    (split; [|reflexivity]);
    repeat match goal with
           | |- context [match dict_get ?k d with _ => _ end] =>
               destruct (dict_get k d)
           end; reflexivity.
Qed.

Lemma relation_type_id (c item_id type_name : string) (d : dict) :
  exists obj,
    _convert_relation item_id (JObj d) type_name c = Some obj
    /\ dict_get "@type" obj = Some (JStr type_name)
    /\ (item_id <> "" -> dict_get "@id" obj = Some (JStr item_id)).
Proof.
  unfold _convert_relation. eexists. split; [reflexivity|].
  pose proof (relation_head_type item_id type_name) as [Ht Hi].
  destruct (dict_get c RELATION_PROPERTIES) as [pm|] eqn:Hc.
  - relation_cases Hc; cbn [fold_left];
      rewrite !fold_attr_get by (intros; now apply relation_attr_get);
      rewrite !copy_key_get_other by discriminate;
      (split; [exact Ht | exact Hi]).
  - cbn [fold_left].
    rewrite !fold_attr_get by (intros; now apply relation_attr_get).
    split; [exact Ht | exact Hi].
Qed.

(** X15.  For each of the fourteen relation categories and each pair of
    its property table, the converted object holds under the PROV-JSONLD
    role name the raw value the record holds under the PROV-JSON key (and
    lacks the role when the record lacks the key), and the PROV-JSON key
    itself is never carried over. *)
Theorem relation_roles_renamed (c : string) (pm : list (string * string))
    (item_id type_name : string) (d : dict) :
  dict_get c RELATION_PROPERTIES = Some pm ->
  exists obj,
    _convert_relation item_id (JObj d) type_name c = Some obj
    /\ forall pk jk, In (pk, jk) pm ->
         dict_get jk obj = dict_get pk d /\ dict_get pk obj = None.
Proof.
  intros Hc.
  destruct (relation_type_id c item_id type_name d) as (obj & E & _).
  exists obj. split; [exact E|].
  intros pk jk Hin.
  destruct (relation_role_get c pm pk jk item_id type_name d Hc Hin)
    as (obj' & E' & _ & _ & H1 & H2).
  rewrite E in E'. injection E' as <-. now split.
Qed.

Lemma relation_roles_renamed_witness :
  exists obj,
    _convert_relation "_:g1" (JObj generation_data)
      "prov:Generation" "wasGeneratedBy" = Some obj
    /\ forall pk jk,
         In (pk, jk) [("prov:entity", "entity"); ("prov:activity", "activity");
                      ("prov:time", "time")] ->
         dict_get jk obj = dict_get pk generation_data
         /\ dict_get pk obj = None.
Proof. apply relation_roles_renamed. reflexivity. Defined.

(** *** Categories and documents *)

Lemma convert_item_entry (c type_name item_id : string) (f : dict) :
  exists o,
    _convert_item item_id (JObj f) type_name c = Some o
    /\ converted_entry type_name (item_id, JObj f) (JObj o).
Proof.
  unfold _convert_item. destruct (dict_mem c RELATION_PROPERTIES).
  - destruct (relation_type_id c item_id type_name f) as (o & E & Ht & Hi).
    exists o. split; [exact E|]. exists o. auto.
  - destruct (element_type item_id f type_name) as (o & E & Ht & Hi).
    exists o. split; [exact E|]. exists o. auto.
Qed.

(** X16.  A category all of whose entries have an object as data converts
    without an exception to one object per entry, in the order of the
    entries; each object has the type of the category and, unless the
    entry's identifier is empty, that identifier as [@id]. *)
Theorem category_one_object_per_entry (c type_name : string) (d : dict) :
  Forall (fun kv => exists f, snd kv = JObj f) d ->
  exists objs,
    _convert_category c (JObj d) type_name = Some objs
    /\ Forall2 (converted_entry type_name) d objs.
Proof.
  unfold _convert_category.
  induction 1 as [|[item_id v] d [f Hf] _ (objs & E & F)]; cbn [mapM].
  - exists []. split; [reflexivity | constructor].
  - cbn [snd] in Hf. subst v.
    destruct (convert_item_entry c type_name item_id f) as (o & Eo & Ho).
    rewrite Eo, E. cbn [bind]. exists (JObj o :: objs).
    split; [reflexivity | now constructor].
Qed.

Lemma category_one_object_per_entry_witness :
  exists objs,
    _convert_category "entity" (JObj [("ex:e1", JObj entity_data)])
      "prov:Entity" = Some objs
    /\ Forall2 (converted_entry "prov:Entity")
         [("ex:e1", JObj entity_data)] objs.
Proof.
  apply category_one_object_per_entry.
  repeat constructor. now exists entity_data.
Defined.

(** X17.  The two converters agree on the endpoints: for every relation
    category, the endpoints the graph builder reads from the converted
    object are the values the PROV-JSON record holds under [prov:] plus the
    two role names of the relation type, source first. *)
Theorem converted_relation_endpoints (c type_name a b item_id : string)
    (d : dict) :
  In (c, type_name) TYPE_MAPPINGS ->
  dict_get type_name ENDPOINT_ROLES = Some (a, b) ->
  exists obj,
    _convert_relation item_id (JObj d) type_name c = Some obj
    /\ Ld2viz._get_edge_endpoints obj type_name
       = (get ("prov:" ++ a) d, get ("prov:" ++ b) d).
Proof.
  intros Hin Hr.
  destruct (relation_type_id c item_id type_name d) as (obj & E & _).
  exists obj. split; [exact E|].
  rewrite (Ld2vizProps.endpoints_by_role obj type_name a b Hr). unfold get.
  assert (Hpm : exists pm, dict_get c RELATION_PROPERTIES = Some pm
                           /\ In ("prov:" ++ a, a) pm
                           /\ In ("prov:" ++ b, b) pm).
  { unfold TYPE_MAPPINGS in Hin. cbn [In] in Hin.
    repeat (destruct Hin as [Hin|Hin];
            [injection Hin as <- <-; cbn in Hr;
             first [ discriminate Hr
                   | injection Hr as <- <-;
                     eexists; split; [reflexivity|]; cbn; tauto ]|]).
    contradiction. }
  destruct Hpm as (pm & Hc & Ha & Hb).
  destruct (relation_role_get c pm _ _ item_id type_name d Hc Ha)
    as (o1 & E1 & _ & _ & H1 & _).
  destruct (relation_role_get c pm _ _ item_id type_name d Hc Hb)
    as (o2 & E2 & _ & _ & H2 & _).
  rewrite E in E1, E2. injection E1 as <-. injection E2 as <-.
  now rewrite H1, H2.
Qed.

Lemma converted_relation_endpoints_witness :
  exists obj,
    _convert_relation "_:g1" (JObj generation_data)
      "prov:Generation" "wasGeneratedBy" = Some obj
    /\ Ld2viz._get_edge_endpoints obj "prov:Generation"
       = (JStr "ex:a1", JStr "ex:e1").
Proof.
  apply (converted_relation_endpoints "wasGeneratedBy" "prov:Generation"
           "activity" "entity" "_:g1" generation_data).
  - cbn. tauto.
  - reflexivity.
Defined.

Lemma convert_category_length (c type_name : string) (items : json)
    (objs : list json) :
  _convert_category c items type_name = Some objs ->
  List.length objs = entry_count (Some items).
Proof.
  unfold _convert_category. destruct items; try discriminate.
  apply mapM_length.
Qed.

(** The loop over the categories, for any table of categories *)
Lemma categories_length (table : list (string * string)) (data : dict)
    (graph graph' : list json) :
  foldM (fun graph '(category, type_name) =>
           match dict_get category data with
           | Some items =>
               statements <- _convert_category category items type_name ;;
               Some (graph ++ statements)%list
           | None => Some graph
           end) table graph = Some graph' ->
  List.length graph'
  = (List.length graph
     + list_sum (map (fun ct => entry_count (dict_get (fst ct) data))
                   table))%nat.
Proof.
  unfold list_sum. revert graph.
  induction table as [|[c ty] table IH]; intros graph;
    cbn [foldM map fold_right fst].
  - intros [= <-]. lia.
  - destruct (dict_get c data) as [items|] eqn:E; cbn [bind].
    + destruct (_convert_category c items ty) as [st|] eqn:Ec;
        [|discriminate].
      cbn [bind]. intros H. rewrite (IH _ H), length_app.
      rewrite (convert_category_length _ _ _ _ Ec). lia.
    + intros H. rewrite (IH _ H). cbn. lia.
Qed.

(** X18.  When [convert] returns, the result is an object with exactly the
    keys [@context] and [@graph]; [@graph] holds one object per bundle and
    one per entry of the seventeen categories, and the last entry of
    [@context] is the canonical context IRI. *)
Theorem graph_size (doc : dict) (out : json) :
  convert (JObj doc) = Some out ->
  exists context graph,
    out = JObj [("@context", JArr context); ("@graph", JArr graph)]
    /\ List.length graph = statement_count doc
    /\ last context JNull = JStr PROV_JSONLD_CONTEXT.
Proof.
  unfold convert, statement_count.
  destruct (_extract_namespaces doc) as [ns|]; [|discriminate]. cbn [bind].
  destruct (match dict_get "bundle" doc with
            | Some (JObj bundles) => _
            | Some _ => None
            | None => Some []
            end) as [g0|] eqn:Eb; [|discriminate].
  cbn [bind].
  destruct (convert_categories doc g0) as [g|] eqn:Ec; [|discriminate].
  cbn [bind]. intros [= <-]. exists (_build_context ns), g.
  split; [reflexivity|]. split.
  - rewrite (categories_length _ _ _ _ Ec). f_equal.
    destruct (dict_get "bundle" doc) as [[| | | | | |bundles]|];
      try discriminate.
    + apply mapM_length in Eb. exact Eb.
    + now injection Eb as <-.
  - unfold _build_context. destruct ns; reflexivity.
Qed.

Lemma graph_size_witness :
  exists context graph,
    Some (JObj [("@context", JArr context); ("@graph", JArr graph)])
    = convert (JObj one_of_each)
    /\ List.length graph = 3%nat.
Proof.
  destruct (graph_size one_of_each
              (match convert (JObj one_of_each) with
               | Some out => out
               | None => JNull
               end))
    as (context & graph & E & L & _).
  - reflexivity.
  - exists context, graph. split; [|exact L].
    rewrite <- E. reflexivity.
Defined.

Lemma categories_ext (table : list (string * string)) (d d' : dict)
    (graph : list json) :
  (forall k, In k (map fst table) -> dict_get k d = dict_get k d') ->
  foldM (fun graph '(category, type_name) =>
           match dict_get category d with
           | Some items =>
               statements <- _convert_category category items type_name ;;
               Some (graph ++ statements)%list
           | None => Some graph
           end) table graph
  = foldM (fun graph '(category, type_name) =>
           match dict_get category d' with
           | Some items =>
               statements <- _convert_category category items type_name ;;
               Some (graph ++ statements)%list
           | None => Some graph
           end) table graph.
Proof.
  revert graph. induction table as [|[c ty] table IH]; intros graph H;
    cbn [foldM]; [reflexivity|].
  rewrite <- (H c) by now left.
  destruct (dict_get c d) as [items|]; cbn [bind].
  - destruct (_convert_category c items ty); cbn [bind]; [|reflexivity].
    apply IH. intros; apply H; now right.
  - apply IH. intros; apply H; now right.
Qed.

(** Decide membership in a list of literal keys and settle the lookups *)
Ltac each_key Hk :=
  cbn in Hk; repeat (destruct Hk as [<-|Hk]; [reflexivity|]); contradiction.

(** X19.  The conversion of a bundle depends only on what the bundle holds
    under [prefix] and the seventeen category names: any other key, a
    nested [bundle] included, is ignored, so bundles nest one level
    only. *)
Theorem bundle_reads_registry_keys (bundle_id : string) (b b' : dict) :
  (forall k, In k READ_KEYS -> dict_get k b = dict_get k b') ->
  _convert_bundle bundle_id (JObj b) = _convert_bundle bundle_id (JObj b').
Proof.
  intros H.
  assert (Hns : _extract_namespaces b = _extract_namespaces b').
  { unfold _extract_namespaces. now rewrite (H "prefix") by now left. }
  unfold _convert_bundle, convert_categories. rewrite Hns.
  rewrite (categories_ext TYPE_MAPPINGS b b')
    by (intros; apply H; now right).
  reflexivity.
Qed.

Lemma bundle_reads_registry_keys_witness :
  _convert_bundle "ex:b" (JObj bundle_with_nesting)
  = _convert_bundle "ex:b" (JObj bundle_without_nesting).
Proof.
  apply bundle_reads_registry_keys. intros k Hk. each_key Hk.
Defined.

(** X20.  The result of [convert] depends only on what the document holds
    under [prefix], [bundle] and the seventeen category names: a category
    outside the registry is dropped without notice, and the order of the
    top-level keys does not matter, the output following the order of the
    registry. *)
Theorem convert_reads_registry_keys (doc doc' : dict) :
  (forall k, In k ("bundle" :: READ_KEYS) ->
             dict_get k doc = dict_get k doc') ->
  convert (JObj doc) = convert (JObj doc').
Proof.
  intros H.
  assert (Hns : _extract_namespaces doc = _extract_namespaces doc').
  { unfold _extract_namespaces.
    now rewrite (H "prefix") by (right; now left). }
  unfold convert, convert_categories.
  rewrite Hns, (H "bundle") by now left.
  destruct (_extract_namespaces doc'); [|reflexivity]. cbn [bind].
  destruct (dict_get "bundle" doc') as [[| | | | | |bundles]|];
    try reflexivity; cbn [bind].
  - destruct (mapM _ bundles); [|reflexivity]. cbn [bind].
    now rewrite (categories_ext TYPE_MAPPINGS doc doc')
      by (intros; apply H; right; now right).
  - now rewrite (categories_ext TYPE_MAPPINGS doc doc')
      by (intros; apply H; right; now right).
Qed.

Lemma convert_reads_registry_keys_witness :
  convert (JObj one_of_each_reordered) = convert (JObj one_of_each).
Proof.
  apply convert_reads_registry_keys. intros k Hk. each_key Hk.
Defined.

End Prov2ldMore.

(** ** The two converters in sequence *)

Module Pipeline.
Import PyStr PyStrFacts PyDictFacts MoreFacts.
Import Spec Behaviour Samples Prov2ldProps Ld2vizProps.

(** With a string [@id] the label lookup never raises. *)
Lemma get_label_string_id (item : dict) (id : string) :
  dict_get "@id" item = Some (JStr id) ->
  exists l, Ld2viz._get_label item = Some l.
Proof.
  intros H. unfold Ld2viz._get_label, get_default. rewrite H.
  destruct (Ld2viz.prov_label_value item); [eauto|].
  destruct (Ld2viz.first_label item Ld2viz.LABEL_PROPS); [eauto|].
  unfold Ld2viz.id_label. cbn [truthy].
  destruct (negb (String.eqb id "")); [|eauto].
  destruct (contains ":" id) eqn:C; [|eauto].
  rewrite (split1_after _ _ C). cbn. eauto.
Qed.

(** A node item with a string identifier is always registered. *)
Lemma node_item_total (self : Ld2viz.converter) (item : dict)
    (ty id : string) :
  node_item item ty id ->
  exists d,
    Ld2viz.process_item self (JObj item)
    = Some (Ld2viz.set_nodes self (dict_set id d (Ld2viz.nodes self))).
Proof.
  intros (Ht & Hn & Hi).
  destruct (get_label_string_id item id Hi) as [l Hl].
  unfold Ld2viz.process_item, Ld2viz._process_node, Ld2viz.node_id, get,
    get_default, Ld2viz.node_descriptor.
  rewrite Ht, Hn, Hi, Hl. cbn [bind]. eauto.
Qed.

(** The document the importer makes of one entity, one activity and one
    generation, with the identifiers of the two elements *)
Lemma one_of_each_graph (doc : dict)
    (eid aid gid : string) (edata adata gdata ns : dict) :
  dict_get "entity" doc = Some (JObj [(eid, JObj edata)]) ->
  dict_get "activity" doc = Some (JObj [(aid, JObj adata)]) ->
  dict_get "wasGeneratedBy" doc = Some (JObj [(gid, JObj gdata)]) ->
  (forall c, In c OTHER_CATEGORIES -> dict_mem c doc = false) ->
  Prov2ld._extract_namespaces doc = Some ns ->
  exists e a g,
    Prov2ld.convert (JObj doc)
    = Some (doc_of (JArr (Prov2ld._build_context ns))
              [JObj e; JObj a; JObj g])
    /\ node_item e "prov:Entity" eid
    /\ node_item a "prov:Activity" aid
    /\ dict_get "@type" g = Some (JStr "prov:Generation")
    /\ dict_get "activity" g = dict_get "prov:activity" gdata
    /\ dict_get "entity" g = dict_get "prov:entity" gdata.
Proof.
  intros He Ha Hg Hother Hns.
  destruct (element_type eid edata "prov:Entity") as (e & Ee & Te & Ie).
  destruct (element_type aid adata "prov:Activity") as (a & Ea & Ta & Ia).
  destruct (generation_roles gid gdata) as (g & Eg & Tg & Ag & Ng).
  exists e, a, g.
  split; [|repeat split; assumption].
  unfold Prov2ld.convert, Prov2ld.convert_categories, Prov2ld.TYPE_MAPPINGS,
    doc_of.
  rewrite Hns. cbn [bind foldM].
  repeat match goal with
         | |- context [dict_get ?c doc] =>
             first [ rewrite He | rewrite Ha | rewrite Hg
                   | rewrite (dict_mem_get c doc
                                (Hother c ltac:(cbn; tauto))) ]
         end.
  cbn [bind mapM].
  unfold Prov2ld._convert_category, Prov2ld._convert_item. cbn [mapM].
  change (dict_mem "entity" Prov2ld.RELATION_PROPERTIES) with false.
  change (dict_mem "activity" Prov2ld.RELATION_PROPERTIES) with false.
  change (dict_mem "wasGeneratedBy" Prov2ld.RELATION_PROPERTIES) with true.
  cbn iota. rewrite Ee, Ea, Eg. reflexivity.
Qed.

Import Ld2viz.

(** X21.  From PROV-JSON to the visual graph: a document with one entity,
    one activity (of a different identifier) and one generation whose
    [prov:activity] and [prov:entity] are non-empty strings is converted by
    the importer to a document on which a new graph builder does not raise
    and ends with exactly two nodes, the entity then the activity, and one
    edge from the activity reference to the entity reference, drawn
    backwards and labelled [wasGeneratedBy]. *)
Theorem pipeline_generation (doc : dict)
    (eid aid gid act ent dir : string) (edata adata gdata ns : dict)
    (show : bool) :
  dict_get "entity" doc = Some (JObj [(eid, JObj edata)]) ->
  dict_get "activity" doc = Some (JObj [(aid, JObj adata)]) ->
  dict_get "wasGeneratedBy" doc = Some (JObj [(gid, JObj gdata)]) ->
  (forall c, In c OTHER_CATEGORIES -> dict_mem c doc = false) ->
  Prov2ld._extract_namespaces doc = Some ns ->
  eid <> aid ->
  dict_get "prov:activity" gdata = Some (JStr act) -> act <> "" ->
  dict_get "prov:entity" gdata = Some (JStr ent) -> ent <> "" ->
  exists out self' e label,
    Prov2ld.convert (JObj doc) = Some out
    /\ build (__init__ show dir) out = Some self'
    /\ dict_keys (nodes self') = [eid; aid]
    /\ edges self' = [e]
    /\ e_source e = JStr act /\ e_target e = JStr ent
    /\ e_dir e = "back"
    /\ e_label e = Some label
    /\ startswith label "wasGeneratedBy" = true.
Proof.
  intros He Ha Hg Hother Hns Hne Hact Hact' Hent Hent'.
  destruct (one_of_each_graph doc eid aid gid edata adata gdata ns
              He Ha Hg Hother Hns)
    as (e & a & g & Eout & Ne & Na & Tg & Ag & Ng).
  rewrite Hact in Ag. rewrite Hent in Ng.
  pose (s0 := set_namespaces (__init__ show dir)
                (fold_left (fun ns ctx => match ctx with
                                          | JObj d => dict_update ns d
                                          | _ => ns
                                          end)
                   (Prov2ld._build_context ns) [])).
  destruct (node_item_total s0 e _ _ Ne) as [d1 E1].
  pose (s1 := set_nodes s0 (dict_set eid d1 (nodes s0))).
  destruct (node_item_total s1 a _ _ Na) as [d2 E2].
  pose (s2 := set_nodes s1 (dict_set aid d2 (nodes s1))).
  assert (Hep : _get_edge_endpoints g "prov:Generation"
                = (JStr act, JStr ent)).
  { cbn. now rewrite (get_present _ _ _ Ag), (get_present _ _ _ Ng). }
  assert (E3 := relation_edge s2 g "prov:Generation"
             {| es_label := "wasGeneratedBy"; es_style := "solid";
                es_dir := "back"; es_color := Some "#006400";
                es_arrowhead := None |} (JStr act) (JStr ent) Tg eq_refl
             Hep (truthy_str _ Hact') (truthy_str _ Hent') eq_refl).
  pose (label := annotate "wasGeneratedBy"
                   (role_suffix g ++ time_suffix g)).
  pose (ed := styled_edge
                {| es_label := "wasGeneratedBy"; es_style := "solid";
                   es_dir := "back"; es_color := Some "#006400";
                   es_arrowhead := None |}
                (JStr act) (JStr ent) (Some label)).
  exists (doc_of (JArr (Prov2ld._build_context ns)) [JObj e; JObj a; JObj g]),
    (set_edges s2 (edges s2 ++ [ed])), ed, label.
  split; [exact Eout|]. split.
  { change (foldM process_item [JObj e; JObj a; JObj g] s0
            = Some (set_edges s2 (edges s2 ++ [ed]))).
    cbn [foldM]. rewrite E1. cbn [bind]. fold s1. rewrite E2. cbn [bind].
    fold s2. rewrite E3. reflexivity. }
  split.
  { cbn. destruct (String.eqb_spec eid aid); [contradiction | reflexivity]. }
  split; [reflexivity|].
  cbn [styled_edge e_source e_target e_dir e_label es_dir es_label].
  repeat split. apply (startswith_annotate "wasGeneratedBy").
Qed.

Lemma pipeline_generation_witness :
  exists out self' e label,
    Prov2ld.convert (JObj one_of_each) = Some out
    /\ build fresh out = Some self'
    /\ dict_keys (nodes self') = ["ex:e1"; "ex:a1"]
    /\ edges self' = [e]
    /\ e_source e = JStr "ex:a1" /\ e_target e = JStr "ex:e1"
    /\ e_dir e = "back"
    /\ e_label e = Some label
    /\ startswith label "wasGeneratedBy" = true.
Proof.
  apply (pipeline_generation one_of_each "ex:e1" "ex:a1" "_:g1" "ex:a1"
           "ex:e1" "LR" entity_data activity_data generation_data
           example_namespaces true);
    try reflexivity; try discriminate.
  intros c Hc. cbn in Hc.
  repeat (destruct Hc as [<-|Hc]; [reflexivity|]). contradiction.
Defined.

End Pipeline.
